(** * GNSS writers of [where]: GRC CSV rows and GNSS plots

    A shallow embedding of [where/writers/_gnss.py] (module [Gnss]) and of
    [where/writers/_gnss_plot.py] (module [GnssPlot]), with the properties
    of the two units stated and proved over it.

    Conventions of the embedding.
    - A Python [str] is a [string]; one [ascii] stands for one character.
      The only text outside ASCII in the sources, the sign in the targets
      ["≤ 2"] and ["≤ 7"], is carried as its UTF-8 bytes.
    - A Python [float] and a numpy [float64] are a [spec_float] at
      precision 53 and maximal exponent 1024 (IEEE 754 binary64).
    - A dict literal is an association list in source order; [getitem]
      is [d[k]] and raises [KeyError], [lookup] is the guarded form
      [d[k] if k in d.keys() else ...].
    - Code that raises or has effects runs in the monad [M]: a state
      transformer whose result is a raised exception or a value.  The
      state reached when an exception is raised is kept, as in Python. *)

From Stdlib Require Import String Ascii List ZArith Lia Bool Arith.
From Stdlib Require Import SpecFloat DecimalString.
From Stdlib Require Import Sorted OrdersEx RelationClasses Permutation.
Import ListNotations.

Set Warnings "-register-all".

Open Scope string_scope.
Open Scope list_scope.

(** ** Exceptions and the state-and-exception monad *)

Inductive exn : Type :=
| KeyError (key : string)
| ValueError (msg : string)
| AttributeError (name : string)
| OSError (msg : string)
| ExternalError (msg : string).

Definition M (St A : Type) : Type := St -> (exn + A) * St.

Definition ret {St A} (a : A) : M St A := fun s => (inr a, s).

Definition raise {St A} (e : exn) : M St A := fun s => (inl e, s).

Definition bind {St A B} (m : M St A) (f : A -> M St B) : M St B :=
  fun s =>
    match m s with
    | (inl e, s') => (inl e, s')
    | (inr a, s') => f a s'
    end.

Definition lift {St A} (r : exn + A) : M St A := fun s => (r, s).

Definition modify {St} (f : St -> St) : M St unit := fun s => (inr tt, f s).

Declare Scope monad_scope.
Delimit Scope monad_scope with monad.
Notation "x <- c1 ;; c2" := (bind c1 (fun x => c2))
  (at level 61, c1 at next level, right associativity) : monad_scope.
Notation "c1 ;;; c2" := (bind c1 (fun _ => c2))
  (at level 61, right associativity) : monad_scope.

(** [for x in xs: acc = body acc x]: a loop that updates its local
    variables [acc] and may raise or change the state. *)
Fixpoint for_fold {St A B} (xs : list A) (acc : B) (body : B -> A -> M St B)
  : M St B :=
  match xs with
  | [] => ret acc
  | x :: xs' => bind (body acc x) (fun acc' => for_fold xs' acc' body)
  end.

(** ** Python strings and dicts *)

Module Py.

Definition len (s : string) : nat := String.length s.

(** [s.startswith(p)] *)
Definition startswith (s p : string) : bool := String.prefix p s.

(** Truth value of a string: non-empty. *)
Definition truthy (s : string) : bool :=
  match s with EmptyString => false | String _ _ => true end.

(** [str.replace(old, new)] for a non-empty [old]: the occurrences of
    [old] are found from the left and do not overlap; [skip] counts the
    characters of a matched occurrence that are still to be passed. *)
Fixpoint replace_from (old new : string) (skip : nat) (s : string) : string :=
  match s with
  | EmptyString => EmptyString
  | String c s' =>
      match skip with
      | S k => replace_from old new k s'
      | O =>
          if String.prefix old s
          then new ++ replace_from old new (String.length old - 1) s'
          else String c (replace_from old new 0 s')
      end
  end.

(** With an empty [old], [new] is put before every character and at
    the end. *)
Fixpoint interleave (new s : string) : string :=
  match s with
  | EmptyString => new
  | String c s' => new ++ String c (interleave new s')
  end.

Definition replace (s old new : string) : string :=
  match old with
  | EmptyString => interleave new s
  | String _ _ => replace_from old new 0 s
  end.

Definition is_lower (c : ascii) : bool :=
  Nat.leb 97 (nat_of_ascii c) && Nat.leb (nat_of_ascii c) 122.

Definition is_upper (c : ascii) : bool :=
  Nat.leb 65 (nat_of_ascii c) && Nat.leb (nat_of_ascii c) 90.

Definition upper_char (c : ascii) : ascii :=
  if is_lower c then ascii_of_nat (nat_of_ascii c - 32) else c.

Definition lower_char (c : ascii) : ascii :=
  if is_upper c then ascii_of_nat (nat_of_ascii c + 32) else c.

Fixpoint map_chars (f : ascii -> ascii) (s : string) : string :=
  match s with
  | EmptyString => EmptyString
  | String c s' => String (f c) (map_chars f s')
  end.

(** [s.upper()], [s.lower()], [s.capitalize()] *)
Definition upper (s : string) : string := map_chars upper_char s.
Definition lower (s : string) : string := map_chars lower_char s.
Definition capitalize (s : string) : string :=
  match s with
  | EmptyString => EmptyString
  | String c s' => String (upper_char c) (lower s')
  end.

(** [k in d.keys()] and [d[k]] on a dict held as an association list. *)
Fixpoint lookup {V} (k : string) (d : list (string * V)) : option V :=
  match d with
  | [] => None
  | (k', v) :: d' => if String.eqb k k' then Some v else lookup k d'
  end.

(** [d[k] if k in d.keys() else default] *)
Definition get_or {V} (d : list (string * V)) (k : string) (default : V) : V :=
  match lookup k d with Some v => v | None => default end.

Definition getitem {St V} (d : list (string * V)) (k : string) : M St V :=
  match lookup k d with
  | Some v => ret v
  | None => raise (KeyError k)
  end.

(** [sep.join(parts)] *)
Definition join (sep : string) (parts : list string) : string :=
  String.concat sep parts.

(** [s.split(sep)] for a separator of one character. *)
Fixpoint split (sep : ascii) (s : string) : list string :=
  match s with
  | EmptyString => [EmptyString]
  | String c s' =>
      if Ascii.eqb c sep then EmptyString :: split sep s'
      else
        match split sep s' with
        | [] => [String c EmptyString]
        | w :: ws => String c w :: ws
        end
  end.

(** [x[-2:3]]: from the last but one character (from the start when
    the string is shorter) up to index 3. *)
Definition slice_m2_3 (x : string) : string :=
  let start := String.length x - 2 in
  let stop := Nat.min 3 (String.length x) in
  String.substring start (stop - start) x.

(** Stable sorting, as [sorted] and [list.sort] are: an element goes
    before the first element of the sorted rest it may precede by [le],
    so elements that compare equal keep their order. *)
Fixpoint insert_by {A} (le : A -> A -> bool) (x : A) (l : list A) : list A :=
  match l with
  | [] => [x]
  | y :: l' => if le x y then x :: l else y :: insert_by le x l'
  end.

Definition sort_by {A} (le : A -> A -> bool) (l : list A) : list A :=
  fold_right (insert_by le) [] l.

(** [sorted(l)] and [sorted(l, reverse=True)] on strings. *)
Definition sorted (l : list string) : list string := sort_by String.leb l.
Definition sorted_reverse (l : list string) : list string :=
  sort_by (fun x y => String.leb y x) l.

(** [l.sort(key=key)] on strings, the keys compared as strings. *)
Definition sort_key (key : string -> string) (l : list string) : list string :=
  sort_by (fun x y => String.leb (key x) (key y)) l.

(** [{**d, k: v}] and [d[k] = v]: the value of an old key is replaced
    in place, a new key goes to the end. *)
Fixpoint setitem {V} (d : list (string * V)) (k : string) (v : V)
  : list (string * V) :=
  match d with
  | [] => [(k, v)]
  | (k', v') :: d' =>
      if String.eqb k k' then (k', v) :: d' else (k', v') :: setitem d' k v
  end.

(** [{**d1, **d2}] *)
Definition merge {V} (d1 d2 : list (string * V)) : list (string * V) :=
  fold_left (fun d kv => setitem d (fst kv) (snd kv)) d2 d1.

Definition keys {V} (d : list (string * V)) : list string := map fst d.

(** numpy: [a[mask]] and [a[mask] = values] for a boolean mask, and
    [np.unique]. *)
Fixpoint take_mask {A} (mask : list bool) (a : list A) : list A :=
  match mask, a with
  | b :: mask', x :: a' =>
      if b then x :: take_mask mask' a' else take_mask mask' a'
  | _, _ => []
  end.

Fixpoint put_mask {A} (mask : list bool) (a values : list A) : list A :=
  match mask, a with
  | b :: mask', x :: a' =>
      if b then
        match values with
        | v :: values' => v :: put_mask mask' a' values'
        | [] => x :: put_mask mask' a' []
        end
      else x :: put_mask mask' a' values
  | _, _ => a
  end.

Definition unique (a : list string) : list string :=
  sorted (nodup string_dec a).

End Py.

(** ** IEEE 754 binary64 values *)

Module Float.

Definition prec : Z := 53.
Definition emax : Z := 1024.

Definition float : Type := spec_float.

Definition of_Z (z : Z) : float := binary_normalize prec emax z 0 false.
Definition add (x y : float) : float := SFadd prec emax x y.
Definition mul (x y : float) : float := SFmul prec emax x y.
Definition div (x y : float) : float := SFdiv prec emax x y.
Definition ltb (x y : float) : bool := SFltb x y.

Definition zero : float := S754_zero false.
Definition nan : float := S754_nan.

(** [np.isnan] *)
Definition isnan (x : float) : bool :=
  match x with S754_nan => true | _ => false end.

(** [np.pi], the double nearest to pi: 0x400921FB54442D18. *)
Definition pi : float := S754_finite false 7074237752028440 (-51).

(** [np.rad2deg(x)] is [x * (180.0 / pi)]. *)
Definition rad2deg (x : float) : float := mul x (div (of_Z 180) pi).

Definition digits (n : Z) : string :=
  NilZero.string_of_uint (N.to_uint (Z.to_N n)).

Fixpoint zeros (n : nat) : string :=
  match n with O => "" | S n' => String "0" (zeros n') end.

(** The integer nearest to [m * 2^e * 10^p], ties to even. *)
Definition scale_round (m : positive) (e : Z) (p : Z) : Z :=
  let num := (Zpos m * 10 ^ p)%Z in
  if (0 <=? e)%Z then (num * 2 ^ e)%Z
  else
    let den := (2 ^ (- e))%Z in
    let q := (num / den)%Z in
    let r := (num mod den)%Z in
    match (2 * r ?= den)%Z with
    | Lt => q
    | Gt => (q + 1)%Z
    | Eq => if Z.even q then q else (q + 1)%Z
    end.

(** [f"{x:.5f}"]: fixed point with five fractional digits, correctly
    rounded from the exact binary value. *)
Definition format_5f (x : float) : string :=
  match x with
  | S754_nan => "nan"
  | S754_infinity s => if s then "-inf" else "inf"
  | S754_zero s => (if s then "-" else "") ++ "0.00000"
  | S754_finite s m e =>
      let n := scale_round m e 5 in
      let frac := digits (n mod 100000) in
      (if s then "-" else "") ++ digits (n / 100000) ++ "."
        ++ zeros (5 - String.length frac) ++ frac
  end.

End Float.

(** ** [where/writers/_gnss.py] *)

Module Gnss.

Definition get_grc_csv_header : list string :=
  [ "Constellation";
    "Service Line";
    "Service Category";
    "Business Service";
    "Batch";
    "Satellite";
    "PRN";
    "Slot";
    "GSS Site";
    "Station";
    "Service";
    "Type";
    "Mode";
    "Target";
    "Unit";
    "Date";
    "Result" ].

(** *** [datetime.strptime(text, "%y-%b-%d")] *)

(** The date part of a [datetime]; [strptime] with this format leaves
    the time of day at midnight. *)
Record datetime : Type := { year : Z; month : Z; day : Z }.

Definition is_digit (c : ascii) : bool :=
  Nat.leb 48 (nat_of_ascii c) && Nat.leb (nat_of_ascii c) 57.

Definition digit_val (c : ascii) : Z := Z.of_nat (nat_of_ascii c - 48).

(** Abbreviated month names of the C locale, as [%b] matches them
    (without regard to case). *)
Definition month_abbr : list (string * Z) :=
  [ ("jan", 1); ("feb", 2); ("mar", 3); ("apr", 4); ("may", 5);
    ("jun", 6); ("jul", 7); ("aug", 8); ("sep", 9); ("oct", 10);
    ("nov", 11); ("dec", 12) ]%Z.

(** [%d] is the regular expression
    [3[0-1]|[1-2]\d|0[1-9]|[1-9]| [1-9]]; the alternatives are tried in
    this order.  The result is the day and the text left over. *)
Definition match_day (s : string) : option (Z * string) :=
  let nonzero c := is_digit c && negb (Ascii.eqb c "0") in
  match s with
  | String c1 (String c2 rest) =>
      if Ascii.eqb c1 "3" && (Ascii.eqb c2 "0" || Ascii.eqb c2 "1")
      then Some (30 + digit_val c2, rest)%Z
      else if (Ascii.eqb c1 "1" || Ascii.eqb c1 "2") && is_digit c2
      then Some (10 * digit_val c1 + digit_val c2, rest)%Z
      else if Ascii.eqb c1 "0" && nonzero c2
      then Some (digit_val c2, rest)
      else if nonzero c1
      then Some (digit_val c1, String c2 rest)
      else if Ascii.eqb c1 " " && nonzero c2
      then Some (digit_val c2, rest)
      else None
  | String c1 EmptyString =>
      if nonzero c1 then Some (digit_val c1, EmptyString) else None
  | EmptyString => None
  end.

Definition is_leap (y : Z) : bool :=
  ((y mod 4 =? 0) && (negb (y mod 100 =? 0) || (y mod 400 =? 0)))%Z.

Definition days_in_month (y m : Z) : Z :=
  (if m =? 2 then (if is_leap y then 29 else 28)
   else if (m =? 4) || (m =? 6) || (m =? 9) || (m =? 11) then 30
   else 31)%Z.

Definition no_match (text : string) : exn :=
  ValueError ("time data '" ++ text ++ "' does not match format '%y-%b-%d'").

(** [%y] is [\d\d], with 00..68 read as 2000..2068 and 69..99 as
    1969..1999; the literal [-] matches itself; the whole text has to be
    used up and the date has to exist. *)
Definition strptime_y_b_d (text : string) : exn + datetime :=
  match text with
  | String y1 (String y2 (String "-"
      (String b1 (String b2 (String b3 (String "-" rest)))))) =>
      if is_digit y1 && is_digit y2 then
        match Py.lookup (Py.lower (String b1 (String b2 (String b3 "")))) month_abbr with
        | Some m =>
            match match_day rest with
            | Some (d, EmptyString) =>
                let yy := (10 * digit_val y1 + digit_val y2)%Z in
                let y := (if yy <=? 68 then 2000 + yy else 1900 + yy)%Z in
                if (d <=? days_in_month y m)%Z
                then inr {| year := y; month := m; day := d |}
                else inl (ValueError "day is out of range for month")
            | Some (_, String _ _ as left) =>
                inl (ValueError ("unconverted data remains: " ++ left))
            | None => inl (no_match text)
            end
        | None => inl (no_match text)
        end
      else inl (no_match text)
  | _ => inl (no_match text)
  end.

(** *** The satellite-metadata collaborator *)

Record sat_info : Type := { sat_type : string; sat_code : string }.

(** [atx.get_satellite_info(satellite, date)], which may raise. *)
Record AntennaCorrection : Type :=
  { get_satellite_info : string -> datetime -> exn + sat_info }.

(** The effect of a call of [get_grc_csv_row] is the list of queries it
    sent to the collaborator. *)
Definition Queries : Type := list (string * datetime).

Definition call_get_satellite_info (atx : AntennaCorrection)
    (satellite : string) (date : datetime) : M Queries sat_info :=
  fun sent => (get_satellite_info atx satellite date, sent ++ [(satellite, date)]).

(** *** Lookup tables of [get_grc_csv_row] *)

Definition batch_def : list (string * string) :=
  [ ("GALILEO-1", "IOV");
    ("GALILEO-2", "FOC");
    ("BLOCK IIIA", "III");
    ("BLOCK IIF", "IIF");
    ("BLOCK IIR-A", "IIR");
    ("BLOCK IIR-B", "IIR");
    ("BLOCK IIR-M", "IIR-M") ].

Definition business_def : list (string * list (string * string)) :=
  [ ("Galileo",
     [ ("hpe", "FOM-OS-08 Horizontal Positioning Service Accuracy per Station over Month");
       ("site_vel_3d", "FOM-OS-14 3D Velocity Service Accuracy per Station over Month");
       ("sisre", "SDD-OS-08 SIS Ranging Accuracy over All Satellites over Month");
       ("sisre_sat", "SDD-OS-09 SIS Ranging Accuracy per Satellite over Month");
       ("vpe", "FOM-OS-09 Vertical Positioning Service Accuracy per Station over Month") ]);
    ("GPS",
     [ ("hpe", "FOM-OS-08 Horizontal Positioning Service Accuracy per Station over Month");
       ("site_vel_3d", "FOM-OS-14 3D Velocity Service Accuracy per Station over Month");
       ("sisre", "SPS-OS-02 SIS Ranging Accuracy over All Satellites over Month");
       ("sisre_sat", "SPS-OS-04 SIS Ranging Accuracy per Satellite over Month");
       ("vpe", "FOM-OS-09 Vertical Positioning Service Accuracy per Station over Month") ]) ].

Definition category_def : list (string * string) :=
  [ ("hpe", "Position Domain");
    ("site_vel_3d", "Position Domain");
    ("sisre", "Ranging Domain");
    ("sisre_sat", "Ranging Domain");
    ("vpe", "Position Domain") ].

Definition mode_def : list (string * string) :=
  [ ("e1", "E1");
    ("e1e5a", "E1/E5a");
    ("e1e5b", "E1/E5b");
    ("l1", "L1");
    ("l1l2", "L1/L2") ].

Definition slot_def : list (string * string) :=
  [ ("SVN43", "F6"); ("SVN45", "D3"); ("SVN48", "A4"); ("SVN50", "E3");
    ("SVN51", "E4"); ("SVN52", "A2"); ("SVN53", "C4"); ("SVN55", "F2");
    ("SVN56", "B1"); ("SVN57", "C1"); ("SVN58", "B4"); ("SVN59", "C5");
    ("SVN61", "D1"); ("SVN62", "B2"); ("SVN63", "D2"); ("SVN64", "A3");
    ("SVN65", "A1"); ("SVN66", "C2"); ("SVN67", "D4"); ("SVN68", "F3");
    ("SVN69", "E1"); ("SVN70", "F1"); ("SVN71", "B5"); ("SVN72", "C3");
    ("SVN73", "E2"); ("SVN74", "F4"); ("SVN75", "D6"); ("SVN76", "E5");
    ("SVN77", "B6"); ("SVN78", "D5"); ("SVN79", "A6");
    ("GSAT0101", "B05"); ("GSAT0102", "B06"); ("GSAT0103", "C04");
    ("GSAT0104", "C14"); ("GSAT0201", "EXT01"); ("GSAT0202", "EXT02");
    ("GSAT0203", "B08"); ("GSAT0204", "B14"); ("GSAT0205", "A08");
    ("GSAT0206", "A05"); ("GSAT0207", "C06"); ("GSAT0208", "C07");
    ("GSAT0209", "C02"); ("GSAT0210", "A02"); ("GSAT0211", "A06");
    ("GSAT0212", "C08"); ("GSAT0213", "C03"); ("GSAT0214", "C01");
    ("GSAT0215", "A03"); ("GSAT0216", "A07"); ("GSAT0217", "A04");
    ("GSAT0218", "A01"); ("GSAT0219", "B04"); ("GSAT0220", "B01");
    ("GSAT0221", "B02"); ("GSAT0222", "B07"); ("GSAT0223", "B03");
    ("GSAT0224", "B15") ].

Definition station_def : list (string * string) :=
  [ ("altc", "Alta (Norway)");
    ("brux", "Brussels (Belgium)");
    ("cpvg", "Cap-Vert (Cabo Verde)");
    ("koug", "Kourou (French Guiana)");
    ("hofs", "Hoefn (Iceland)");
    ("hons", "Honningsvag (Norway)");
    ("janm", "Jan Mayen (Norway)");
    ("krss", "Kristiansand (Norway)");
    ("mas1", "Maspalomas (Spain)");
    ("nabd", "Ny Alesund (Norway)");
    ("nklg", "N' Koltang (Gabon)");
    ("vegs", "Vega (Norway)") ].

Definition target_def : list (string * string) :=
  [ ("hpe", "");
    ("site_vel_3d", "");
    ("sisre", "≤ 2");
    ("sisre_sat", "≤ 7");
    ("vpe", "") ].

Definition unit_def : list (string * string) :=
  [ ("hpe", "m");
    ("site_vel_3d", "m/s");
    ("sisre", "m");
    ("sisre_sat", "m");
    ("vpe", "m") ].

(** The branches on [sat_info["sat_code"]] that set [svn]. *)
Definition svn_of_sat_code (code : string) : string :=
  if Py.startswith code "E" then Py.replace code "E" "GSAT0"
  else if Py.startswith code "G" then Py.replace code "G0" "SVN"
  else code.

Section Row.

(** [apriori.get], the loader of the collaborators. *)
Variable apriori_get : string -> exn + AntennaCorrection.

(** The block under [if satellite:]; its value is
    [(batch, svn, slot)], all empty when [satellite] is empty. *)
Definition satellite_fields (date satellite : string)
  : M Queries (string * string * string) :=
  (if Py.truthy satellite then
     atx <- lift (apriori_get "gnss_antenna_correction") ;;
     used_date <- lift (strptime_y_b_d (date ++ "-01")) ;;
     sat_info <- call_get_satellite_info atx satellite used_date ;;
     let batch := Py.get_or batch_def (sat_type sat_info) "" in
     let svn := svn_of_sat_code (sat_code sat_info) in
     let slot := Py.get_or slot_def svn "" in
     ret (batch, svn, slot)
   else ret ("", "", ""))%monad.

Definition get_grc_csv_row
    (constellation kpi mode date : string) (result : Float.float)
    (station satellite : string) : M Queries (list string) :=
  (let type_ := if Nat.eqb (Py.len mode) 2 then "Single" else "Dual" in
   let mode_to_write := Py.get_or mode_def mode mode in
   let station_to_write := Py.get_or station_def station "" in
   fields <- satellite_fields date satellite ;;
   let '(batch, svn, slot) := fields in
   category <- Py.getitem category_def kpi ;;
   by_kpi <- Py.getitem business_def constellation ;;
   business <- Py.getitem by_kpi kpi ;;
   target <- Py.getitem target_def kpi ;;
   unit_ <- Py.getitem unit_def kpi ;;
   ret [ constellation;
         "Open Service";
         category;
         business;
         batch;
         svn;
         satellite;
         slot;
         station_to_write;
         Py.upper station;
         "OS";
         type_;
         mode_to_write;
         target;
         unit_;
         date;
         Float.format_5f result ])%monad.

End Row.

End Gnss.

(** ** [where/writers/_gnss_plot.py] *)

Module GnssPlot.

Definition FIGURE_FORMAT : string := "png".

(** *** Data *)

(** A [datetime] of the dataset: a point on the time line, which the
    plots copy and compare. *)
Definition datetime : Type := Z.

(** An entry of an array handed to the plotting collaborator. *)
Inductive cell : Type :=
| Time (t : datetime)
| Num (x : Float.float)
| Text (s : string).

(** A value of the [opt_args] dict. *)
Inductive value : Type :=
| VBool (b : bool)
| VInt (n : Z)
| VFloat (x : Float.float)
| VStr (s : string)
| VTime (t : datetime)
| VSeq (items : list value).

(** One call of [plot(...)], by its keyword arguments. *)
Record PlotCall : Type :=
  { x_arrays : list (list cell);
    y_arrays : list (list cell);
    xlabel : string;
    ylabel : string;
    y_unit : string;
    labels : option (list string);
    colors : option (list string);
    figure_path : string;
    opt_args : list (string * value) }.

Inductive level : Type := Debug | Warn.

Record SitePos : Type :=
  { azimuth : list Float.float;
    zenith_distance : list Float.float;
    elevation : list Float.float }.

(** The dataset collaborator, by the parts the plots read: columns of
    one entry per observation, float fields addressed by name (a member
    of a collection as ["collection.field"]), and the metadata maps. *)
Record Dataset : Type :=
  { time_datetime : list datetime;
    time_gps_datetime : list datetime;
    system : list string;
    satellite : list string;
    site_pos : SitePos;
    fields : list (string * list Float.float);
    meta_obstypes : list (string * list string);
    meta_linear_combination : list (string * list (string * list string));
    vars : list (string * string);
    analysis : list (string * string) }.

Definition num_obs (d : Dataset) : nat := List.length (time_datetime d).

(** [enums.gnss_id_to_name[sys]]: its [.value] and its text in an
    f-string. *)
Record EnumMember : Type := { value_ : string; shown : string }.

(** What [_get_dataset] returns. *)
Inductive StageData : Type :=
| StageDataset (d : Dataset)
| ExitStatus_error.

Record FigureInfo : Type :=
  { file_path : string;
    name : string;
    system_ : string;
    obstype : list string }.

(** The state a plot call acts on: the dataset of the [GnssPlot]
    object, which its caller owns, the figures handed to the plotting
    collaborator and the log. *)
Record State : Type :=
  { dset : Dataset;
    plots : list PlotCall;
    logged : list (level * string) }.

Definition set_dset (f : Dataset -> Dataset) (st : State) : State :=
  {| dset := f (dset st); plots := plots st; logged := logged st |}.

Definition with_fields (fs : list (string * list Float.float)) (d : Dataset)
  : Dataset :=
  {| time_datetime := time_datetime d;
     time_gps_datetime := time_gps_datetime d;
     system := system d;
     satellite := satellite d;
     site_pos := site_pos d;
     fields := fs;
     meta_obstypes := meta_obstypes d;
     meta_linear_combination := meta_linear_combination d;
     vars := vars d;
     analysis := analysis d |}.

Definition with_meta_obstypes (m : list (string * list string)) (d : Dataset)
  : Dataset :=
  {| time_datetime := time_datetime d;
     time_gps_datetime := time_gps_datetime d;
     system := system d;
     satellite := satellite d;
     site_pos := site_pos d;
     fields := fields d;
     meta_obstypes := m;
     meta_linear_combination := meta_linear_combination d;
     vars := vars d;
     analysis := analysis d |}.

Definition with_azimuth (a : list Float.float) (d : Dataset) : Dataset :=
  {| time_datetime := time_datetime d;
     time_gps_datetime := time_gps_datetime d;
     system := system d;
     satellite := satellite d;
     site_pos := {| azimuth := a;
                    zenith_distance := zenith_distance (site_pos d);
                    elevation := elevation (site_pos d) |};
     fields := fields d;
     meta_obstypes := meta_obstypes d;
     meta_linear_combination := meta_linear_combination d;
     vars := vars d;
     analysis := analysis d |}.

(** [dset.subset(keep_idx)] *)
Definition subset (keep_idx : list bool) (d : Dataset) : Dataset :=
  {| time_datetime := Py.take_mask keep_idx (time_datetime d);
     time_gps_datetime := Py.take_mask keep_idx (time_gps_datetime d);
     system := Py.take_mask keep_idx (system d);
     satellite := Py.take_mask keep_idx (satellite d);
     site_pos :=
       {| azimuth := Py.take_mask keep_idx (azimuth (site_pos d));
          zenith_distance := Py.take_mask keep_idx (zenith_distance (site_pos d));
          elevation := Py.take_mask keep_idx (elevation (site_pos d)) |};
     fields := map (fun kv => (fst kv, Py.take_mask keep_idx (snd kv))) (fields d);
     meta_obstypes := meta_obstypes d;
     meta_linear_combination := meta_linear_combination d;
     vars := vars d;
     analysis := analysis d |}.

(** [dset.filter(system=sys)], [dset.filter(satellite=sat)] and
    [column == sys]: the mask of the entries equal to the key. *)
Definition mask_eq (column : list string) (key : string) : list bool :=
  map (String.eqb key) column.

(** [dset[name]] and [dset.name] on a float field. *)
Definition getitem_field (d : Dataset) (name_ : string) : exn + list Float.float :=
  match Py.lookup name_ (fields d) with
  | Some a => inr a
  | None => inl (KeyError name_)
  end.

Definition getattr_field (d : Dataset) (name_ : string) : exn + list Float.float :=
  match Py.lookup name_ (fields d) with
  | Some a => inr a
  | None => inl (AttributeError name_)
  end.

(** [dset.<collection>.fields]: the members of a collection, without
    the name of the collection. *)
Definition collection_fields (d : Dataset) (collection : string) : list string :=
  let p := (collection ++ ".")%string in
  map (fun n => String.substring (String.length p) (String.length n - String.length p) n)
    (filter (fun n => String.prefix p n) (Py.keys (fields d))).

(** [np.all(np.isnan(a))] and [np.any(a)] *)
Definition all_nan (a : list Float.float) : bool := forallb Float.isnan a.
Definition any (a : list bool) : bool := existsb (fun b => b) a.

Definition path_join (dir file : string) : string :=
  if Py.startswith file "/" then file else (dir ++ "/" ++ file)%string.

(** The options shared by the scatter plots of fields. *)
Definition scatter_opt_args : list (string * value) :=
  [ ("figsize", VSeq [VInt 7; VInt 6]);
    ("legend", VBool true);
    ("legend_ncol", VInt 6);
    ("legend_location", VStr "bottom");
    ("plot_to", VStr "file");
    ("plot_type", VStr "scatter");
    ("statistic", VSeq [VStr "rms"; VStr "mean"; VStr "std"; VStr "min";
                        VStr "max"; VStr "percentile"]) ].

(** *** Effects *)

Definition get_dset : M State Dataset := fun st => (inr (dset st), st).

Definition log_debug (msg : string) : M State unit :=
  modify (fun st => {| dset := dset st; plots := plots st;
                       logged := logged st ++ [(Debug, msg)] |}).

Definition log_warn (msg : string) : M State unit :=
  modify (fun st => {| dset := dset st; plots := plots st;
                       logged := logged st ++ [(Warn, msg)] |}).

Definition plot (call : PlotCall) : M State unit :=
  modify (fun st => {| dset := dset st; plots := plots st ++ [call];
                       logged := logged st |}).

(** The list object [self.dset.meta["obstypes"][sys]], which
    [_sort_string_array] receives and sorts where it lives. *)
Inductive list_ref : Type := Obstypes (sys : string).

Definition deref (r : list_ref) : M State (list string) :=
  let 'Obstypes sys := r in
  (d <- get_dset ;; Py.getitem (meta_obstypes d) sys)%monad.

Definition assign (r : list_ref) (items : list string) : M State unit :=
  let 'Obstypes sys := r in
  modify (set_dset (fun d =>
    with_meta_obstypes (Py.setitem (meta_obstypes d) sys items) d)).

Definition num_cells (r : exn + list Float.float) : exn + list cell :=
  match r with
  | inl e => inl e
  | inr a => inr (map Num a)
  end.

Definition two_pi : Float.float := Float.mul (Float.of_Z 2) Float.pi.

(** [keep_idx[idx] = True] *)
Definition set_true (keep_idx idx : list bool) : list bool :=
  Py.put_mask idx keep_idx (repeat true (List.length idx)).

Section Methods.

(** [self.figure_dir]; [self.dset] is the dataset of the state. *)
Variable figure_dir : string.

(** The collaborators: [enums.gnss_id_to_name],
    [gnss.get_number_of_satellites], [config.files.path],
    [Path.exists], [dataset.Dataset.read], and whether
    [dset.site_pos.azimuth] hands out the array the dataset holds
    rather than a new array. *)
Variable gnss_id_to_name : list (string * EnumMember).
Variable get_number_of_satellites :
  list string -> list string -> list datetime -> list Float.float.
Variable config_files_path : string -> list (string * string) -> string.
Variable path_exists : string -> bool.
Variable dataset_read : list (string * string) -> exn + Dataset.
Variable azimuth_shared : bool.

(** The loop
    [for sat in sorted(self.dset.unique("satellite")):
       if not sat.startswith(sys): continue ...]
    that fills [x_arrays], [y_arrays] and [labels]. *)
Definition satellite_series (sys : string) (x : Dataset -> list cell)
    (y : Dataset -> exn + list cell)
  : M State (list (list cell) * list (list cell) * list string) :=
  (d <- get_dset ;;
   for_fold (Py.sorted (Py.unique (satellite d))) ([], [], [])
     (fun acc sat =>
        if negb (Py.startswith sat sys) then ret acc
        else
          d <- get_dset ;;
          let idx := mask_eq (satellite d) sat in
          ys <- lift (y d) ;;
          ret (fst (fst acc) ++ [Py.take_mask idx (x d)],
               snd (fst acc) ++ [Py.take_mask idx ys],
               snd acc ++ [sat])))%monad.

Definition gps_time (d : Dataset) : list cell := map Time (time_gps_datetime d).

Definition plot_dop (figure_name : string) : M State string :=
  (let figure_path :=
     path_join figure_dir (Py.replace figure_name "{FIGURE_FORMAT}" FIGURE_FORMAT) in
   log_debug ("Plot " ++ figure_path ++ ".") ;;;
   d <- get_dset ;;
   gdop <- lift (getattr_field d "gdop") ;;
   pdop <- lift (getattr_field d "pdop") ;;
   vdop <- lift (getattr_field d "vdop") ;;
   hdop <- lift (getattr_field d "hdop") ;;
   tdop <- lift (getattr_field d "tdop") ;;
   plot {| x_arrays := [gps_time d; gps_time d; gps_time d; gps_time d; gps_time d];
           y_arrays := [map Num gdop; map Num pdop; map Num vdop; map Num hdop; map Num tdop];
           xlabel := "Time [GPS]";
           ylabel := "Dilution of precision";
           y_unit := "";
           labels := Some ["GDOP"; "PDOP"; "VDOP"; "HDOP"; "TDOP"];
           colors := None;
           figure_path := figure_path;
           opt_args := [ ("figsize", VSeq [VInt 7; VInt 4]);
                         ("legend", VBool true);
                         ("plot_to", VStr "file") ] |} ;;;
   ret figure_path)%monad.

(** One pass of the loop over the systems in
    [plot_epoch_by_epoch_difference]. *)
Definition plot_epoch_by_epoch_difference_system (figure_name field : string)
    (figure_paths : list string) (sys : string) : M State (list string) :=
  (d <- get_dset ;;
   let idx_sys := mask_eq (system d) sys in
   values <- lift (getitem_field d ("diff_epo." ++ field)) ;;
   if all_nan (Py.take_mask idx_sys values) then ret figure_paths
   else
     let figure_path :=
       path_join figure_dir
         (Py.replace (Py.replace figure_name "{solution}" (sys ++ "_" ++ field))
            "{FIGURE_FORMAT}" FIGURE_FORMAT) in
     let figure_paths := figure_paths ++ [figure_path] in
     log_debug ("Plot " ++ figure_path ++ ".") ;;;
     series <- satellite_series sys gps_time
                 (fun d => num_cells (getitem_field d ("diff_epo." ++ field))) ;;
     plot {| x_arrays := fst (fst series);
             y_arrays := snd (fst series);
             xlabel := "Time [GPS]";
             ylabel := "Epoch by epoch difference (" ++ field ++ ")";
             y_unit := "m";
             labels := Some (snd series);
             colors := None;
             figure_path := figure_path;
             opt_args := scatter_opt_args |} ;;;
     ret figure_paths)%monad.

Definition plot_epoch_by_epoch_difference (figure_name : string)
  : M State (list string) :=
  (d <- get_dset ;;
   for_fold (collection_fields d "diff_epo") []
     (fun figure_paths field =>
        d <- get_dset ;;
        for_fold (Py.sorted (Py.keys (meta_obstypes d))) figure_paths
          (plot_epoch_by_epoch_difference_system figure_name field)))%monad.

Definition field_def : list (string * string) :=
  [ ("gnss_ionosphere", "Ionospheric delay");
    ("gnss_range", "Range");
    ("gnss_satellite_clock", "Satellite clock");
    ("gnss_total_group_delay", "Total group delay");
    ("troposphere_radio", "Troposphere delay") ].

(** One pass of the loop over the systems in [plot_field]. *)
Definition plot_field_system (figure_name field fieldname : string)
    (figure_paths : list string) (sys : string) : M State (list string) :=
  (d <- get_dset ;;
   let idx_sys := mask_eq (system d) sys in
   values <- lift (getitem_field d fieldname) ;;
   if all_nan (Py.take_mask idx_sys values) then ret figure_paths
   else
     let figure_path :=
       path_join figure_dir
         (Py.replace (Py.replace figure_name "{solution}" (sys ++ "_" ++ field))
            "{FIGURE_FORMAT}" FIGURE_FORMAT) in
     let figure_paths := figure_paths ++ [figure_path] in
     log_debug ("Plot " ++ figure_path ++ ".") ;;;
     series <- satellite_series sys gps_time
                 (fun d => num_cells (getitem_field d fieldname)) ;;
     plot {| x_arrays := fst (fst series);
             y_arrays := snd (fst series);
             xlabel := "Time [GPS]";
             ylabel := Py.get_or field_def field ("Field (" ++ field ++ ")")%string;
             y_unit := "m";
             labels := Some (snd series);
             colors := None;
             figure_path := figure_path;
             opt_args := scatter_opt_args |} ;;;
     ret figure_paths)%monad.

Definition plot_field (field : string) (collection : option string)
    (figure_name : string) : M State (list string) :=
  (let fieldname :=
     match collection with
     | Some (String _ _ as c) => (c ++ "." ++ field)%string
     | _ => field
     end in
   d <- get_dset ;;
   for_fold (Py.sorted (Py.keys (meta_obstypes d))) []
     (plot_field_system figure_name field fieldname))%monad.

(** One pass of a loop over the systems in
    [plot_linear_combinations].  The four branches on [field] differ
    in the systems they run over, in whether the path is logged, in
    the name put in the [FigureInfo] and in the label of the y-axis,
    which the last branch takes from [field.split("_")] after the
    loop over the satellites. *)
Definition plot_linear_combinations_system (figure_name field : string)
    (debug : bool) (info_name : string) (get_ylabel : exn + string)
    (figure_info : list FigureInfo) (sys : string)
  : M State (list FigureInfo) :=
  (d <- get_dset ;;
   by_sys <- Py.getitem (meta_linear_combination d) field ;;
   comb <- Py.getitem by_sys sys ;;
   let solution := (field ++ "_" ++ sys ++ "_" ++ Py.join "_" comb)%string in
   let figure_path :=
     path_join figure_dir
       (Py.replace (Py.replace figure_name "{solution}" solution)
          "{FIGURE_FORMAT}" FIGURE_FORMAT) in
   (if debug then log_debug ("Plot " ++ figure_path ++ ".") else ret tt) ;;;
   let figure_info :=
     figure_info ++ [ {| file_path := figure_path;
                         name := info_name;
                         system_ := sys;
                         obstype := comb |} ] in
   series <- satellite_series sys gps_time
               (fun d => num_cells (getitem_field d ("lin." ++ field))) ;;
   ylabel_ <- lift get_ylabel ;;
   plot {| x_arrays := fst (fst series);
           y_arrays := snd (fst series);
           xlabel := "Time [GPS]";
           ylabel := ylabel_;
           y_unit := "m";
           labels := Some (snd series);
           colors := None;
           figure_path := figure_path;
           opt_args := scatter_opt_args |} ;;;
   ret figure_info)%monad.

(** [name1, name2, obscode = field.split("_")] and the label made of
    the three parts. *)
Definition generic_ylabel (field : string) : exn + string :=
  match Py.split "_" field with
  | [name1; name2; obscode] =>
      inr (Py.capitalize name1 ++ "-" ++ name2 ++ " (" ++ obscode ++ ")")%string
  | [] | [_] =>
      inl (ValueError "not enough values to unpack (expected 3, got 1)")
  | [_; _] =>
      inl (ValueError "not enough values to unpack (expected 3, got 2)")
  | _ => inl (ValueError "too many values to unpack (expected 3)")
  end.

Definition plot_linear_combinations (figure_name : string)
  : M State (list FigureInfo) :=
  (d <- get_dset ;;
   for_fold (collection_fields d "lin") []
     (fun figure_info field =>
        d <- get_dset ;;
        if String.eqb field "melbourne_wuebbena" then
          for_fold (Py.sorted (Py.keys (meta_obstypes d))) figure_info
            (plot_linear_combinations_system figure_name field true
               field (inr "Melbourne-Wübbena"))
        else if String.eqb field "code_multipath_f1"
                || String.eqb field "code_multipath_f2" then
          for_fold (Py.sorted (Py.keys (meta_obstypes d))) figure_info
            (plot_linear_combinations_system figure_name field false
               (Py.replace (Py.replace field "_f1" " ") "_f2" " ")
               (inr "Code-multipath combination"))
        else if String.eqb field "code_phase_f1"
                || String.eqb field "code_phase_f2" then
          for_fold (Py.sorted (Py.keys (meta_obstypes d))) figure_info
            (plot_linear_combinations_system figure_name field true
               (Py.replace (Py.replace field "_f1" " ") "_f2" " ")
               (inr "Code-phase difference"))
        else
          for_fold (Py.sorted (Py.unique (system d))) figure_info
            (plot_linear_combinations_system figure_name field true
               (Py.join "_" (firstn 2 (Py.split "_" field)))
               (generic_ylabel field))))%monad.

Definition plot_number_of_satellites (figure_name : string) : M State string :=
  (let figure_path :=
     path_join figure_dir (Py.replace figure_name "{FIGURE_FORMAT}" FIGURE_FORMAT) in
   log_debug ("Plot " ++ figure_path ++ ".") ;;;
   d <- get_dset ;;
   series <-
     for_fold (Py.sorted (Py.unique (system d))) ([], [], [])
       (fun acc sys =>
          d <- get_dset ;;
          let idx := mask_eq (system d) sys in
          let x := Py.take_mask idx (gps_time d) in
          let y := map Num (get_number_of_satellites
                              (Py.take_mask idx (system d))
                              (Py.take_mask idx (satellite d))
                              (Py.take_mask idx (time_gps_datetime d))) in
          member <- Py.getitem gnss_id_to_name sys ;;
          ret (fst (fst acc) ++ [x], snd (fst acc) ++ [y],
               snd acc ++ [value_ member])) ;;
   d <- get_dset ;;
   plot {| x_arrays := fst (fst series);
           y_arrays := snd (fst series);
           xlabel := "Time [GPS]";
           ylabel := "# satellites";
           y_unit := "";
           labels := Some (snd series);
           colors := None;
           figure_path := figure_path;
           opt_args :=
             [ ("figsize", VSeq [VInt 7; VInt 4]);
               ("marker", VStr ",");
               ("legend", VBool true);
               ("legend_location", VStr "bottom");
               ("legend_ncol", VInt (Z.of_nat (List.length (Py.unique (system d)))));
               ("plot_to", VStr "file");
               ("plot_type", VStr "plot") ] |} ;;;
   ret figure_path)%monad.

(** [self.dset.add_float(name, val=val)] *)
Definition add_float (name_ : string) (val : list Float.float) : M State unit :=
  modify (set_dset (fun d => with_fields (fields d ++ [(name_, val)]) d)).

Definition plot_number_of_satellites_used (figure_name : string)
  : M State string :=
  (let figure_path :=
     path_join figure_dir (Py.replace figure_name "{FIGURE_FORMAT}" FIGURE_FORMAT) in
   log_debug ("Plot " ++ figure_path ++ ".") ;;;
   d <- get_dset ;;
   (if negb (existsb (String.eqb "num_satellite_used") (Py.keys (fields d)))
    then add_float "num_satellite_used"
           (get_number_of_satellites (system d) (satellite d) (time_gps_datetime d))
    else ret tt) ;;;
   d <- get_dset ;;
   available <- lift (getattr_field d "num_satellite_available") ;;
   used <- lift (getattr_field d "num_satellite_used") ;;
   plot {| x_arrays := [gps_time d; gps_time d];
           y_arrays := [map Num available; map Num used];
           xlabel := "Time [GPS]";
           ylabel := "Number of satellites";
           y_unit := "";
           labels := Some ["Available"; "Used"];
           colors := None;
           figure_path := figure_path;
           opt_args := [ ("figsize", VSeq [VInt 7; VInt 4]);
                         ("legend", VBool true);
                         ("marker", VStr ",");
                         ("plot_to", VStr "file");
                         ("plot_type", VStr "plot") ] |} ;;;
   ret figure_path)%monad.

(** [array.sort(key=lambda x: x[-2:3]); return array]: the list is
    sorted in place. *)
Definition _sort_string_array (array : list_ref) : M State (list string) :=
  (items <- deref array ;;
   let items := Py.sort_key Py.slice_m2_3 items in
   assign array items ;;;
   ret items)%monad.

(** The loop over the observation types of one satellite in
    [plot_obstype_availability]; [keep_idx] lives across the passes. *)
Definition plot_obstype_availability_obstype (sat : string) (idx_sat : list bool)
    (acc : list bool * (list (list cell) * list (list cell))) (obstype_ : string)
  : M State (list bool * (list (list cell) * list (list cell))) :=
  (d <- get_dset ;;
   obs <- lift (getitem_field d ("obs." ++ obstype_)) ;;
   let keep_idx :=
     Py.put_mask idx_sat (fst acc)
       (map (fun v => negb (Float.isnan v)) (Py.take_mask idx_sat obs)) in
   if any keep_idx then
     let num_obs_ := List.length (Py.take_mask keep_idx (time_datetime d)) in
     ret (keep_idx,
          (fst (snd acc) ++ [Py.take_mask keep_idx (gps_time d)],
           snd (snd acc) ++ [repeat (Text (sat ++ "_" ++ obstype_)) num_obs_]))
   else ret (keep_idx, snd acc))%monad.

Definition plot_obstype_availability_satellite (sys : string)
    (acc : list (list cell) * list (list cell)) (sat : string)
  : M State (list (list cell) * list (list cell)) :=
  (if negb (Py.startswith sat sys) then ret acc
   else
     d <- get_dset ;;
     let idx_sat := mask_eq (satellite d) sat in
     let keep_idx := repeat false (num_obs d) in
     obstypes <- _sort_string_array (Obstypes sys) ;;
     r <- for_fold obstypes (keep_idx, acc)
            (plot_obstype_availability_obstype sat idx_sat) ;;
     ret (snd r))%monad.

Definition plot_obstype_availability_system (figure_name : string)
    (figure_paths : list string) (sys : string) : M State (list string) :=
  (d <- get_dset ;;
   let idx_sys := mask_eq (system d) sys in
   let num_sat :=
     Z.of_nat (List.length (nodup string_dec (Py.take_mask idx_sys (satellite d)))) in
   let figure_path :=
     path_join figure_dir
       (Py.replace (Py.replace figure_name "{system}" sys)
          "{FIGURE_FORMAT}" FIGURE_FORMAT) in
   let figure_paths := figure_paths ++ [figure_path] in
   log_debug ("Plot " ++ figure_path ++ ".") ;;;
   arrays <- for_fold (Py.sorted_reverse (Py.unique (satellite d))) ([], [])
               (plot_obstype_availability_satellite sys) ;;
   plot {| x_arrays := fst arrays;
           y_arrays := snd arrays;
           xlabel := "Time [GPS]";
           ylabel := "Satellite and observation type";
           y_unit := "";
           labels := None;
           colors := None;
           figure_path := figure_path;
           opt_args :=
             [ ("colormap", VStr "tab20");
               ("figsize", VSeq [VFloat (Float.mul (Float.of_Z 1) (Float.of_Z num_sat));
                                 VFloat (Float.mul (Float.of_Z 3) (Float.of_Z num_sat))]);
               ("fontsize", VInt 5);
               ("plot_to", VStr "file");
               ("plot_type", VStr "scatter") ] |} ;;;
   ret figure_paths)%monad.

Definition plot_obstype_availability (figure_name : string)
  : M State (list string) :=
  (d <- get_dset ;;
   for_fold (Py.sorted (Py.unique (system d))) []
     (plot_obstype_availability_system figure_name))%monad.

(** [_sort_by_satellite(dset)]: the local [dset] is bound to the
    argument, or to [self.dset] without one, and the loop then reads
    [self.dset]. *)
Definition _sort_by_satellite (dset_arg : option StageData)
  : M State (list datetime * list string * list string) :=
  (self_dset <- get_dset ;;
   let dset_ :=
     match dset_arg with
     | None => StageDataset self_dset
     | Some given => given
     end in
   for_fold (Py.sorted_reverse (Py.unique (satellite self_dset))) ([], [], [])
     (fun acc sat =>
        self_dset <- get_dset ;;
        let idx := mask_eq (satellite self_dset) sat in
        ret (fst (fst acc) ++ Py.take_mask idx (time_gps_datetime self_dset),
             snd (fst acc) ++ Py.take_mask idx (satellite self_dset),
             snd acc ++ Py.take_mask idx (system self_dset))))%monad.

Definition one_tenth : Float.float := Float.div (Float.of_Z 1) (Float.of_Z 10).
Definition two_tenths : Float.float := Float.div (Float.of_Z 1) (Float.of_Z 5).

Definition plot_satellite_availability (figure_name : string) : M State string :=
  (let figure_path :=
     path_join figure_dir (Py.replace figure_name "{FIGURE_FORMAT}" FIGURE_FORMAT) in
   log_debug ("Plot " ++ figure_path ++ ".") ;;;
   by_satellite <- _sort_by_satellite None ;;
   let time_ := fst (fst by_satellite) in
   let satellite_ := snd (fst by_satellite) in
   let system_sorted := snd by_satellite in
   d <- get_dset ;;
   series <-
     for_fold (Py.sorted_reverse (Py.unique (system d))) ([], [], [])
       (fun acc sys =>
          let idx := mask_eq system_sorted sys in
          member <- Py.getitem gnss_id_to_name sys ;;
          ret (fst (fst acc) ++ [map Time (Py.take_mask idx time_)],
               snd (fst acc) ++ [map Text (Py.take_mask idx satellite_)],
               snd acc ++ [value_ member])) ;;
   d <- get_dset ;;
   let num_sat := Float.of_Z (Z.of_nat (List.length (Py.unique (satellite d)))) in
   plot {| x_arrays := fst (fst series);
           y_arrays := snd (fst series);
           xlabel := "Time [GPS]";
           ylabel := "Satellite";
           y_unit := "";
           labels := None;
           colors := None;
           figure_path := figure_path;
           opt_args :=
             [ ("colormap", VStr "tab20");
               ("figsize", VSeq [VFloat (Float.mul one_tenth num_sat);
                                 VFloat (Float.mul two_tenths num_sat)]);
               ("fontsize", VInt 10);
               ("legend", VBool true);
               ("legend_location", VStr "bottom");
               ("legend_ncol", VInt (Z.of_nat (List.length (Py.unique (system d)))));
               ("plot_to", VStr "file");
               ("plot_type", VStr "scatter") ] |} ;;;
   ret figure_path)%monad.

Definition newline : string := String (ascii_of_nat 10) EmptyString.

Definition seven_and_a_half : Float.float := Float.div (Float.of_Z 15) (Float.of_Z 2).

(** One pass of the loop over the systems in [plot_skyplot]. *)
Definition plot_skyplot_system (figure_name : string)
    (azimuth_ zenith_distance_ : list Float.float)
    (figure_paths : list string) (sys : string) : M State (list string) :=
  (let figure_path :=
     path_join figure_dir
       (Py.replace (Py.replace figure_name "{system}" sys)
          "{FIGURE_FORMAT}" FIGURE_FORMAT) in
   let figure_paths := figure_paths ++ [figure_path] in
   series <- satellite_series sys (fun _ => map Num azimuth_)
               (fun _ => inr (map Num zenith_distance_)) ;;
   member <- Py.getitem gnss_id_to_name sys ;;
   plot {| x_arrays := fst (fst series);
           y_arrays := snd (fst series);
           xlabel := "";
           ylabel := "";
           y_unit := "";
           labels := Some (snd series);
           colors := None;
           figure_path := figure_path;
           opt_args :=
             [ ("colormap", VStr "tab20");
               ("figsize", VSeq [VInt 7; VFloat seven_and_a_half]);
               ("legend", VBool true);
               ("legend_ncol", VInt 6);
               ("legend_location", VStr "bottom");
               ("plot_to", VStr "file");
               ("plot_type", VStr "scatter");
               ("projection", VStr "polar");
               ("title", VStr ("Skyplot for " ++ shown member ++ newline
                               ++ " Azimuth [deg] / Elevation[deg]"));
               ("xlim", VSeq [VInt 0; VFloat two_pi]);
               ("ylim", VSeq [VInt 0; VInt 90]);
               ("yticks", VSeq [VInt 0; VInt 30; VInt 60]);
               ("yticklabels", VSeq [VStr "90"; VStr "60"; VStr "30"]) ] |} ;;;
   ret figure_paths)%monad.

(** [azimuth = self.dset.site_pos.azimuth; idx = azimuth < 0;
    azimuth[idx] = 2 * np.pi + azimuth[idx]]: the assignment writes
    into the array the attribute handed out, which is the array of
    the dataset when [azimuth_shared]. *)
Definition plot_skyplot (figure_name : string) : M State (list string) :=
  (d <- get_dset ;;
   let azimuth_ := azimuth (site_pos d) in
   let idx := map (fun a => Float.ltb a Float.zero) azimuth_ in
   let azimuth_ :=
     Py.put_mask idx azimuth_ (map (Float.add two_pi) (Py.take_mask idx azimuth_)) in
   (if azimuth_shared then modify (set_dset (with_azimuth azimuth_)) else ret tt) ;;;
   d <- get_dset ;;
   let zenith_distance_ := map Float.rad2deg (zenith_distance (site_pos d)) in
   for_fold (Py.sorted (Py.unique (system d))) []
     (plot_skyplot_system figure_name azimuth_ zenith_distance_))%monad.

(** [min] and [max] of [self.dset.time.datetime]; both raise on an
    empty sequence. *)
Definition _get_day_limits : M State (datetime * datetime) :=
  (d <- get_dset ;;
   match time_datetime d with
   | [] => raise (ValueError "min() arg is an empty sequence")
   | t :: ts => ret (fold_left Z.min ts t, fold_left Z.max ts t)
   end)%monad.

(** One pass of the loop over the systems in
    [plot_satellite_elevation]. *)
Definition plot_satellite_elevation_system (figure_name : string)
    (elevation_ : list Float.float) (day_start day_end : datetime)
    (figure_paths : list string) (sys : string) : M State (list string) :=
  (let figure_path :=
     path_join figure_dir
       (Py.replace (Py.replace figure_name "{system}" sys)
          "{FIGURE_FORMAT}" FIGURE_FORMAT) in
   let figure_paths := figure_paths ++ [figure_path] in
   log_debug ("Plot " ++ figure_path ++ ".") ;;;
   series <- satellite_series sys gps_time (fun _ => inr (map Num elevation_)) ;;
   member <- Py.getitem gnss_id_to_name sys ;;
   plot {| x_arrays := fst (fst series);
           y_arrays := snd (fst series);
           xlabel := "Time [GPS]";
           ylabel := "Elevation [deg]";
           y_unit := "";
           labels := Some (snd series);
           colors := None;
           figure_path := figure_path;
           opt_args :=
             [ ("colormap", VStr "tab20");
               ("figsize", VSeq [VInt 7; VInt 8]);
               ("legend", VBool true);
               ("legend_ncol", VInt 6);
               ("legend_location", VStr "bottom");
               ("plot_to", VStr "file");
               ("plot_type", VStr "scatter");
               ("title", VStr ("Satellite elevation for " ++ shown member));
               ("xlim", VSeq [VTime day_start; VTime day_end]) ] |} ;;;
   ret figure_paths)%monad.

Definition plot_satellite_elevation (figure_name : string)
  : M State (list string) :=
  (d <- get_dset ;;
   let elevation_ := map Float.rad2deg (elevation (site_pos d)) in
   limits <- _get_day_limits ;;
   d <- get_dset ;;
   for_fold (Py.sorted (Py.unique (system d))) []
     (plot_satellite_elevation_system figure_name elevation_
        (fst limits) (snd limits)))%monad.

(** [_get_dataset(stage, systems)]: the dataset of another stage of
    the same analysis, cut down to the given systems. *)
Definition _get_dataset (stage : string) (systems : option (list string))
  : M State StageData :=
  (d <- get_dset ;;
   let file_vars := Py.setitem (Py.merge (vars d) (analysis d)) "stage" stage in
   match dataset_read file_vars with
   | inl (OSError _) =>
       log_warn "Could not read dataset {config.files.path('dataset', file_vars=file_vars)}." ;;;
       ret ExitStatus_error
   | inl e => raise e
   | inr dset_out =>
       match systems with
       | Some ((_ :: _) as systems_) =>
           let keep_idx :=
             fold_left (fun keep sys => set_true keep (mask_eq (system dset_out) sys))
               systems_ (repeat false (num_obs dset_out)) in
           ret (StageDataset (subset keep_idx dset_out))
       | _ => ret (StageDataset dset_out)
       end
   end)%monad.

Definition plot_satellite_overview (figure_name : string)
  : M State (option string) :=
  (let figure_path :=
     path_join figure_dir (Py.replace figure_name "{FIGURE_FORMAT}" FIGURE_FORMAT) in
   log_debug ("Plot " ++ figure_path ++ ".") ;;;
   limits <- _get_day_limits ;;
   d <- get_dset ;;
   let file_vars := Py.setitem (Py.merge (vars d) (analysis d)) "stage" "read" in
   let file_path_ := config_files_path "dataset" file_vars in
   if path_exists file_path_ then
     d <- get_dset ;;
     dset_read <- _get_dataset "read" (Some (Py.keys (meta_obstypes d))) ;;
     read <- _sort_by_satellite (Some dset_read) ;;
     d <- get_dset ;;
     dset_orbit <- _get_dataset "orbit" (Some (Py.keys (meta_obstypes d))) ;;
     orbit <- _sort_by_satellite (Some dset_orbit) ;;
     d <- get_dset ;;
     dset_edit <- _get_dataset "edit" (Some (Py.keys (meta_obstypes d))) ;;
     edit <- _sort_by_satellite (Some dset_edit) ;;
     plot {| x_arrays := [ map Time (fst (fst read));
                           map Time (fst (fst orbit));
                           map Time (fst (fst edit)) ];
             y_arrays := [ map Text (snd (fst read));
                           map Text (snd (fst orbit));
                           map Text (snd (fst edit)) ];
             xlabel := "Time [GPS]";
             ylabel := "Satellite";
             y_unit := "";
             labels := None;
             colors := Some ["red"; "orange"; "green"];
             figure_path := figure_path;
             opt_args :=
               [ ("colormap", VStr "tab20");
                 ("figsize", VSeq [VInt 7; VInt 6]);
                 ("marker", VStr "|");
                 ("plot_to", VStr "file");
                 ("plot_type", VStr "scatter");
                 ("title", VStr "Overview over satellites");
                 ("xlim", VSeq [VTime (fst limits); VTime (snd limits)]) ] |} ;;;
     ret (Some figure_path)
   else
     log_warn ("Read dataset does not exists: " ++ file_path_ ++ ". Plot "
               ++ figure_path ++ " can not be plotted.") ;;;
     ret None)%monad.

End Methods.

(** The default values of [figure_name]. *)
Definition default_figure_name : list (string * string) :=
  [ ("plot_dop", "plot_dop.{FIGURE_FORMAT}");
    ("plot_epoch_by_epoch_difference",
     "plot_epoch_by_epoch_difference_{solution}.{FIGURE_FORMAT}");
    ("plot_field", "plot_field_{solution}.{FIGURE_FORMAT}");
    ("plot_linear_combinations", "plot_{solution}.{FIGURE_FORMAT}");
    ("plot_number_of_satellites", "plot_gnss_number_of_satellites_epoch.png");
    ("plot_number_of_satellites_used", "plot_number_of_satellites_used.png");
    ("plot_obstype_availability", "plot_obstype_availability_{system}.{FIGURE_FORMAT}");
    ("plot_satellite_availability", "plot_satellite_availability.png");
    ("plot_skyplot", "plot_skyplot_{system}.{FIGURE_FORMAT}");
    ("plot_satellite_elevation", "plot_satellite_elevation_{system}.{FIGURE_FORMAT}");
    ("plot_satellite_overview", "plot_satellite_overview.{FIGURE_FORMAT}") ].

End GnssPlot.

(** * Notions the properties are stated with *)

(** ** For the rows *)

Module RowNotions.
Import Gnss.

(** A pair is known when [kpi] is a key of [category_def] and
    [business_def[constellation][kpi]] exists. *)
Definition known_pair (constellation kpi : string) : bool :=
  match Py.lookup kpi category_def, Py.lookup constellation business_def with
  | Some _, Some by_kpi =>
      match Py.lookup kpi by_kpi with Some _ => true | None => false end
  | _, _ => false
  end.

(** [old] occurs in [s]. *)
Fixpoint occurs (old s : string) : bool :=
  String.prefix old s
  || match s with
     | EmptyString => false
     | String _ s' => occurs old s'
     end.

(** Every character ["E"] replaced by ["GSAT0"]. *)
Fixpoint every_E_replaced (s : string) : string :=
  match s with
  | EmptyString => EmptyString
  | String c s' =>
      if Ascii.eqb c "E" then ("GSAT0" ++ every_E_replaced s')%string
      else String c (every_E_replaced s')
  end.

(** [s[n:]] *)
Fixpoint drop (n : nat) (s : string) : string :=
  match n, s with
  | S n', String _ s' => drop n' s'
  | _, _ => s
  end.

(** The conversion as the specification words it: only the first
    occurrence of the pattern is replaced. *)
Fixpoint replace_first (old new s : string) : string :=
  match s with
  | EmptyString => EmptyString
  | String c s' =>
      if String.prefix old s then (new ++ drop (String.length old) s)%string
      else String c (replace_first old new s')
  end.

Definition svn_first_occurrence_only (code : string) : string :=
  if Py.startswith code "E" then replace_first "E" "GSAT0" code
  else if Py.startswith code "G" then replace_first "G0" "SVN" code
  else code.

(** A collaborator that knows one Galileo satellite, for the worked
    examples. *)
Definition example_atx (code : string) : AntennaCorrection :=
  {| get_satellite_info := fun _ _ =>
       inr {| sat_type := "GALILEO-2"; sat_code := code |} |}.

Definition example_apriori (code : string) (name_ : string)
  : exn + AntennaCorrection :=
  inr (example_atx code).

(** The result [1.0]. *)
Definition one : Float.float := Float.of_Z 1.


(** The dates [get_grc_csv_row] can use with a satellite: two digits
    for the year, a hyphen and the abbreviated name of a month, in
    upper or lower case; the value is the first day of that month. *)
Definition year_month (date : string) : option datetime :=
  match date with
  | String y1 (String y2 (String sep (String b1 (String b2 (String b3 EmptyString))))) =>
      if is_digit y1 && is_digit y2 && Ascii.eqb sep "-" then
        match Py.lookup (Py.lower (String b1 (String b2 (String b3 ""))))
                month_abbr with
        | Some m =>
            let yy := (10 * digit_val y1 + digit_val y2)%Z in
            Some {| year := (if yy <=? 68 then 2000 + yy else 1900 + yy)%Z;
                    month := m;
                    day := 1 |}
        | None => None
        end
      else None
  | _ => None
  end.

(** A collaborator that knows no satellite. *)
Definition unknown_satellite : AntennaCorrection :=
  {| get_satellite_info := fun satellite _ => inl (KeyError satellite) |}.

End RowNotions.

(** ** For the plots *)

Module PlotNotions.
Import GnssPlot.

(** [moves R m]: the dataset after [m], whether [m] returned or raised,
    is related by [R] to the dataset before. *)
Definition moves (R : Dataset -> Dataset -> Prop) {A} (m : M State A) : Prop :=
  forall st, R (dset st) (dset (snd (m st))).

(** The order a boolean comparison decides. *)
Definition le_prop {A} (le : A -> A -> bool) (x y : A) : Prop := le x y = true.

(** Ascending and descending lists of strings. *)
Definition ascending (l : list string) : Prop :=
  StronglySorted (fun x y => String.leb x y = true) l.

Definition descending (l : list string) : Prop :=
  StronglySorted (fun x y => String.leb y x = true) l.

(** The dataset after [plot_number_of_satellites_used]. *)
Definition used_column_added
    (get_number_of_satellites :
       list string -> list string -> list datetime -> list Float.float)
    (d : Dataset) : Dataset :=
  if existsb (String.eqb "num_satellite_used") (Py.keys (fields d)) then d
  else with_fields
         (fields d ++ [("num_satellite_used",
                        get_number_of_satellites (system d) (satellite d)
                          (time_gps_datetime d))]) d.

(** The array [plot_skyplot] leaves behind: [2 * pi] added to the
    negative entries of the azimuth. *)
Definition azimuth_wrapped (d : Dataset) : list Float.float :=
  let idx := map (fun a => Float.ltb a Float.zero) (azimuth (site_pos d)) in
  Py.put_mask idx (azimuth (site_pos d))
    (map (Float.add two_pi) (Py.take_mask idx (azimuth (site_pos d)))).

(** The dataset after [plot_skyplot]. *)
Definition skyplot_dataset (azimuth_shared : bool) (d : Dataset) : Dataset :=
  if azimuth_shared then with_azimuth (azimuth_wrapped d) d else d.

(** What [plot_obstype_availability] may do to the dataset: the list of
    observation types of a system is left as it is or sorted by the key
    [x[-2:3]]; nothing else changes. *)
Definition lists_sorted_in_place (m m' : list (string * list string)) : Prop :=
  Forall2 (fun kv kv' =>
             fst kv' = fst kv
             /\ (snd kv' = snd kv
                 \/ snd kv' = Py.sort_key Py.slice_m2_3 (snd kv))) m m'.

(** [d'] is [d] but for the order of lists of observation types. *)
Definition only_obstypes_sorted (d d' : Dataset) : Prop :=
  exists m', d' = with_meta_obstypes m' d
             /\ lists_sorted_in_place (meta_obstypes d) m'.

(** The state of a [GnssPlot] object made for the dataset [d]: nothing
    plotted and nothing logged so far. *)
Definition start (d : Dataset) : State :=
  {| dset := d; plots := []; logged := [] |}.

(** The float [1.0]. *)
Definition f1 : Float.float := Float.of_Z 1.

(** One observation of the GPS satellite G01, with its observation
    types listed as C2W, C1C. *)
Definition one_observation : Dataset :=
  {| time_datetime := [100%Z];
     time_gps_datetime := [100%Z];
     system := ["G"];
     satellite := ["G01"];
     site_pos := {| azimuth := [Float.of_Z (-1)];
                    zenith_distance := [f1];
                    elevation := [f1] |};
     fields := [("obs.C1C", [f1]); ("obs.C2W", [f1])];
     meta_obstypes := [("G", ["C2W"; "C1C"])];
     meta_linear_combination := [];
     vars := [];
     analysis := [] |}.

(** The time, satellite and system columns of a dataset, put in
    descending order of the satellites: what sorting the dataset [d] by
    satellite gives. *)
Definition sort_by_satellite_of (d : Dataset)
  : list datetime * list string * list string :=
  let sats := Py.sorted_reverse (Py.unique (satellite d)) in
  (flat_map (fun sat => Py.take_mask (mask_eq (satellite d) sat)
                          (time_gps_datetime d)) sats,
   flat_map (fun sat => Py.take_mask (mask_eq (satellite d) sat)
                          (satellite d)) sats,
   flat_map (fun sat => Py.take_mask (mask_eq (satellite d) sat)
                          (system d)) sats).

(** A dataset without observations. *)
Definition no_observation : Dataset :=
  {| time_datetime := [];
     time_gps_datetime := [];
     system := [];
     satellite := [];
     site_pos := {| azimuth := []; zenith_distance := []; elevation := [] |};
     fields := [];
     meta_obstypes := [("G", ["C1C"])];
     meta_linear_combination := [];
     vars := [];
     analysis := [] |}.

(** The dataset of the stage "read": one observation of G02; that of
    the stage "orbit" has one of G03. *)
Definition read_stage : Dataset :=
  {| time_datetime := [7%Z];
     time_gps_datetime := [7%Z];
     system := ["G"];
     satellite := ["G02"];
     site_pos := {| azimuth := [f1]; zenith_distance := [f1]; elevation := [f1] |};
     fields := [];
     meta_obstypes := [("G", ["C1C"])];
     meta_linear_combination := [];
     vars := [];
     analysis := [] |}.

(** The dataset of the stage "orbit". *)
Definition orbit_stage : Dataset :=
  {| time_datetime := [8%Z];
     time_gps_datetime := [8%Z];
     system := ["G"];
     satellite := ["G03"];
     site_pos := {| azimuth := [f1]; zenith_distance := [f1]; elevation := [f1] |};
     fields := [];
     meta_obstypes := [("G", ["C1C"])];
     meta_linear_combination := [];
     vars := [];
     analysis := [] |}.

(** A [Dataset.read] that finds the three stages; the stage "edit" is
    the dataset of the object. *)
Definition read_stages (file_vars : list (string * string)) : exn + Dataset :=
  match Py.lookup "stage" file_vars with
  | Some stage =>
      if String.eqb stage "read" then inr read_stage
      else if String.eqb stage "orbit" then inr orbit_stage
      else inr one_observation
  | None => inl (OSError "no stage")
  end.

(** The satellites of a system: those of the dataset whose name starts
    with the code of the system, in ascending order and, for
    [satellites_of_reverse], in descending order. *)
Definition satellites_of (d : Dataset) (sys : string) : list string :=
  filter (fun sat => Py.startswith sat sys) (Py.sorted (Py.unique (satellite d))).

Definition satellites_of_reverse (d : Dataset) (sys : string) : list string :=
  filter (fun sat => Py.startswith sat sys)
    (Py.sorted_reverse (Py.unique (satellite d))).

(** [st'] is [st] with the same dataset and the figures [calls] added. *)
Definition extends (st st' : State) (calls : list PlotCall) : Prop :=
  dset st' = dset st /\ plots st' = plots st ++ calls.

(** The path of the figure of a system, for the methods whose template
    has the placeholder [{solution}]. *)
Definition solution_path (figure_dir figure_name field sys : string) : string :=
  path_join figure_dir
    (Py.replace (Py.replace figure_name "{solution}" (sys ++ "_" ++ field))
       "{FIGURE_FORMAT}" FIGURE_FORMAT).

(** The system has an entry of [values] that is not NaN. *)
Definition has_data (d : Dataset) (values : list Float.float) (sys : string)
  : bool :=
  negb (all_nan (Py.take_mask (mask_eq (system d) sys) values)).

(** The values of a field, none when there is no such field. *)
Definition values_of (d : Dataset) (name_ : string) : list Float.float :=
  match getitem_field d name_ with
  | inr values => values
  | inl _ => []
  end.

(** The figure of a system has the given path and shows, in this order,
    the satellites whose name starts with the code of the system. *)
Definition shows_satellites (d : Dataset) (path : string -> string)
    (sys : string) (call : PlotCall) : Prop :=
  figure_path call = path sys /\ labels call = Some (satellites_of d sys).

(** The line [log.debug(f"Plot {figure_path}.")] leaves in the log. *)
Definition debug_plot (path : string) : level * string :=
  (Debug, ("Plot " ++ path ++ ".")%string).

(** The name [plot_field] looks the field up under. *)
Definition fieldname_of (collection : option string) (field : string) : string :=
  match collection with
  | Some (String _ _ as c) => (c ++ "." ++ field)%string
  | _ => field
  end.

(** The systems of the metadata, in ascending order, that have data. *)
Definition systems_with_data (d : Dataset) (values : list Float.float)
  : list string :=
  filter (has_data d values) (Py.sorted (Py.keys (meta_obstypes d))).

(** Two systems E and G with one observation each; the range of the
    observation of E is NaN. *)
Definition two_systems : Dataset :=
  {| time_datetime := [100%Z; 100%Z];
     time_gps_datetime := [100%Z; 100%Z];
     system := ["E"; "G"];
     satellite := ["E01"; "G01"];
     site_pos := {| azimuth := [f1; f1];
                    zenith_distance := [f1; f1];
                    elevation := [f1; f1] |};
     fields := [("gnss_range", [Float.nan; f1]);
                ("diff_epo.C1C", [Float.nan; f1])];
     meta_obstypes := [("E", ["C1C"]); ("G", ["C1C"])];
     meta_linear_combination := [];
     vars := [];
     analysis := [] |}.

(** The figure shows, in this order, the satellites of the system. *)
Definition shows_labels (d : Dataset) (sys : string) (call : PlotCall) : Prop :=
  labels call = Some (satellites_of d sys).

(** The path of the figure of a system, for the methods whose template
    has the placeholder [{system}]. *)
Definition system_path (figure_dir figure_name sys : string) : string :=
  path_join figure_dir
    (Py.replace (Py.replace figure_name "{system}" sys)
       "{FIGURE_FORMAT}" FIGURE_FORMAT).

(** The systems [plot_linear_combinations] runs over for a field. *)
Definition lin_systems (d : Dataset) (field : string) : list string :=
  if String.eqb field "melbourne_wuebbena" then
    Py.sorted (Py.keys (meta_obstypes d))
  else if String.eqb field "code_multipath_f1"
          || String.eqb field "code_multipath_f2" then
    Py.sorted (Py.keys (meta_obstypes d))
  else if String.eqb field "code_phase_f1"
          || String.eqb field "code_phase_f2" then
    Py.sorted (Py.keys (meta_obstypes d))
  else Py.sorted (Py.unique (system d)).

(** The rows of a column whose system column has the code [sys]. *)
Definition rows_of_system {A} (d : Dataset) (column : list A) (sys : string)
  : list A :=
  Py.take_mask (mask_eq (system d) sys) column.

(** The entry of a y-array is the text of a satellite and an observation
    type. *)
Definition labelled (sat : string) (c : cell) : Prop :=
  exists obstype_, c = Text (sat ++ "_" ++ obstype_).

(** The arrays come in consecutive blocks, one for each of the
    satellites and in their order, and every entry of the arrays of a
    block names the satellite of the block. *)
Definition in_blocks (sats : list string) (arrays : list (list cell)) : Prop :=
  exists blocks,
    arrays = concat blocks
    /\ Forall2 (fun sat block => Forall (Forall (labelled sat)) block)
         sats blocks.

(** [d'] has the satellite and system columns of [d]. *)
Definition same_columns (d d' : Dataset) : Prop :=
  satellite d' = satellite d /\ system d' = system d.

(** The figure of a system has its path and shows the satellites of the
    system from the last to the first. *)
Definition shows_blocks (figure_dir figure_name : string) (d : Dataset)
    (sys : string) (call : PlotCall) : Prop :=
  figure_path call = system_path figure_dir figure_name sys
  /\ in_blocks (satellites_of_reverse d sys) (y_arrays call).

(** A dataset of two Galileo satellites with one observation each. *)
Definition two_satellites : Dataset :=
  {| time_datetime := [100%Z; 100%Z];
     time_gps_datetime := [100%Z; 100%Z];
     system := ["E"; "E"];
     satellite := ["E01"; "E02"];
     site_pos := {| azimuth := [f1; f1];
                    zenith_distance := [f1; f1];
                    elevation := [f1; f1] |};
     fields := [("obs.C1C", [f1; f1])];
     meta_obstypes := [("E", ["C1C"])];
     meta_linear_combination := [];
     vars := [];
     analysis := [] |}.

(** A dataset whose only observation has the satellite E01 in the
    satellite column and the code G in the system column. *)
Definition mixed_row : Dataset :=
  {| time_datetime := [100%Z];
     time_gps_datetime := [100%Z];
     system := ["G"];
     satellite := ["E01"];
     site_pos := {| azimuth := [f1]; zenith_distance := [f1]; elevation := [f1] |};
     fields := [];
     meta_obstypes := [("G", ["C1C"])];
     meta_linear_combination := [];
     vars := [];
     analysis := [] |}.

(** The first of the names that is no field of the dataset. *)
Definition first_missing (d : Dataset) (names : list string) : option string :=
  find (fun n => match Py.lookup n (fields d) with
                 | Some _ => false
                 | None => true
                 end) names.

(** The fields [plot_dop] reads, in the order it reads them. *)
Definition dop_fields : list string := ["gdop"; "pdop"; "vdop"; "hdop"; "tdop"].

(** The path of a figure whose template has the placeholder
    [{FIGURE_FORMAT}] alone. *)
Definition format_path (figure_dir figure_name : string) : string :=
  path_join figure_dir (Py.replace figure_name "{FIGURE_FORMAT}" FIGURE_FORMAT).

(** The column [plot_number_of_satellites_used] shows as used. *)
Definition used_column
    (get_number_of_satellites :
       list string -> list string -> list datetime -> list Float.float)
    (d : Dataset) : list Float.float :=
  match Py.lookup "num_satellite_used" (fields d) with
  | Some used => used
  | None => get_number_of_satellites (system d) (satellite d) (time_gps_datetime d)
  end.

(** The variables a stage is read with: those of the dataset, the value
    of [analysis] going before that of [vars], and the stage. *)
Definition file_vars_of (d : Dataset) (stage : string) (k : string)
  : option string :=
  if String.eqb k "stage" then Some stage
  else match Py.lookup k (analysis d) with
       | Some v => Some v
       | None => Py.lookup k (vars d)
       end.

(** The observation is of one of the systems. *)
Definition of_systems (systems : list string) (sys : string) : bool :=
  existsb (fun key => String.eqb key sys) systems.

(** Every column and every field has one entry for each observation. *)
Definition well_formed (d : Dataset) : Prop :=
  List.length (time_gps_datetime d) = num_obs d
  /\ List.length (system d) = num_obs d
  /\ List.length (satellite d) = num_obs d
  /\ List.length (azimuth (site_pos d)) = num_obs d
  /\ List.length (zenith_distance (site_pos d)) = num_obs d
  /\ List.length (elevation (site_pos d)) = num_obs d
  /\ Forall (fun kv => List.length (snd kv) = num_obs d) (fields d).

(** The variables of an analysis of the station vegs on one day. *)
Definition one_day : Dataset :=
  {| time_datetime := [100%Z; 101%Z; 102%Z];
     time_gps_datetime := [100%Z; 101%Z; 102%Z];
     system := ["G"; "R"; "E"];
     satellite := ["G01"; "R07"; "E11"];
     site_pos := {| azimuth := [f1; f1; f1];
                    zenith_distance := [f1; f1; f1];
                    elevation := [f1; f1; f1] |};
     fields := [];
     meta_obstypes := [("E", ["C1C"]); ("G", ["C1C"])];
     meta_linear_combination := [];
     vars := [("station", "vegs"); ("stage", "edit"); ("label", "last")];
     analysis := [("rundate", "2021-07-01"); ("label", "0")] |}.

(** The warning [_get_dataset] logs: the text is no f-string, so the
    braces stay as they are. *)
Definition could_not_read : level * string :=
  (Warn, "Could not read dataset {config.files.path('dataset', file_vars=file_vars)}.").

(** The series of the dataset [d] in a figure of the overview. *)
Definition own_times (d : Dataset) : list cell :=
  map Time (fst (fst (sort_by_satellite_of d))).

Definition own_satellites (d : Dataset) : list cell :=
  map Text (snd (fst (sort_by_satellite_of d))).

(** The observations of a dataset as rows of time, satellite and
    system. *)
Definition rows (time_ : list datetime) (satellite_ system_ : list string)
  : list (datetime * (string * string)) :=
  combine time_ (combine satellite_ system_).

Definition rows_of (d : Dataset) : list (datetime * (string * string)) :=
  rows (time_gps_datetime d) (satellite d) (system d).

(** The rows of a satellite. *)
Definition of_satellite (sat : string) (row : datetime * (string * string))
  : bool :=
  String.eqb sat (fst (snd row)).

(** The last two characters of a string of three characters. *)
Definition last_two (x : string) : string := String.substring 1 2 x.

(** The state after the list of observation types of a system has been
    replaced. *)
Definition with_obstypes (sys : string) (items : list string) (st : State)
  : State :=
  {| dset := with_meta_obstypes (Py.setitem (meta_obstypes (dset st)) sys items)
               (dset st);
     plots := plots st;
     logged := logged st |}.

(** A dataset with the observation types of RINEX 3 for GPS, and with
    names of five characters for Galileo. *)
Definition rinex_obstypes : Dataset :=
  with_meta_obstypes
    [ ("G", ["L2W"; "C1C"; "S1C"; "C2W"; "L1C"]);
      ("E", ["phase"; "codes"]) ]
    one_observation.

(** An azimuth brought into the range from zero on: [2 * pi] is added
    to a negative angle. *)
Definition from_zero (a : Float.float) : Float.float :=
  if Float.ltb a Float.zero then Float.add two_pi a else a.

(** The entries of a column for each of the satellites of a system, as
    [satellite_series] puts them into an array for each satellite. *)
Definition series_of (d : Dataset) (sys : string) (column : list cell)
  : list (list cell) :=
  map (fun sat => Py.take_mask (mask_eq (satellite d) sat) column)
    (satellites_of d sys).

(** Every system of the dataset has a name in [enums.gnss_id_to_name]. *)
Definition systems_named (gnss_id_to_name : list (string * EnumMember))
    (d : Dataset) : Prop :=
  forall sys, In sys (system d) -> Py.lookup sys gnss_id_to_name <> None.

(** The figure of [plot_skyplot] for a system. *)
Definition skyplot_of (figure_dir figure_name : string) (d : Dataset)
    (sys : string) (call : PlotCall) : Prop :=
  figure_path call = system_path figure_dir figure_name sys
  /\ labels call = Some (satellites_of d sys)
  /\ x_arrays call
     = series_of d sys (map Num (map from_zero (azimuth (site_pos d))))
  /\ y_arrays call
     = series_of d sys
         (map Num (map Float.rad2deg (zenith_distance (site_pos d)))).

(** The names of GPS and Galileo. *)
Definition two_names : list (string * EnumMember) :=
  [ ("E", {| value_ := "Galileo"; shown := "Galileo" |});
    ("G", {| value_ := "GPS"; shown := "GPS" |}) ].

(** A dataset of GPS and GLONASS, the second without a name in
    [two_names]; the azimuth of the GPS satellite is negative. *)
Definition with_glonass : Dataset :=
  {| time_datetime := [100%Z; 100%Z];
     time_gps_datetime := [100%Z; 100%Z];
     system := ["R"; "G"];
     satellite := ["R07"; "G01"];
     site_pos := {| azimuth := [f1; Float.of_Z (-1)];
                    zenith_distance := [f1; f1];
                    elevation := [f1; f1] |};
     fields := [];
     meta_obstypes := [("G", ["C1C"]); ("R", ["C1C"])];
     meta_linear_combination := [];
     vars := [];
     analysis := [] |}.

(** The first of the systems that has no name in
    [enums.gnss_id_to_name]. *)
Definition first_unnamed (gnss_id_to_name : list (string * EnumMember))
    (systems : list string) : option string :=
  find (fun sys => match Py.lookup sys gnss_id_to_name with
                   | Some _ => false
                   | None => true
                   end) systems.

(** The name of a system, as a label shows it. *)
Definition name_of (gnss_id_to_name : list (string * EnumMember))
    (sys : string) : string :=
  match Py.lookup sys gnss_id_to_name with
  | Some member => value_ member
  | None => ""
  end.

(** The numbers of satellites of the observations of a system. *)
Definition satellites_counted
    (get_number_of_satellites :
       list string -> list string -> list datetime -> list Float.float)
    (d : Dataset) (sys : string) : list cell :=
  map Num (get_number_of_satellites
             (rows_of_system d (system d) sys)
             (rows_of_system d (satellite d) sys)
             (rows_of_system d (time_gps_datetime d) sys)).

(** The figure of [plot_satellite_elevation] for a system, between the
    limits of the day. *)
Definition elevation_of (figure_dir figure_name : string)
    (gnss_id_to_name : list (string * EnumMember)) (d : Dataset)
    (day_start day_end : datetime) (sys : string) (call : PlotCall) : Prop :=
  figure_path call = system_path figure_dir figure_name sys
  /\ labels call = Some (satellites_of d sys)
  /\ x_arrays call = series_of d sys (gps_time d)
  /\ y_arrays call
     = series_of d sys (map Num (map Float.rad2deg (elevation (site_pos d))))
  /\ Py.lookup "xlim" (opt_args call)
     = Some (VSeq [VTime day_start; VTime day_end])
  /\ exists member,
       Py.lookup sys gnss_id_to_name = Some member
       /\ Py.lookup "title" (opt_args call)
          = Some (VStr ("Satellite elevation for " ++ shown member)).

(** The fields of the collection [lin] that [plot_linear_combinations]
    has no branch of their own for. *)
Definition generic_field (field : string) : bool :=
  negb (String.eqb field "melbourne_wuebbena"
        || String.eqb field "code_multipath_f1"
        || String.eqb field "code_multipath_f2"
        || String.eqb field "code_phase_f1"
        || String.eqb field "code_phase_f2").

(** The observation types a linear combination is made of, for a field
    and a system. *)
Definition combination_of (d : Dataset) (field sys : string)
  : option (list string) :=
  match Py.lookup field (meta_linear_combination d) with
  | Some by_sys => Py.lookup sys by_sys
  | None => None
  end.

(** The path of the figure of a linear combination. *)
Definition lin_path (figure_dir figure_name field sys : string)
    (comb : list string) : string :=
  path_join figure_dir
    (Py.replace
       (Py.replace figure_name "{solution}"
          (field ++ "_" ++ sys ++ "_" ++ Py.join "_" comb))
       "{FIGURE_FORMAT}" FIGURE_FORMAT).

(** The string is made of three parts without an underscore, with an
    underscore between them. *)
Definition three_parts (field name1 name2 obscode : string) : Prop :=
  field = (name1 ++ "_" ++ name2 ++ "_" ++ obscode)%string
  /\ RowNotions.occurs "_" name1 = false
  /\ RowNotions.occurs "_" name2 = false
  /\ RowNotions.occurs "_" obscode = false.

(** What [plot_linear_combinations] returns and hands over for a field
    and a system. *)
Definition lin_info (figure_dir figure_name : string) (d : Dataset)
    (fs : string * string) (info : FigureInfo) : Prop :=
  system_ info = snd fs
  /\ combination_of d (fst fs) (snd fs) = Some (obstype info)
  /\ file_path info
     = lin_path figure_dir figure_name (fst fs) (snd fs) (obstype info)
  /\ (generic_field (fst fs) = true ->
      exists name1 name2 obscode,
        three_parts (fst fs) name1 name2 obscode
        /\ name info = (name1 ++ "_" ++ name2)%string).

Definition lin_figure (figure_dir figure_name : string) (d : Dataset)
    (fs : string * string) (call : PlotCall) : Prop :=
  labels call = Some (satellites_of d (snd fs))
  /\ (exists comb,
        combination_of d (fst fs) (snd fs) = Some comb
        /\ figure_path call
           = lin_path figure_dir figure_name (fst fs) (snd fs) comb)
  /\ (generic_field (fst fs) = true ->
      exists name1 name2 obscode,
        three_parts (fst fs) name1 name2 obscode
        /\ ylabel call
           = (Py.capitalize name1 ++ "-" ++ name2 ++ " (" ++ obscode ++ ")")%string).

(** A dataset with the geometry-free combination of the codes C1C and
    C2W of GPS. *)
Definition with_geometry_free : Dataset :=
  {| time_datetime := [100%Z];
     time_gps_datetime := [100%Z];
     system := ["G"];
     satellite := ["G01"];
     site_pos := {| azimuth := [f1]; zenith_distance := [f1]; elevation := [f1] |};
     fields := [("lin.geometry_free_code", [f1])];
     meta_obstypes := [("G", ["C1C"; "C2W"])];
     meta_linear_combination :=
       [("geometry_free_code", [("G", ["C1C"; "C2W"])])];
     vars := [];
     analysis := [] |}.

(** The observation types of a system in the order
    [plot_obstype_availability] runs over them. *)
Definition obstypes_of (d : Dataset) (sys : string) : list string :=
  Py.sort_key Py.slice_m2_3
    match Py.lookup sys (meta_obstypes d) with
    | Some items => items
    | None => []
    end.

(** The observations of a satellite that have a value of an
    observation type. *)
Definition observed (d : Dataset) (sat obstype_ : string) : list bool :=
  map (fun p => String.eqb sat (fst p) && negb (Float.isnan (snd p)))
    (combine (satellite d) (values_of d ("obs." ++ obstype_))).

(** The arrays [plot_obstype_availability] shows for a satellite and an
    observation type: none when the satellite has no value of that
    type, and else the times of the values against as many copies of
    the text of the satellite and the type. *)
Definition availability (d : Dataset) (sat obstype_ : string)
  : list (list cell * list cell) :=
  let keep_idx := observed d sat obstype_ in
  if any keep_idx then
    [ (Py.take_mask keep_idx (gps_time d),
       repeat (Text (sat ++ "_" ++ obstype_))
         (List.length (Py.take_mask keep_idx (time_datetime d)))) ]
  else [].

Definition availability_of (d : Dataset) (sys : string)
  : list (list cell * list cell) :=
  flat_map (fun sat => flat_map (availability d sat) (obstypes_of d sys))
    (satellites_of_reverse d sys).

(** [d'] is [d] but for the order of lists of observation types. *)
Definition same_observations (d d' : Dataset) : Prop :=
  time_datetime d' = time_datetime d
  /\ time_gps_datetime d' = time_gps_datetime d
  /\ system d' = system d
  /\ satellite d' = satellite d
  /\ fields d' = fields d
  /\ lists_sorted_in_place (meta_obstypes d) (meta_obstypes d').

(** The figure of [plot_obstype_availability] for a system. *)
Definition availability_figure (figure_dir figure_name : string) (d : Dataset)
    (sys : string) (call : PlotCall) : Prop :=
  figure_path call = system_path figure_dir figure_name sys
  /\ x_arrays call = map fst (availability_of d sys)
  /\ y_arrays call = map snd (availability_of d sys).

(** Two epochs of the satellites G01 and G02: G01 has no C1C at the
    second epoch, G02 has no C2W at all. *)
Definition two_epochs : Dataset :=
  {| time_datetime := [100%Z; 100%Z; 130%Z; 130%Z];
     time_gps_datetime := [118%Z; 118%Z; 148%Z; 148%Z];
     system := ["G"; "G"; "G"; "G"];
     satellite := ["G01"; "G02"; "G01"; "G02"];
     site_pos := {| azimuth := [f1; f1; f1; f1];
                    zenith_distance := [f1; f1; f1; f1];
                    elevation := [f1; f1; f1; f1] |};
     fields := [ ("obs.C1C", [f1; f1; Float.nan; f1]);
                 ("obs.C2W", [f1; Float.nan; f1; Float.nan]) ];
     meta_obstypes := [("G", ["C2W"; "C1C"])];
     meta_linear_combination := [];
     vars := [];
     analysis := [] |}.

End PlotNotions.

(** * Properties of [get_grc_csv_row] *)

Module RowFacts.
Import Gnss RowNotions.

Ltac split_keys :=
  repeat match goal with
    | H : context [String.eqb ?k ?lit] |- _ =>
        destruct (String.eqb_spec k lit); [subst k | ]; cbn [Py.lookup] in H
    | |- context [String.eqb ?k ?lit] =>
        destruct (String.eqb_spec k lit); [subst k | ]
    end.

(** ** Strings *)

Lemma prefix_refl_app (p s : string) : String.prefix p (p ++ s) = true.
Proof.
  induction p as [|a p IH]; cbn.
  - destruct s; reflexivity.
  - rewrite IH. destruct (ascii_dec a a); [reflexivity | contradiction].
Qed.

Lemma replace_from_skip (old new t s : string) :
  Py.replace_from old new (String.length t) (t ++ s)
  = Py.replace_from old new 0 s.
Proof.
  induction t as [|c t IH]; cbn; [reflexivity | exact IH].
Qed.

Lemma replace_prefix (a : ascii) (old' new s : string) :
  Py.replace (String a old' ++ s) (String a old') new
  = (new ++ Py.replace s (String a old') new)%string.
Proof.
  unfold Py.replace.
  change (String a old' ++ s)%string with (String a (old' ++ s)).
  cbn [Py.replace_from].
  change (String a (old' ++ s)) with (String a old' ++ s)%string.
  rewrite prefix_refl_app.
  replace (String.length (String a old') - 1) with (String.length old')
    by (cbn [String.length]; lia).
  now rewrite replace_from_skip.
Qed.

Lemma replace_no_occurrence (old new s : string) :
  occurs old s = false -> Py.replace_from old new 0 s = s.
Proof.
  induction s as [|c s IH]; intros H; [reflexivity|].
  cbn [occurs] in H. apply orb_false_iff in H as [Hp Hs].
  cbn [Py.replace_from]. rewrite Hp. now rewrite IH.
Qed.

Lemma replace_E (s : string) :
  Py.replace s "E" "GSAT0" = every_E_replaced s.
Proof.
  unfold Py.replace.
  induction s as [|c s IH]; [reflexivity|].
  cbn [Py.replace_from every_E_replaced String.prefix].
  destruct (ascii_dec "E" c) as [<-|Hne].
  - replace (String.prefix "" s) with true by (destruct s; reflexivity).
    change (String.length "E" - 1) with 0. rewrite IH. reflexivity.
  - destruct (Ascii.eqb_spec c "E") as [->|_]; [contradiction|].
    now rewrite IH.
Qed.

Lemma every_E_none (s : string) :
  occurs "E" s = false -> every_E_replaced s = s.
Proof.
  intros H. rewrite <- replace_E. unfold Py.replace.
  now apply replace_no_occurrence.
Qed.

(** ** The date *)

Lemma strptime_first_not_digit (c : ascii) (rest : string) :
  is_digit c = false ->
  strptime_y_b_d (String c rest) = inl (no_match (String c rest)).
Proof.
  intros H. unfold strptime_y_b_d.
  destruct rest as [|y2 [|c3 rest]]; try reflexivity.
  destruct c3 as [[] [] [] [] [] [] [] []]; try reflexivity.
  destruct rest as [|b1 [|b2 [|b3 [|c7 rest]]]]; try reflexivity.
  destruct c7 as [[] [] [] [] [] [] [] []]; try reflexivity.
  rewrite H. reflexivity.
Qed.

(** ** The block under [if satellite:] *)

Section Stage.

Variable apriori_get : string -> exn + AntennaCorrection.

Lemma satellite_fields_empty (date : string) (sent : Queries) :
  satellite_fields apriori_get date "" sent = (inr ("", "", ""), sent).
Proof. reflexivity. Qed.

Lemma satellite_fields_found (date satellite : string) (sent : Queries)
    (atx : AntennaCorrection) (used_date : datetime) (info : sat_info) :
  Py.truthy satellite = true ->
  apriori_get "gnss_antenna_correction" = inr atx ->
  strptime_y_b_d (date ++ "-01") = inr used_date ->
  get_satellite_info atx satellite used_date = inr info ->
  satellite_fields apriori_get date satellite sent
  = (inr (Py.get_or batch_def (sat_type info) "",
          svn_of_sat_code (sat_code info),
          Py.get_or slot_def (svn_of_sat_code (sat_code info)) ""),
     sent ++ [(satellite, used_date)]).
Proof.
  intros Hs Ha Hd Hi.
  unfold satellite_fields, bind, lift, call_get_satellite_info, ret.
  now rewrite Hs, Ha, Hd, Hi.
Qed.

Lemma satellite_fields_date_error (date satellite : string) (sent : Queries)
    (atx : AntennaCorrection) (e : exn) :
  Py.truthy satellite = true ->
  apriori_get "gnss_antenna_correction" = inr atx ->
  strptime_y_b_d (date ++ "-01") = inl e ->
  satellite_fields apriori_get date satellite sent = (inl e, sent).
Proof.
  intros Hs Ha Hd.
  unfold satellite_fields, bind, lift.
  now rewrite Hs, Ha, Hd.
Qed.

(** ** The row *)

Lemma row_stage_error (constellation kpi mode date : string)
    (result : Float.float) (station satellite : string)
    (sent sent' : Queries) (e : exn) :
  satellite_fields apriori_get date satellite sent = (inl e, sent') ->
  get_grc_csv_row apriori_get constellation kpi mode date result
    station satellite sent = (inl e, sent').
Proof.
  intros H. unfold get_grc_csv_row, bind. now rewrite H.
Qed.

Lemma row_of_known_pair (constellation kpi mode date : string)
    (result : Float.float) (station satellite : string)
    (sent sent' : Queries) (batch svn slot : string) :
  satellite_fields apriori_get date satellite sent
  = (inr (batch, svn, slot), sent') ->
  known_pair constellation kpi = true ->
  exists category business target unit_,
    get_grc_csv_row apriori_get constellation kpi mode date result
      station satellite sent
    = (inr [ constellation; "Open Service"; category; business; batch;
             svn; satellite; slot; Py.get_or station_def station "";
             Py.upper station; "OS";
             if Nat.eqb (Py.len mode) 2 then "Single" else "Dual";
             Py.get_or mode_def mode mode; target; unit_; date;
             Float.format_5f result ],
       sent').
Proof.
  intros Hf Hk.
  unfold known_pair in Hk.
  destruct (Py.lookup kpi category_def) as [category|] eqn:Hc; [|discriminate].
  destruct (Py.lookup constellation business_def) as [by_kpi|] eqn:Hb;
    [|discriminate].
  destruct (Py.lookup kpi by_kpi) as [business|] eqn:Hy; [|discriminate].
  assert (Hkeys : exists target unit_,
             Py.lookup kpi target_def = Some target /\
             Py.lookup kpi unit_def = Some unit_).
  { clear - Hc. unfold category_def in Hc. cbn [Py.lookup] in Hc.
    split_keys; try discriminate; cbn; eauto. }
  destruct Hkeys as (target & unit_ & Ht & Hu).
  exists category, business, target, unit_.
  unfold get_grc_csv_row, bind, Py.getitem, ret.
  now rewrite Hf, Hc, Hb, Hy, Ht, Hu.
Qed.

Lemma row_of_unknown_pair (constellation kpi mode date : string)
    (result : Float.float) (station satellite : string)
    (sent sent' : Queries) (fields : string * string * string) :
  satellite_fields apriori_get date satellite sent = (inr fields, sent') ->
  known_pair constellation kpi = false ->
  exists key,
    get_grc_csv_row apriori_get constellation kpi mode date result
      station satellite sent = (inl (KeyError key), sent').
Proof.
  intros Hf Hk. destruct fields as [[batch svn] slot].
  unfold known_pair in Hk.
  unfold get_grc_csv_row, bind, Py.getitem, ret, raise. rewrite Hf.
  destruct (Py.lookup kpi category_def) as [category|] eqn:Hc; [|eauto].
  destruct (Py.lookup constellation business_def) as [by_kpi|] eqn:Hb; [|eauto].
  destruct (Py.lookup kpi by_kpi) as [business|] eqn:Hy; [discriminate|eauto].
Qed.

(** Whatever the arguments, a row that is returned has one field for
    each column of the header. *)
Lemma row_length (constellation kpi mode date : string)
    (result : Float.float) (station satellite : string)
    (sent sent' : Queries) (row : list string) :
  get_grc_csv_row apriori_get constellation kpi mode date result
    station satellite sent = (inr row, sent') ->
  List.length row = List.length get_grc_csv_header.
Proof.
  unfold get_grc_csv_row, bind, Py.getitem, ret, raise.
  destruct (satellite_fields apriori_get date satellite sent)
    as [[e|[[batch svn] slot]] s1]; [discriminate|].
  destruct (Py.lookup kpi category_def); [|discriminate].
  destruct (Py.lookup constellation business_def) as [by_kpi|]; [|discriminate].
  destruct (Py.lookup kpi by_kpi); [|discriminate].
  destruct (Py.lookup kpi target_def); [|discriminate].
  destruct (Py.lookup kpi unit_def); [|discriminate].
  intros H. inversion H. reflexivity.
Qed.

(** Without a satellite a known pair always gets its row, and the
    collaborator is not asked. *)
Lemma row_without_satellite (constellation kpi mode date : string)
    (result : Float.float) (station : string) (sent : Queries) :
  known_pair constellation kpi = true ->
  exists row,
    get_grc_csv_row apriori_get constellation kpi mode date result
      station "" sent = (inr row, sent)
    /\ List.length row = 17.
Proof.
  intros Hk.
  destruct (row_of_known_pair constellation kpi mode date result station ""
              sent sent "" "" "" (satellite_fields_empty date sent) Hk)
    as (category & business & target & unit_ & H).
  eexists. split; [exact H | reflexivity].
Qed.

End Stage.


(** With a satellite and a date that does not start with two digits,
    as every date of the form Month-Year, the call raises
    [ValueError] before the collaborator is asked. *)
Lemma row_with_satellite_needs_year_first
    (apriori_get : string -> exn + AntennaCorrection) (atx : AntennaCorrection)
    (constellation kpi mode : string) (c : ascii) (date : string)
    (result : Float.float) (station satellite : string) (sent : Queries) :
  Py.truthy satellite = true ->
  apriori_get "gnss_antenna_correction" = inr atx ->
  is_digit c = false ->
  get_grc_csv_row apriori_get constellation kpi mode (String c date) result
    station satellite sent
  = (inl (no_match (String c date ++ "-01")), sent).
Proof.
  intros Hs Ha Hc. apply row_stage_error.
  apply satellite_fields_date_error with (atx := atx); auto.
  change (String c date ++ "-01")%string with (String c (date ++ "-01")).
  now apply strptime_first_not_digit.
Qed.

(** The format of the code reads year, month name, day: a date such as
    ["21-Jul"] is parsed, and the collaborator is then asked once. *)
Example row_with_two_digit_year :
  get_grc_csv_row (example_apriori "E210") "Galileo" "sisre_sat" "e1" "21-Jul"
    one "" "E01" []
  = (inr [ "Galileo"; "Open Service"; "Ranging Domain";
           "SDD-OS-09 SIS Ranging Accuracy per Satellite over Month";
           "FOC"; "GSAT0210"; "E01"; "A02"; ""; ""; "OS"; "Single"; "E1";
           "≤ 7"; "m"; "21-Jul"; "1.00000" ],
     [("E01", {| year := 2021; month := 7; day := 1 |})]).
Proof. reflexivity. Qed.

Example format_5f_one : Float.format_5f one = "1.00000".
Proof. reflexivity. Qed.

Example svn_of_G012 : svn_of_sat_code "G012" = "SVN12".
Proof. reflexivity. Qed.

(** C1, the code at the failing input: for the known pair
    (Galileo, sisre_sat), a date in the documented form Month-Year and a
    satellite, [get_grc_csv_row] returns no row of 17 fields; it raises
    [ValueError] out of [strptime], whatever the collaborator is. *)
Theorem row_not_returned_for_month_year_date :
  forall (atx : AntennaCorrection) (sent : Queries),
    known_pair "Galileo" "sisre_sat" = true
    /\ get_grc_csv_row (fun _ => inr atx) "Galileo" "sisre_sat" "e1"
         "July-2021" one "" "E01" sent
       = (inl (no_match "July-2021-01"), sent).
Proof. intros atx sent. split; reflexivity. Qed.



(** C3, the code at the failing input: the text ["July-2021-01"] made
    of a date in the documented form Month-Year does not match the
    format ["%y-%b-%d"], so with any non-empty satellite the call
    raises [ValueError] and the collaborator is not asked. *)
Theorem month_year_date_is_not_parsed :
  forall (atx : AntennaCorrection) (constellation kpi mode : string)
         (result : Float.float) (station : string) (c : ascii)
         (satellite : string) (sent : Queries),
    strptime_y_b_d ("July-2021" ++ "-01") = inl (no_match "July-2021-01")
    /\ get_grc_csv_row (fun _ => inr atx) constellation kpi mode "July-2021"
         result station (String c satellite) sent
       = (inl (no_match "July-2021-01"), sent).
Proof. intros. split; reflexivity. Qed.

(** C4, the claim as stated fails: for the code ["E2E1"] the satellite
    field is ["GSAT02GSAT01"], every ["E"] being replaced, and not
    ["GSAT02E1"], which replacing the first occurrence only gives. *)
Lemma svn_replaces_every_occurrence :
  exists row,
    get_grc_csv_row (example_apriori "E2E1") "Galileo" "sisre_sat" "e1"
      "21-Jul" one "" "E01" []
    = (inr row, [("E01", {| year := 2021; month := 7; day := 1 |})])
    /\ nth 5 row "" = "GSAT02GSAT01"
    /\ svn_first_occurrence_only "E2E1" = "GSAT02E1"
    /\ nth 5 row "" <> svn_first_occurrence_only "E2E1".
Proof.
  eexists. split; [reflexivity|]. cbn. repeat split. discriminate.
Qed.

(** C4, amended: when the date is parsed and the collaborator answers,
    the satellite field of the row is the code with every ["E"]
    replaced by ["GSAT0"] when the code starts with ["E"] (so
    ["GSAT0"] and the rest, when the rest has no ["E"]), with every
    ["G0"] replaced by ["SVN"] when it starts with ["G"] (so ["SVN"] and
    the rest for a leading ["G0"] that is the only one, the code itself
    without any ["G0"]), and the code itself otherwise; the slot field
    is the entry of [slot_def] under that identifier, or empty. *)
Theorem svn_conversion :
  forall (apriori_get : string -> exn + AntennaCorrection)
         (atx : AntennaCorrection)
         (constellation kpi mode date : string) (result : Float.float)
         (station satellite : string) (sent : Queries)
         (used_date : datetime) (info : sat_info),
    Py.truthy satellite = true ->
    apriori_get "gnss_antenna_correction" = inr atx ->
    strptime_y_b_d (date ++ "-01") = inr used_date ->
    get_satellite_info atx satellite used_date = inr info ->
    known_pair constellation kpi = true ->
    exists row,
      get_grc_csv_row apriori_get constellation kpi mode date result
        station satellite sent
      = (inr row, sent ++ [(satellite, used_date)])
      /\ (Py.startswith (sat_code info) "E" = true ->
          nth 5 row "" = every_E_replaced (sat_code info))
      /\ (forall rest, sat_code info = String "E" rest ->
          occurs "E" rest = false ->
          nth 5 row "" = ("GSAT0" ++ rest)%string)
      /\ (Py.startswith (sat_code info) "E" = false ->
          Py.startswith (sat_code info) "G" = true ->
          nth 5 row "" = Py.replace (sat_code info) "G0" "SVN")
      /\ (forall rest, sat_code info = ("G0" ++ rest)%string ->
          occurs "G0" rest = false ->
          nth 5 row "" = ("SVN" ++ rest)%string)
      /\ (Py.startswith (sat_code info) "E" = false ->
          Py.startswith (sat_code info) "G" = true ->
          occurs "G0" (sat_code info) = false ->
          nth 5 row "" = sat_code info)
      /\ (Py.startswith (sat_code info) "E" = false ->
          Py.startswith (sat_code info) "G" = false ->
          nth 5 row "" = sat_code info)
      /\ nth 7 row ""
         = match Py.lookup (nth 5 row "") slot_def with
           | Some slot => slot
           | None => ""
           end.
Proof.
  intros apriori_get atx constellation kpi mode date result station
    satellite sent used_date info Hs Ha Hd Hi Hk.
  destruct (row_of_known_pair apriori_get constellation kpi mode date
              result station satellite sent _ _ _ _
              (satellite_fields_found apriori_get date satellite sent atx
                 used_date info Hs Ha Hd Hi) Hk)
    as (category & business & target & unit_ & Hrow).
  eexists. split; [exact Hrow|]. cbn [nth].
  unfold svn_of_sat_code.
  repeat split.
  - intros ->. apply replace_E.
  - intros rest -> Hrest. cbn [Py.startswith String.prefix].
    rewrite replace_E. cbn [every_E_replaced].
    replace (String.prefix "" rest) with true by (destruct rest; reflexivity).
    cbn. now rewrite every_E_none.
  - now intros -> ->.
  - intros rest -> Hrest. cbn [Py.startswith String.prefix String.append].
    replace (String.prefix "" (String "0" rest)) with true by reflexivity.
    cbn [ascii_dec ascii_rec ascii_rect Bool.bool_dec bool_rec bool_rect
           sumbool_rec sumbool_rect].
    change (String "G" (String "0" rest)) with ("G0" ++ rest)%string.
    rewrite replace_prefix. unfold Py.replace.
    now rewrite replace_no_occurrence.
  - intros -> -> Hnone. unfold Py.replace. now apply replace_no_occurrence.
  - now intros -> ->.
Qed.

(** The code ["G012"] of the service becomes ["SVN12"], which
    [slot_def] does not know. *)
Lemma svn_conversion_witness :
  exists row,
    get_grc_csv_row (example_apriori "G012") "GPS" "sisre_sat" "l1" "21-Jul"
      one "" "G12" []
    = (inr row, [("G12", {| year := 2021; month := 7; day := 1 |})])
    /\ nth 5 row "" = "SVN12"
    /\ nth 7 row "" = "".
Proof.
  destruct (svn_conversion (example_apriori "G012") (example_atx "G012")
              "GPS" "sisre_sat" "l1" "21-Jul" one "" "G12" []
              {| year := 2021; month := 7; day := 1 |}
              {| sat_type := "GALILEO-2"; sat_code := "G012" |}
              eq_refl eq_refl eq_refl eq_refl eq_refl)
    as (row & Hrow & _ & _ & _ & Hg & _ & _ & Hslot).
  exists row. split; [exact Hrow|].
  pose proof (Hg "12" eq_refl eq_refl) as Hsvn.
  split; [exact Hsvn|]. rewrite Hslot, Hsvn. reflexivity.
Defined.

(** C5: a known pair whose satellite block does not raise gets a row
    whose field under the header ["Type"] is ["Single"] exactly when
    the mode has two characters, and ["Dual"] otherwise. *)
Theorem type_is_single_iff_mode_has_two_characters :
  forall (apriori_get : string -> exn + AntennaCorrection)
         (constellation kpi mode date : string) (result : Float.float)
         (station satellite : string) (sent sent' : Queries)
         (fields : string * string * string),
    satellite_fields apriori_get date satellite sent = (inr fields, sent') ->
    known_pair constellation kpi = true ->
    exists row,
      get_grc_csv_row apriori_get constellation kpi mode date result
        station satellite sent = (inr row, sent')
      /\ nth 11 get_grc_csv_header "" = "Type"
      /\ (nth 11 row "" = "Single" <-> Py.len mode = 2)
      /\ (nth 11 row "" = "Dual" <-> Py.len mode <> 2).
Proof.
  intros apriori_get constellation kpi mode date result station satellite
    sent sent' [[batch svn] slot] Hf Hk.
  destruct (row_of_known_pair apriori_get constellation kpi mode date
              result station satellite sent sent' batch svn slot Hf Hk)
    as (category & business & target & unit_ & Hrow).
  eexists. split; [exact Hrow|]. cbn [nth get_grc_csv_header].
  split; [reflexivity|].
  destruct (Nat.eqb_spec (Py.len mode) 2) as [Heq|Hne].
  - split; split; auto; try discriminate. intros Hc. now elim Hc.
  - split; split; auto; try discriminate. intros Hc. now elim Hne.
Qed.

(** The boundary: a mode of two characters against one of three. *)
Lemma type_is_single_iff_mode_has_two_characters_witness :
  (exists row,
     get_grc_csv_row (example_apriori "E210") "Galileo" "hpe" "e1" "July-2021"
       one "vegs" "" [] = (inr row, [])
     /\ nth 11 row "" = "Single")
  /\ (exists row,
        get_grc_csv_row (example_apriori "E210") "Galileo" "hpe" "e5b" "July-2021"
          one "vegs" "" [] = (inr row, [])
        /\ nth 11 row "" = "Dual").
Proof.
  split.
  - destruct (type_is_single_iff_mode_has_two_characters
                (example_apriori "E210") "Galileo" "hpe" "e1" "July-2021" one
                "vegs" "" [] [] ("", "", "") eq_refl eq_refl)
      as (row & Hrow & _ & Hsingle & _).
    exists row. split; [exact Hrow|]. apply Hsingle. reflexivity.
  - destruct (type_is_single_iff_mode_has_two_characters
                (example_apriori "E210") "Galileo" "hpe" "e5b" "July-2021" one
                "vegs" "" [] [] ("", "", "") eq_refl eq_refl)
      as (row & Hrow & _ & _ & Hdual).
    exists row. split; [exact Hrow|]. apply Hdual. discriminate.
Defined.

(** ** The row that is returned *)

(** X1: whatever the arguments, a row that [get_grc_csv_row] returns has
    seventeen fields, one for each column of the header, and its fields
    under Constellation, Service Line, PRN, Station, Service, Date and
    Result are the constellation, ["Open Service"], the satellite, the
    station in upper case, ["OS"], the date as given and the result
    with five decimals. *)
Theorem returned_row_has_the_columns_of_the_header :
  forall (apriori_get : string -> exn + AntennaCorrection)
         (constellation kpi mode date : string) (result : Float.float)
         (station satellite : string) (sent sent' : Queries) (row : list string),
    get_grc_csv_row apriori_get constellation kpi mode date result
      station satellite sent = (inr row, sent') ->
    List.length row = List.length get_grc_csv_header
    /\ List.length row = 17
    /\ nth 0 row "" = constellation
    /\ nth 1 row "" = "Open Service"
    /\ nth 6 row "" = satellite
    /\ nth 9 row "" = Py.upper station
    /\ nth 10 row "" = "OS"
    /\ nth 15 row "" = date
    /\ nth 16 row "" = Float.format_5f result.
Proof.
  intros apriori_get constellation kpi mode date result station satellite
    sent sent' row.
  unfold get_grc_csv_row, bind, Py.getitem, ret, raise.
  destruct (satellite_fields apriori_get date satellite sent)
    as [[e|[[batch svn] slot]] s1]; [discriminate|].
  destruct (Py.lookup kpi category_def); [|discriminate].
  destruct (Py.lookup constellation business_def) as [by_kpi|]; [|discriminate].
  destruct (Py.lookup kpi by_kpi); [|discriminate].
  destruct (Py.lookup kpi target_def); [|discriminate].
  destruct (Py.lookup kpi unit_def); [|discriminate].
  intros [= <- _]. repeat split.
Qed.

Lemma returned_row_has_the_columns_of_the_header_witness :
  exists row,
    fst (get_grc_csv_row (example_apriori "E210") "GPS" "vpe" "l1l2" "21-Jul"
           one "hons" "G05" []) = inr row
    /\ List.length row = 17
    /\ nth 9 row "" = "HONS"
    /\ nth 15 row "" = "21-Jul"
    /\ nth 16 row "" = "1.00000".
Proof.
  destruct (get_grc_csv_row (example_apriori "E210") "GPS" "vpe" "l1l2" "21-Jul"
              one "hons" "G05" []) as [[e|row] sent'] eqn:Hrun;
    [vm_compute in Hrun; discriminate|].
  destruct (returned_row_has_the_columns_of_the_header _ _ _ _ _ _ _ _ _ _ _ Hrun)
    as (_ & Hlen & _ & _ & _ & Hstation & _ & Hdate & Hresult).
  exists row. cbn [fst]. repeat split; assumption.
Defined.

(** X2: without a satellite [get_grc_csv_row] asks neither the loader of
    the collaborators nor the collaborator: the queries sent are those
    sent before, whether the call returns or raises, and the outcome is
    the same whatever the loader is.  A known pair then gets its row,
    with empty Batch, Satellite, PRN and Slot; any other pair raises
    [KeyError]. *)
Theorem no_satellite_no_query :
  forall (apriori_get apriori_get' : string -> exn + AntennaCorrection)
         (constellation kpi mode date : string) (result : Float.float)
         (station : string) (sent : Queries),
    let out := get_grc_csv_row apriori_get constellation kpi mode date result
                 station "" sent in
    snd out = sent
    /\ out = get_grc_csv_row apriori_get' constellation kpi mode date result
               station "" sent
    /\ (known_pair constellation kpi = true ->
        exists row,
          fst out = inr row
          /\ nth 4 row "" = "" /\ nth 5 row "" = ""
          /\ nth 6 row "" = "" /\ nth 7 row "" = "")
    /\ (known_pair constellation kpi = false ->
        exists key, fst out = inl (KeyError key)).
Proof.
  intros apriori_get apriori_get' constellation kpi mode date result station
    sent out.
  assert (Hsame : out = get_grc_csv_row apriori_get' constellation kpi mode
                          date result station "" sent) by reflexivity.
  assert (Hknown : known_pair constellation kpi = true ->
            exists row,
              out = (inr row, sent)
              /\ nth 4 row "" = "" /\ nth 5 row "" = ""
              /\ nth 6 row "" = "" /\ nth 7 row "" = "").
  { intros Hk.
    destruct (row_of_known_pair apriori_get constellation kpi mode date result
                station "" sent sent "" "" ""
                (satellite_fields_empty apriori_get date sent) Hk)
      as (category & business & target & unit_ & Hrow).
    eexists. split; [exact Hrow|]. repeat split. }
  assert (Hunknown : known_pair constellation kpi = false ->
            exists key, out = (inl (KeyError key), sent)).
  { intros Hk.
    apply (row_of_unknown_pair apriori_get constellation kpi mode date result
             station "" sent sent ("", "", "")
             (satellite_fields_empty apriori_get date sent) Hk). }
  split; [|split; [|split]].
  - destruct (known_pair constellation kpi).
    + destruct (Hknown eq_refl) as (row & -> & _). reflexivity.
    + destruct (Hunknown eq_refl) as (key & ->). reflexivity.
  - exact Hsame.
  - intros Hk. destruct (Hknown Hk) as (row & -> & H). now exists row.
  - intros Hk. destruct (Hunknown Hk) as (key & ->). now exists key.
Qed.

(** ** Failures of the block under [if satellite:] *)

(** X3: with a satellite, the block that asks the collaborator runs
    before the tables are read, so its failures are raised whatever the
    constellation and the KPI are, an unknown pair included: an
    exception of the loader is raised before the date is parsed, an
    exception of the parser before the collaborator is asked, and an
    exception of the collaborator after exactly one query, for the
    satellite at the parsed date, has been sent. *)
Theorem satellite_block_fails_before_the_tables :
  forall (apriori_get : string -> exn + AntennaCorrection)
         (constellation kpi mode date : string) (result : Float.float)
         (station satellite : string) (sent : Queries),
    Py.truthy satellite = true ->
    let out := get_grc_csv_row apriori_get constellation kpi mode date result
                 station satellite sent in
    (forall e,
       apriori_get "gnss_antenna_correction" = inl e -> out = (inl e, sent))
    /\ (forall atx e,
          apriori_get "gnss_antenna_correction" = inr atx ->
          strptime_y_b_d (date ++ "-01") = inl e ->
          out = (inl e, sent))
    /\ (forall atx used_date e,
          apriori_get "gnss_antenna_correction" = inr atx ->
          strptime_y_b_d (date ++ "-01") = inr used_date ->
          get_satellite_info atx satellite used_date = inl e ->
          out = (inl e, sent ++ [(satellite, used_date)])).
Proof.
  intros apriori_get constellation kpi mode date result station satellite
    sent Hs out.
  repeat split.
  - intros e Ha. apply row_stage_error.
    unfold satellite_fields, bind, lift. now rewrite Hs, Ha.
  - intros atx e Ha Hd. apply row_stage_error.
    now apply satellite_fields_date_error with (atx := atx).
  - intros atx used_date e Ha Hd Hi. apply row_stage_error.
    unfold satellite_fields, bind, lift, call_get_satellite_info.
    now rewrite Hs, Ha, Hd, Hi.
Qed.

(** For a pair no table knows: a date that is not parsed gives
    [ValueError] and no query, a satellite the collaborator does not
    know gives the exception of the collaborator after one query. *)
Lemma satellite_block_fails_before_the_tables_witness :
  get_grc_csv_row (fun _ => inr unknown_satellite) "Glonass" "xyz" "e1"
    "July-2021" one "" "R01" []
  = (inl (no_match "July-2021-01"), [])
  /\ get_grc_csv_row (fun _ => inr unknown_satellite) "Glonass" "xyz" "e1"
       "21-Jul" one "" "R01" []
     = (inl (KeyError "R01"), [("R01", {| year := 2021; month := 7; day := 1 |})]).
Proof.
  destruct (satellite_block_fails_before_the_tables
              (fun _ => inr unknown_satellite) "Glonass" "xyz" "e1" "July-2021"
              one "" "R01" [] eq_refl) as (_ & Hdate & _).
  destruct (satellite_block_fails_before_the_tables
              (fun _ => inr unknown_satellite) "Glonass" "xyz" "e1" "21-Jul"
              one "" "R01" [] eq_refl) as (_ & _ & Hinfo).
  split.
  - exact (Hdate unknown_satellite _ eq_refl eq_refl).
  - exact (Hinfo unknown_satellite _ _ eq_refl eq_refl eq_refl).
Defined.

(** ** The key of the [KeyError] *)

Lemma kpi_tables_agree (kpi : string) (category : string) :
  Py.lookup kpi category_def = Some category ->
  (exists target, Py.lookup kpi target_def = Some target)
  /\ (exists unit_, Py.lookup kpi unit_def = Some unit_)
  /\ forall constellation by_kpi,
       Py.lookup constellation business_def = Some by_kpi ->
       exists business, Py.lookup kpi by_kpi = Some business.
Proof.
  intros Hc. unfold category_def in Hc. cbn [Py.lookup] in Hc.
  assert (Hkpi : kpi = "hpe" \/ kpi = "site_vel_3d" \/ kpi = "sisre"
                 \/ kpi = "sisre_sat" \/ kpi = "vpe").
  { split_keys; try discriminate; auto 6. }
  clear Hc. split; [|split].
  - destruct Hkpi as [->|[->|[->|[->| ->]]]]; cbn; eauto.
  - destruct Hkpi as [->|[->|[->|[->| ->]]]]; cbn; eauto.
  - intros constellation by_kpi Hb.
    unfold business_def in Hb. cbn [Py.lookup] in Hb.
    destruct (String.eqb constellation "Galileo");
      [|destruct (String.eqb constellation "GPS"); [|discriminate]];
      injection Hb as <-;
      destruct Hkpi as [->|[->|[->|[->| ->]]]]; cbn; eauto.
Qed.

(** X4: when the block of the satellite has returned, the tables are
    read in the order category, business service: a KPI that
    [category_def] does not have raises [KeyError] with the KPI as its
    key, whatever the constellation is; a known KPI with a
    constellation that [business_def] does not have raises [KeyError]
    with the constellation as its key; and a known KPI with a known
    constellation always gets its row, since every table of KPIs has
    the keys of [category_def]. *)
Theorem key_error_names_the_missing_key :
  forall (apriori_get : string -> exn + AntennaCorrection)
         (constellation kpi mode date : string) (result : Float.float)
         (station satellite : string) (sent sent' : Queries)
         (fields : string * string * string),
    satellite_fields apriori_get date satellite sent = (inr fields, sent') ->
    let out := get_grc_csv_row apriori_get constellation kpi mode date result
                 station satellite sent in
    (Py.lookup kpi category_def = None -> out = (inl (KeyError kpi), sent'))
    /\ (Py.lookup kpi category_def <> None ->
        Py.lookup constellation business_def = None ->
        out = (inl (KeyError constellation), sent'))
    /\ (Py.lookup kpi category_def <> None ->
        Py.lookup constellation business_def <> None ->
        exists row, out = (inr row, sent'))
    /\ (known_pair constellation kpi = true
        <-> Py.lookup kpi category_def <> None
            /\ Py.lookup constellation business_def <> None).
Proof.
  intros apriori_get constellation kpi mode date result station satellite
    sent sent' [[batch svn] slot] Hf out.
  subst out. unfold get_grc_csv_row, bind, Py.getitem, ret, raise. rewrite Hf.
  unfold known_pair.
  destruct (Py.lookup kpi category_def) as [category|] eqn:Hc.
  - destruct (kpi_tables_agree kpi category Hc)
      as ((target & Ht) & (unit_ & Hu) & Hbusiness).
    destruct (Py.lookup constellation business_def) as [by_kpi|] eqn:Hb.
    + destruct (Hbusiness constellation by_kpi Hb) as (business & Hy).
      rewrite Hy, Ht, Hu.
      repeat split; try discriminate; try congruence; eauto.
    + repeat split; try discriminate; try congruence.
      intros [_ H]. now elim H.
  - repeat split; try discriminate; try congruence.
    intros [H _]. now elim H.
Qed.

(** Without a satellite: an unknown KPI is named even with an unknown
    constellation, an unknown constellation is named with a known KPI. *)
Lemma key_error_names_the_missing_key_witness :
  get_grc_csv_row (example_apriori "E210") "Glonass" "xyz" "e1" "July-2021"
    one "" "" []
  = (inl (KeyError "xyz"), [])
  /\ get_grc_csv_row (example_apriori "E210") "Glonass" "hpe" "e1" "July-2021"
       one "" "" []
     = (inl (KeyError "Glonass"), []).
Proof.
  destruct (key_error_names_the_missing_key (example_apriori "E210")
              "Glonass" "xyz" "e1" "July-2021" one "" "" [] [] ("", "", "")
              eq_refl) as (Hkpi & _).
  destruct (key_error_names_the_missing_key (example_apriori "E210")
              "Glonass" "hpe" "e1" "July-2021" one "" "" [] [] ("", "", "")
              eq_refl) as (_ & Hconstellation & _).
  split.
  - exact (Hkpi eq_refl).
  - apply Hconstellation; [discriminate | reflexivity].
Defined.

(** ** The dates that are parsed *)

Lemma length_append (s t : string) :
  String.length (s ++ t) = String.length s + String.length t.
Proof. induction s as [|c s IH]; cbn; [reflexivity | now rewrite IH]. Qed.

(** [%d] takes one or two characters. *)
Lemma match_day_left (s left : string) (d : Z) :
  match_day s = Some (d, left) -> String.length s <= String.length left + 2.
Proof.
  unfold match_day. destruct s as [|c1 [|c2 rest]]; [discriminate| |].
  - destruct (_ && _); [|discriminate]. intros [= _ <-]. cbn. lia.
  - repeat match goal with
      | |- (if ?b then _ else _) = _ -> _ => destruct b
      end; try discriminate; intros [= _ <-]; cbn; lia.
Qed.

Lemma first_of_month_exists (y m : Z) : (1 <=? days_in_month y m)%Z = true.
Proof.
  unfold days_in_month.
  repeat match goal with |- context [if ?b then _ else _] => destruct b end;
    reflexivity.
Qed.

Lemma strptime_raises_ValueError (text : string) (e : exn) :
  strptime_y_b_d text = inl e -> exists msg, e = ValueError msg.
Proof.
  unfold strptime_y_b_d, no_match.
  repeat match goal with
    | |- match ?x with _ => _ end = _ -> _ => destruct x
    | |- (if ?b then _ else _) = _ -> _ => destruct b
    | |- (let (_, _) := ?x in _) = _ -> _ => destruct x
    end; try discriminate; intros [= <-]; eauto.
Qed.

(** The text [date ++ "-01"] is parsed exactly for the dates of
    [year_month]. *)
Lemma strptime_of_date (date : string) :
  match year_month date with
  | Some used_date => strptime_y_b_d (date ++ "-01") = inr used_date
  | None => exists e, strptime_y_b_d (date ++ "-01") = inl e
  end.
Proof.
  destruct date as [|y1 [|y2 [|sep [|b1 [|b2 [|b3 [|c7 rest]]]]]]];
    try (cbn [year_month]; eexists; reflexivity).
  - cbn [year_month]. destruct sep as [[] [] [] [] [] [] [] []];
      eexists; reflexivity.
  - cbn [year_month]. destruct sep as [[] [] [] [] [] [] [] []];
      eexists; reflexivity.
  - cbn [year_month]. destruct sep as [[] [] [] [] [] [] [] []];
      eexists; reflexivity.
  - unfold year_month.
    destruct sep as [[] [] [] [] [] [] [] []];
      try (rewrite andb_false_r; eexists; reflexivity).
    rewrite andb_true_r.
    change (strptime_y_b_d
              (String y1 (String y2 (String "-"
                 (String b1 (String b2 (String b3 ""))))) ++ "-01"))
      with (if is_digit y1 && is_digit y2 then
              match Py.lookup (Py.lower (String b1 (String b2 (String b3 ""))))
                      month_abbr with
              | Some m =>
                  let yy := (10 * digit_val y1 + digit_val y2)%Z in
                  let y := (if yy <=? 68 then 2000 + yy else 1900 + yy)%Z in
                  if (1 <=? days_in_month y m)%Z
                  then inr {| year := y; month := m; day := 1 |}
                  else inl (ValueError "day is out of range for month")
              | None =>
                  inl (no_match
                         (String y1 (String y2 (String "-"
                            (String b1 (String b2 (String b3 ""))))) ++ "-01"))
              end
            else inl (no_match
                        (String y1 (String y2 (String "-"
                           (String b1 (String b2 (String b3 ""))))) ++ "-01"))).
    destruct (is_digit y1 && is_digit y2); [|eexists; reflexivity].
    destruct (Py.lookup _ month_abbr) as [m|]; [|eexists; reflexivity].
    cbv zeta. now rewrite first_of_month_exists.
  - cbn [year_month].
    destruct (strptime_y_b_d
                (String y1 (String y2 (String sep (String b1 (String b2
                   (String b3 (String c7 rest)))))) ++ "-01"))
      as [e|used_date] eqn:H; [eauto|exfalso].
    revert H. cbn [String.append]. unfold strptime_y_b_d.
    destruct sep as [[] [] [] [] [] [] [] []]; try discriminate.
    destruct c7 as [[] [] [] [] [] [] [] []]; try discriminate.
    destruct (is_digit y1 && is_digit y2); [|discriminate].
    destruct (Py.lookup _ month_abbr) as [m|]; [|discriminate].
    destruct (match_day (rest ++ "-01")) as [[d left]|] eqn:Hday; [|discriminate].
    apply match_day_left in Hday. rewrite length_append in Hday.
    destruct left as [|c left]; [|discriminate].
    cbn in Hday. lia.
Qed.

(** The tables are read without a query. *)
Lemma queries_of_the_row (apriori_get : string -> exn + AntennaCorrection)
    (constellation kpi mode date : string) (result : Float.float)
    (station satellite : string) (sent : Queries) :
  snd (get_grc_csv_row apriori_get constellation kpi mode date result
         station satellite sent)
  = snd (satellite_fields apriori_get date satellite sent).
Proof.
  unfold get_grc_csv_row, bind, Py.getitem, ret, raise.
  destruct (satellite_fields apriori_get date satellite sent)
    as [[e|[[batch svn] slot]] s1]; [reflexivity|].
  destruct (Py.lookup kpi category_def); [|reflexivity].
  destruct (Py.lookup constellation business_def) as [by_kpi|]; [|reflexivity].
  destruct (Py.lookup kpi by_kpi); [|reflexivity].
  destruct (Py.lookup kpi target_def); [|reflexivity].
  destruct (Py.lookup kpi unit_def); reflexivity.
Qed.

(** X5: the dates [get_grc_csv_row] works with when it is given a
    satellite are those made of two digits, a hyphen and the
    abbreviated name of a month, such as ["21-Jul"].  With such a date
    the collaborator is asked once, for the satellite on the first day
    of that month, the year being 2000 + yy up to 68 and 1900 + yy
    from 69 on; with any other date the call raises [ValueError] and the
    collaborator is not asked.  The dates are strings of 8-bit
    characters, of which [\d] matches the ten ASCII digits alone. *)
Theorem collaborator_is_asked_for_year_month_dates :
  forall (apriori_get : string -> exn + AntennaCorrection)
         (atx : AntennaCorrection)
         (constellation kpi mode date : string) (result : Float.float)
         (station satellite : string) (sent : Queries),
    Py.truthy satellite = true ->
    apriori_get "gnss_antenna_correction" = inr atx ->
    let out := get_grc_csv_row apriori_get constellation kpi mode date result
                 station satellite sent in
    match year_month date with
    | Some used_date =>
        snd out = sent ++ [(satellite, used_date)]
        /\ day used_date = 1%Z
        /\ (1969 <= year used_date <= 2068)%Z
        /\ (1 <= month used_date <= 12)%Z
    | None => exists msg, out = (inl (ValueError msg), sent)
    end.
Proof.
  intros apriori_get atx constellation kpi mode date result station satellite
    sent Hs Ha out.
  pose proof (strptime_of_date date) as Hdate.
  destruct (year_month date) as [used_date|] eqn:Hym.
  - split.
    + subst out. rewrite queries_of_the_row.
      unfold satellite_fields, bind, lift, call_get_satellite_info, ret.
      rewrite Hs, Ha, Hdate.
      now destruct (get_satellite_info atx satellite used_date).
    + clear Hdate. subst out. revert Hym. unfold year_month.
      destruct date as [|y1 [|y2 [|sep [|b1 [|b2 [|b3 [|c7 rest]]]]]]];
        try discriminate.
      destruct (is_digit y1 && is_digit y2 && Ascii.eqb sep "-") eqn:Hd;
        [|discriminate].
      destruct (Py.lookup _ month_abbr) as [m|] eqn:Hm; [|discriminate].
      cbv zeta.
      remember (10 * digit_val y1 + digit_val y2)%Z as yy eqn:Hyy.
      remember (if (yy <=? 68)%Z then (2000 + yy)%Z else (1900 + yy)%Z)
        as y eqn:Hyear.
      intros [= <-]. cbn [day year month].
      apply andb_prop in Hd as [Hd _]. apply andb_prop in Hd as [H1 H2].
      unfold is_digit in H1, H2. unfold digit_val in Hyy.
      apply andb_prop in H1 as [H1 H1']. apply andb_prop in H2 as [H2 H2'].
      apply Nat.leb_le in H1, H1', H2, H2'.
      split; [reflexivity|]. split.
      * destruct (yy <=? 68)%Z eqn:Hy;
          [apply Z.leb_le in Hy | apply Z.leb_gt in Hy]; lia.
      * clear - Hm. unfold month_abbr in Hm. cbn [Py.lookup] in Hm.
        repeat match type of Hm with
          | (if ?b then _ else _) = _ => destruct b; [injection Hm as <-; lia|]
          end. discriminate.
  - destruct Hdate as [e He].
    destruct (strptime_raises_ValueError _ _ He) as [msg ->].
    exists msg. apply row_stage_error.
    now apply satellite_fields_date_error with (atx := atx).
Qed.

(** The date ["99-dec"] stands for December 1999; ["Dec-1999"] and
    ["1999-12"] are not parsed. *)
Lemma collaborator_is_asked_for_year_month_dates_witness :
  snd (get_grc_csv_row (fun _ => inr unknown_satellite) "GPS" "sisre_sat" "l1"
         "99-dec" one "" "G05" [])
  = [("G05", {| year := 1999; month := 12; day := 1 |})]
  /\ (exists msg,
        get_grc_csv_row (fun _ => inr unknown_satellite) "GPS" "sisre_sat" "l1"
          "Dec-1999" one "" "G05" [] = (inl (ValueError msg), []))
  /\ (exists msg,
        get_grc_csv_row (fun _ => inr unknown_satellite) "GPS" "sisre_sat" "l1"
          "1999-12" one "" "G05" [] = (inl (ValueError msg), [])).
Proof.
  split; [|split].
  - exact (proj1 (collaborator_is_asked_for_year_month_dates
                    (fun _ => inr unknown_satellite) unknown_satellite
                    "GPS" "sisre_sat" "l1" "99-dec" one "" "G05" []
                    eq_refl eq_refl)).
  - exact (collaborator_is_asked_for_year_month_dates
             (fun _ => inr unknown_satellite) unknown_satellite
             "GPS" "sisre_sat" "l1" "Dec-1999" one "" "G05" [] eq_refl eq_refl).
  - exact (collaborator_is_asked_for_year_month_dates
             (fun _ => inr unknown_satellite) unknown_satellite
             "GPS" "sisre_sat" "l1" "1999-12" one "" "G05" [] eq_refl eq_refl).
Defined.

End RowFacts.

(** * Properties of the plots *)

Module PlotFacts.
Import GnssPlot PlotNotions.

(** ** The monad *)

Lemma bind_returns {St A B} (m : M St A) (f : A -> M St B) (s s' : St) (b : B) :
  bind m f s = (inr b, s') ->
  exists a s1, m s = (inr a, s1) /\ f a s1 = (inr b, s').
Proof.
  unfold bind. destruct (m s) as [[e|a] s1]; [discriminate|]. eauto.
Qed.

(** ** What a computation does to the dataset *)

Section Moves.

Variable R : Dataset -> Dataset -> Prop.
Hypothesis R_refl : forall d, R d d.
Hypothesis R_trans : forall d1 d2 d3, R d1 d2 -> R d2 d3 -> R d1 d3.

Lemma moves_ret {A} (a : A) : moves R (ret a).
Proof. intros st. apply R_refl. Qed.

Lemma moves_raise {A} (e : exn) : moves R (@raise State A e).
Proof. intros st. apply R_refl. Qed.

Lemma moves_lift {A} (r : exn + A) : moves R (lift r).
Proof. intros st. apply R_refl. Qed.

Lemma moves_getitem {V} (d : list (string * V)) (k : string) :
  moves R (@Py.getitem State V d k).
Proof. intros st. unfold Py.getitem. destruct (Py.lookup k d); apply R_refl. Qed.

Lemma moves_get_dset : moves R get_dset.
Proof. intros st. apply R_refl. Qed.

Lemma moves_log_debug (msg : string) : moves R (log_debug msg).
Proof. intros st. apply R_refl. Qed.

Lemma moves_log_warn (msg : string) : moves R (log_warn msg).
Proof. intros st. apply R_refl. Qed.

Lemma moves_plot (call : PlotCall) : moves R (plot call).
Proof. intros st. apply R_refl. Qed.

Lemma moves_bind {A B} (m : M State A) (f : A -> M State B) :
  moves R m -> (forall a, moves R (f a)) -> moves R (bind m f).
Proof.
  intros Hm Hf st. unfold bind.
  specialize (Hm st). destruct (m st) as [[e|a] s1]; cbn in *; [exact Hm|].
  eapply R_trans; [exact Hm | apply Hf].
Qed.

Lemma moves_for_fold {A B} (body : B -> A -> M State B) (xs : list A) :
  (forall acc x, moves R (body acc x)) ->
  forall acc, moves R (for_fold xs acc body).
Proof.
  intros Hbody. induction xs as [|x xs IH]; intros acc; cbn [for_fold].
  - apply moves_ret.
  - apply moves_bind; [apply Hbody | exact IH].
Qed.

End Moves.

(** One step of the search for the effect on the dataset: the structure
    of the computation is followed down to its primitive steps. *)
Ltac moves_step refl trans :=
  first
    [ apply (moves_ret _ refl)
    | apply (moves_raise _ refl)
    | apply (moves_lift _ refl)
    | apply (moves_getitem _ refl)
    | apply (moves_get_dset _ refl)
    | apply (moves_log_debug _ refl)
    | apply (moves_log_warn _ refl)
    | apply (moves_plot _ refl)
    | apply (moves_bind _ trans); [ | intros ? ]
    | apply (moves_for_fold _ refl trans); intros ? ?
    | match goal with
      | |- moves _ (if ?b then _ else _) => destruct b
      | |- moves _ (match ?x with _ => _ end) => destruct x
      end
    | progress cbv zeta ].

Ltac keeps := repeat moves_step (@eq_refl Dataset) (@eq_trans Dataset).

(** ** Methods that only read the dataset *)

Section ReadOnly.

Variable figure_dir : string.
Variable gnss_id_to_name : list (string * EnumMember).
Variable get_number_of_satellites :
  list string -> list string -> list datetime -> list Float.float.
Variable config_files_path : string -> list (string * string) -> string.
Variable path_exists : string -> bool.
Variable dataset_read : list (string * string) -> exn + Dataset.

Lemma satellite_series_keeps (sys : string) (x : Dataset -> list cell)
    (y : Dataset -> exn + list cell) :
  moves eq (satellite_series sys x y).
Proof. unfold satellite_series. keeps. Qed.

Lemma plot_dop_keeps (figure_name : string) :
  moves eq (plot_dop figure_dir figure_name).
Proof. unfold plot_dop. keeps. Qed.

Lemma plot_epoch_by_epoch_difference_keeps (figure_name : string) :
  moves eq (plot_epoch_by_epoch_difference figure_dir figure_name).
Proof.
  unfold plot_epoch_by_epoch_difference, plot_epoch_by_epoch_difference_system.
  keeps; apply satellite_series_keeps.
Qed.

Lemma plot_field_keeps (field : string) (collection : option string)
    (figure_name : string) :
  moves eq (plot_field figure_dir field collection figure_name).
Proof.
  unfold plot_field, plot_field_system.
  keeps; apply satellite_series_keeps.
Qed.

Lemma plot_linear_combinations_keeps (figure_name : string) :
  moves eq (plot_linear_combinations figure_dir figure_name).
Proof.
  unfold plot_linear_combinations, plot_linear_combinations_system.
  keeps; apply satellite_series_keeps.
Qed.

Lemma plot_number_of_satellites_keeps (figure_name : string) :
  moves eq (plot_number_of_satellites figure_dir gnss_id_to_name
              get_number_of_satellites figure_name).
Proof. unfold plot_number_of_satellites. keeps. Qed.

Lemma _sort_by_satellite_keeps (dset_arg : option StageData) :
  moves eq (_sort_by_satellite dset_arg).
Proof. unfold _sort_by_satellite. keeps. Qed.

Lemma plot_satellite_availability_keeps (figure_name : string) :
  moves eq (plot_satellite_availability figure_dir gnss_id_to_name figure_name).
Proof.
  unfold plot_satellite_availability.
  keeps; apply _sort_by_satellite_keeps.
Qed.

Lemma _get_day_limits_keeps : moves eq _get_day_limits.
Proof. unfold _get_day_limits. keeps. Qed.

Lemma plot_satellite_elevation_keeps (figure_name : string) :
  moves eq (plot_satellite_elevation figure_dir gnss_id_to_name figure_name).
Proof.
  unfold plot_satellite_elevation, plot_satellite_elevation_system.
  keeps; first [apply satellite_series_keeps | apply _get_day_limits_keeps].
Qed.

Lemma _get_dataset_keeps (stage : string) (systems : option (list string)) :
  moves eq (_get_dataset dataset_read stage systems).
Proof. unfold _get_dataset. keeps. Qed.

Lemma plot_satellite_overview_keeps (figure_name : string) :
  moves eq (plot_satellite_overview figure_dir config_files_path path_exists
              dataset_read figure_name).
Proof.
  unfold plot_satellite_overview.
  keeps; first [ apply _get_day_limits_keeps | apply _get_dataset_keeps
               | apply _sort_by_satellite_keeps ].
Qed.

End ReadOnly.

(** ** Sorting *)

Section Sorting.

Context {A : Type}.
Variable le : A -> A -> bool.
Hypothesis le_total : forall x y, le x y = true \/ le y x = true.

Lemma insert_by_In (x y : A) (l : list A) :
  In y (Py.insert_by le x l) <-> y = x \/ In y l.
Proof.
  induction l as [|z l IH]; cbn.
  - intuition.
  - destruct (le x z); cbn; [intuition | rewrite IH; intuition].
Qed.

Lemma sort_by_In (y : A) (l : list A) : In y (Py.sort_by le l) <-> In y l.
Proof.
  unfold Py.sort_by. induction l as [|x l IH]; cbn; [tauto|].
  rewrite insert_by_In, IH. intuition.
Qed.

Lemma insert_by_length (x : A) (l : list A) :
  List.length (Py.insert_by le x l) = S (List.length l).
Proof.
  induction l as [|z l IH]; cbn; [reflexivity|].
  destruct (le x z); cbn; [reflexivity | now rewrite IH].
Qed.

Lemma insert_by_sorted (x : A) (l : list A) :
  Sorted (le_prop le) l -> Sorted (le_prop le) (Py.insert_by le x l).
Proof.
  induction 1 as [|z l Hs IH Hd]; cbn.
  - repeat constructor.
  - destruct (le x z) eqn:Hxz.
    + repeat constructor; assumption.
    + constructor; [exact IH|].
      assert (Hzx : le_prop le z x)
        by (destruct (le_total x z) as [H|H]; [congruence | exact H]).
      destruct Hd as [|w l Hw]; cbn; [now constructor|].
      destruct (le x w); now constructor.
Qed.

Lemma sort_by_sorted (l : list A) : Sorted (le_prop le) (Py.sort_by le l).
Proof.
  unfold Py.sort_by. induction l as [|x l IH]; cbn.
  - constructor.
  - now apply insert_by_sorted.
Qed.

Lemma sort_by_of_sorted (l : list A) :
  Sorted (le_prop le) l -> Py.sort_by le l = l.
Proof.
  unfold Py.sort_by. induction 1 as [|x l Hs IH Hd]; cbn; [reflexivity|].
  rewrite IH. destruct Hd as [|y l Hxy]; cbn; [reflexivity|].
  unfold le_prop in Hxy. now rewrite Hxy.
Qed.

Lemma sort_by_idempotent (l : list A) :
  Py.sort_by le (Py.sort_by le l) = Py.sort_by le l.
Proof. apply sort_by_of_sorted, sort_by_sorted. Qed.

Lemma sorted_filter (keep : A -> bool) (l : list A) :
  StronglySorted (le_prop le) l -> StronglySorted (le_prop le) (filter keep l).
Proof.
  induction 1 as [|x l Hs IH Hall]; cbn; [constructor|].
  destruct (keep x); [|exact IH].
  constructor; [exact IH|].
  rewrite Forall_forall in *. intros y Hy.
  apply filter_In in Hy. now apply Hall.
Qed.

End Sorting.

Lemma compare_as_OT (a b : string) :
  String.compare a b = String_as_OT.compare a b.
Proof.
  reflexivity.
Qed.

Lemma leb_iff (a b : string) :
  String.leb a b = true <-> a = b \/ String_as_OT.lt a b.
Proof.
  unfold String.leb. rewrite compare_as_OT.
  destruct (String_as_OT.compare_spec a b) as [H|H|H]; split; auto;
    try discriminate.
  intros [->|Hlt].
  - exfalso. eapply (StrictOrder_Irreflexive (R := String_as_OT.lt)); eauto.
  - exfalso. eapply (StrictOrder_Irreflexive (R := String_as_OT.lt)).
    eapply (StrictOrder_Transitive (R := String_as_OT.lt)); eauto.
Qed.

Lemma leb_trans (a b c : string) :
  String.leb a b = true -> String.leb b c = true -> String.leb a c = true.
Proof.
  rewrite !leb_iff. intros [->|Hab] [->|Hbc]; auto.
  right. eapply (StrictOrder_Transitive (R := String_as_OT.lt)); eauto.
Qed.

Lemma sorted_ascending (l : list string) : ascending (Py.sorted l).
Proof.
  apply Sorted_StronglySorted.
  - intros a b c. apply leb_trans.
  - apply (sort_by_sorted String.leb), String.leb_total.
Qed.

Lemma sorted_reverse_descending (l : list string) :
  descending (Py.sorted_reverse l).
Proof.
  apply Sorted_StronglySorted.
  - intros a b c Hab Hbc. eapply leb_trans; eauto.
  - apply (sort_by_sorted (fun x y => String.leb y x)).
    intros x y. destruct (String.leb_total x y); auto.
Qed.

Lemma sort_key_idempotent (key : string -> string) (l : list string) :
  Py.sort_key key (Py.sort_key key l) = Py.sort_key key l.
Proof.
  apply sort_by_idempotent. intros x y. apply String.leb_total.
Qed.

(** ** Methods that change the dataset *)

Lemma after_bind {A B} (m : M State A) (f : A -> M State B) :
  (forall a, moves eq (f a)) ->
  forall st, dset (snd (bind m f st)) = dset (snd (m st)).
Proof.
  intros Hf st. unfold bind.
  destruct (m st) as [[e|a] s1]; cbn; [reflexivity|].
  symmetry. apply Hf.
Qed.

Lemma lists_sorted_in_place_refl (m : list (string * list string)) :
  lists_sorted_in_place m m.
Proof. induction m; constructor; auto. Qed.

Lemma lists_sorted_in_place_trans (m1 m2 m3 : list (string * list string)) :
  lists_sorted_in_place m1 m2 -> lists_sorted_in_place m2 m3 ->
  lists_sorted_in_place m1 m3.
Proof.
  intros H12. revert m3.
  induction H12 as [|kv1 kv2 m1 m2 [Hk Hv] _ IH]; intros m3 H23;
    inversion H23 as [|? kv3 ? m3' [Hk' Hv'] H23']; subst; constructor.
  - split; [congruence|].
    destruct Hv as [Hv|Hv], Hv' as [Hv'|Hv']; rewrite Hv', Hv; auto.
    right. apply sort_key_idempotent.
  - now apply IH.
Qed.

Lemma only_obstypes_sorted_refl (d : Dataset) : only_obstypes_sorted d d.
Proof.
  exists (meta_obstypes d). split; [now destruct d|].
  apply lists_sorted_in_place_refl.
Qed.

Lemma only_obstypes_sorted_trans (d1 d2 d3 : Dataset) :
  only_obstypes_sorted d1 d2 -> only_obstypes_sorted d2 d3 ->
  only_obstypes_sorted d1 d3.
Proof.
  intros (m2 & -> & H12) (m3 & -> & H23). exists m3. split; [reflexivity|].
  eapply lists_sorted_in_place_trans; eauto.
Qed.

Lemma setitem_sorted_in_place (m : list (string * list string))
    (sys : string) (items : list string) :
  Py.lookup sys m = Some items ->
  lists_sorted_in_place m (Py.setitem m sys (Py.sort_key Py.slice_m2_3 items)).
Proof.
  induction m as [|[k v] m IH]; cbn; [discriminate|].
  destruct (String.eqb sys k).
  - intros [= ->]. constructor; [cbn; auto | apply lists_sorted_in_place_refl].
  - intros H. constructor; [cbn; auto | now apply IH].
Qed.

Lemma _sort_string_array_moves (sys : string) :
  moves only_obstypes_sorted (_sort_string_array (Obstypes sys)).
Proof.
  intros st. unfold _sort_string_array, deref, assign, bind, get_dset,
    Py.getitem, modify, ret, raise.
  destruct (Py.lookup sys (meta_obstypes (dset st))) as [items|] eqn:Hl; cbn.
  - eexists. split; [reflexivity|]. now apply setitem_sorted_in_place.
  - apply only_obstypes_sorted_refl.
Qed.

Ltac sorts :=
  repeat first
    [ apply _sort_string_array_moves
    | moves_step only_obstypes_sorted_refl only_obstypes_sorted_trans ].

Section Changing.

Variable figure_dir : string.
Variable gnss_id_to_name : list (string * EnumMember).
Variable get_number_of_satellites :
  list string -> list string -> list datetime -> list Float.float.
Variable azimuth_shared : bool.

Lemma plot_number_of_satellites_used_dset (figure_name : string) (st : State) :
  dset (snd (plot_number_of_satellites_used figure_dir get_number_of_satellites
               figure_name st))
  = used_column_added get_number_of_satellites (dset st).
Proof.
  unfold plot_number_of_satellites_used, used_column_added. cbv zeta.
  unfold bind at 1. cbn [log_debug modify].
  unfold bind at 1. cbn [get_dset dset].
  rewrite after_bind by (intros; keeps).
  now destruct (existsb _ _).
Qed.

Lemma plot_skyplot_dset (figure_name : string) (st : State) :
  dset (snd (plot_skyplot figure_dir gnss_id_to_name azimuth_shared
               figure_name st))
  = skyplot_dataset azimuth_shared (dset st).
Proof.
  unfold plot_skyplot, skyplot_dataset, azimuth_wrapped. cbv zeta.
  unfold bind at 1. cbn [get_dset].
  rewrite after_bind.
  - now destruct azimuth_shared.
  - intros _. keeps; apply satellite_series_keeps.
Qed.

Lemma plot_obstype_availability_moves (figure_name : string) :
  moves only_obstypes_sorted (plot_obstype_availability figure_dir figure_name).
Proof.
  unfold plot_obstype_availability, plot_obstype_availability_system,
    plot_obstype_availability_satellite, plot_obstype_availability_obstype.
  sorts.
Qed.

End Changing.

(** ** Worked datasets *)

(** C10, the claim as stated fails: [plot_obstype_availability] sorts
    the list of observation types of the system G inside the metadata
    of the dataset, from C2W, C1C to C1C, C2W. *)
Lemma plot_obstype_availability_reorders_obstypes :
  let run := plot_obstype_availability "figures"
               "plot_obstype_availability_{system}.{FIGURE_FORMAT}"
               (start one_observation) in
  fst run = inr ["figures/plot_obstype_availability_G.png"]
  /\ meta_obstypes (dset (start one_observation)) = [("G", ["C2W"; "C1C"])]
  /\ meta_obstypes (dset (snd run)) = [("G", ["C1C"; "C2W"])]
  /\ dset (snd run) <> dset (start one_observation).
Proof.
  cbv zeta. repeat split; try (vm_compute; reflexivity).
  intros H. apply (f_equal meta_obstypes) in H. vm_compute in H. discriminate.
Qed.

(** When [dset.site_pos.azimuth] is the array of the dataset,
    [plot_skyplot] leaves the azimuth -1 as -1 + 2 pi in the dataset. *)
Example plot_skyplot_rewrites_shared_azimuth :
  azimuth (site_pos (dset (snd
    (plot_skyplot "figures" [("G", {| value_ := "GPS"; shown := "GPS" |})] true
       "plot_skyplot_{system}.{FIGURE_FORMAT}" (start one_observation)))))
  = [Float.add two_pi (Float.of_Z (-1))].
Proof. vm_compute. reflexivity. Qed.

(** C10, amended: [plot_number_of_satellites_used] adds the column
    [num_satellite_used] when it is absent and changes nothing when it
    is present; [plot_obstype_availability] may sort, in place, the list
    of observation types of a system in the metadata of the dataset and
    changes nothing else; [plot_skyplot] adds [2 * pi] to the negative
    entries of the array that [dset.site_pos.azimuth] hands out, which
    changes the dataset when that array is the one the dataset holds;
    every other plot method leaves the dataset as it is, whether it
    returns or raises.  [get_grc_csv_row] is given no dataset. *)
Theorem dataset_effects_of_the_plots :
  forall (figure_dir : string)
         (gnss_id_to_name : list (string * EnumMember))
         (get_number_of_satellites :
            list string -> list string -> list datetime -> list Float.float)
         (config_files_path : string -> list (string * string) -> string)
         (path_exists : string -> bool)
         (dataset_read : list (string * string) -> exn + Dataset)
         (azimuth_shared : bool)
         (figure_name : string) (st : State),
    dset (snd (plot_dop figure_dir figure_name st)) = dset st
    /\ dset (snd (plot_epoch_by_epoch_difference figure_dir figure_name st))
       = dset st
    /\ (forall field collection,
          dset (snd (plot_field figure_dir field collection figure_name st))
          = dset st)
    /\ dset (snd (plot_linear_combinations figure_dir figure_name st)) = dset st
    /\ dset (snd (plot_number_of_satellites figure_dir gnss_id_to_name
                    get_number_of_satellites figure_name st)) = dset st
    /\ dset (snd (plot_satellite_availability figure_dir gnss_id_to_name
                    figure_name st)) = dset st
    /\ dset (snd (plot_satellite_elevation figure_dir gnss_id_to_name
                    figure_name st)) = dset st
    /\ dset (snd (plot_satellite_overview figure_dir config_files_path
                    path_exists dataset_read figure_name st)) = dset st
    /\ dset (snd (plot_number_of_satellites_used figure_dir
                    get_number_of_satellites figure_name st))
       = used_column_added get_number_of_satellites (dset st)
    /\ dset (snd (plot_skyplot figure_dir gnss_id_to_name azimuth_shared
                    figure_name st))
       = skyplot_dataset azimuth_shared (dset st)
    /\ only_obstypes_sorted (dset st)
         (dset (snd (plot_obstype_availability figure_dir figure_name st))).
Proof.
  intros. repeat split.
  - symmetry. apply plot_dop_keeps.
  - symmetry. apply plot_epoch_by_epoch_difference_keeps.
  - intros. symmetry. apply plot_field_keeps.
  - symmetry. apply plot_linear_combinations_keeps.
  - symmetry. apply plot_number_of_satellites_keeps.
  - symmetry. apply plot_satellite_availability_keeps.
  - symmetry. apply plot_satellite_elevation_keeps.
  - symmetry. apply plot_satellite_overview_keeps.
  - apply plot_number_of_satellites_used_dset.
  - apply plot_skyplot_dset.
  - apply plot_obstype_availability_moves.
Qed.

(** ** [_sort_by_satellite] and [plot_satellite_overview] *)

Lemma _sort_by_satellite_ignores_argument (dset_arg : option StageData)
    (st : State) :
  _sort_by_satellite dset_arg st = _sort_by_satellite None st.
Proof. reflexivity. Qed.

Lemma _sort_by_satellite_loop (sats : list string) (st : State)
    (ts : list datetime) (ss ys : list string) :
  for_fold sats (ts, ss, ys)
    (fun acc sat =>
       bind get_dset (fun self_dset =>
         let idx := mask_eq (satellite self_dset) sat in
         ret (fst (fst acc) ++ Py.take_mask idx (time_gps_datetime self_dset),
              snd (fst acc) ++ Py.take_mask idx (satellite self_dset),
              snd acc ++ Py.take_mask idx (system self_dset)))) st
  = (inr (ts ++ flat_map (fun sat => Py.take_mask (mask_eq (satellite (dset st)) sat)
                                       (time_gps_datetime (dset st))) sats,
          ss ++ flat_map (fun sat => Py.take_mask (mask_eq (satellite (dset st)) sat)
                                       (satellite (dset st))) sats,
          ys ++ flat_map (fun sat => Py.take_mask (mask_eq (satellite (dset st)) sat)
                                       (system (dset st))) sats),
     st).
Proof.
  revert ts ss ys.
  induction sats as [|sat sats IH]; intros ts ss ys; cbn [for_fold flat_map].
  - unfold ret. now rewrite !app_nil_r.
  - unfold bind at 1. unfold bind at 1. cbn [get_dset]. cbv zeta.
    unfold ret at 1. cbn [fst snd].
    rewrite IH. now rewrite <- !app_assoc.
Qed.

Lemma _sort_by_satellite_returns (dset_arg : option StageData) (st : State) :
  _sort_by_satellite dset_arg st = (inr (sort_by_satellite_of (dset st)), st).
Proof.
  unfold _sort_by_satellite, sort_by_satellite_of. cbv zeta.
  unfold bind at 1. cbn [get_dset].
  apply (_sort_by_satellite_loop _ st [] [] []).
Qed.

Section Overview.

Variable figure_dir : string.
Variable config_files_path : string -> list (string * string) -> string.
Variable path_exists : string -> bool.
Variable dataset_read : list (string * string) -> exn + Dataset.

Lemma _get_dataset_state (stage : string) (systems : option (list string))
    (st st1 : State) (r : exn + StageData) :
  _get_dataset dataset_read stage systems st = (r, st1) ->
  dset st1 = dset st /\ plots st1 = plots st.
Proof.
  unfold _get_dataset, bind, get_dset, log_warn, modify, ret, raise.
  destruct (dataset_read _) as [[]|d]; try destruct systems as [[|]|];
    intros [= <- <-]; auto.
Qed.

(** Whatever the datasets of the stages "read", "orbit" and "edit" hold,
    the three series of the figure are the sorted columns of the
    dataset of the object itself. *)
Lemma overview_plots_own_dataset (figure_name : string) (st st' : State)
    (p : string) :
  plot_satellite_overview figure_dir config_files_path path_exists
    dataset_read figure_name st = (inr (Some p), st') ->
  exists call,
    plots st' = plots st ++ [call]
    /\ x_arrays call
       = [ map Time (fst (fst (sort_by_satellite_of (dset st))));
           map Time (fst (fst (sort_by_satellite_of (dset st))));
           map Time (fst (fst (sort_by_satellite_of (dset st)))) ]
    /\ y_arrays call
       = [ map Text (snd (fst (sort_by_satellite_of (dset st))));
           map Text (snd (fst (sort_by_satellite_of (dset st))));
           map Text (snd (fst (sort_by_satellite_of (dset st)))) ].
Proof.
  unfold plot_satellite_overview. cbv zeta. intros H.
  apply bind_returns in H as (u & s1 & H1 & H).
  assert (Hs1 : dset s1 = dset st /\ plots s1 = plots st)
    by (injection H1 as _ <-; auto).
  clear H1. destruct Hs1 as [Hd1 Hp1].
  apply bind_returns in H as (limits & s2 & H2 & H).
  assert (s2 = s1) as ->.
  { revert H2. unfold _get_day_limits, bind, get_dset, raise, ret.
    destruct (time_datetime (dset s1)); [discriminate|]. now intros [= _ <-]. }
  clear H2.
  apply bind_returns in H as (d & s3 & H3 & H). injection H3 as <- <-.
  destruct (path_exists _).
  2:{ apply bind_returns in H as (? & ? & _ & H). discriminate. }
  apply bind_returns in H as (d0 & s4 & H4 & H). injection H4 as <- <-.
  apply bind_returns in H as (dset_read & s5 & H5 & H).
  apply _get_dataset_state in H5 as [Hd5 Hp5].
  apply bind_returns in H as (read & s6 & H6 & H).
  rewrite _sort_by_satellite_returns in H6. injection H6 as <- <-.
  apply bind_returns in H as (d1 & s7 & H7 & H). injection H7 as <- <-.
  apply bind_returns in H as (dset_orbit & s8 & H8 & H).
  apply _get_dataset_state in H8 as [Hd8 Hp8].
  apply bind_returns in H as (orbit & s9 & H9 & H).
  rewrite _sort_by_satellite_returns in H9. injection H9 as <- <-.
  apply bind_returns in H as (d2 & s10 & H10 & H). injection H10 as <- <-.
  apply bind_returns in H as (dset_edit & s11 & H11 & H).
  apply _get_dataset_state in H11 as [Hd11 Hp11].
  apply bind_returns in H as (edit & s12 & H12 & H).
  rewrite _sort_by_satellite_returns in H12. injection H12 as <- <-.
  apply bind_returns in H as (u' & s13 & H13 & H).
  injection H13 as _ H13. subst s13. injection H as _ <-.
  eexists. split; [|split]; cbn [plots x_arrays y_arrays].
  - rewrite Hp11, Hp8, Hp5, Hp1. reflexivity.
  - rewrite Hd11, Hd8, Hd5, Hd1. reflexivity.
  - rewrite Hd11, Hd8, Hd5, Hd1. reflexivity.
Qed.

End Overview.

(** C7, the claim as stated fails: with a dataset without observations
    and no file of the stage "read", [plot_satellite_overview] does not
    return [None]; it raises [ValueError], out of the [min] of
    [_get_day_limits], which runs before the file is looked for. *)
Lemma overview_raises_without_observations :
  let run := plot_satellite_overview "figures"
               (fun _ _ => "work/dataset-read.hdf5") (fun _ => false)
               (fun _ => inl (OSError "no such file"))
               "plot_satellite_overview.{FIGURE_FORMAT}" (start no_observation) in
  fst run = inl (ValueError "min() arg is an empty sequence")
  /\ fst run <> inr None.
Proof. cbv zeta. split; [reflexivity | discriminate]. Qed.

(** C7, amended: when the dataset has at least one observation and the
    file of the stage "read" does not exist, [plot_satellite_overview]
    returns [None] without raising; it hands no figure to the plotting
    collaborator, leaves the dataset as it is and logs the path of the
    figure and then one warning. *)
Theorem overview_skipped_without_read_dataset :
  forall (figure_dir : string)
         (config_files_path : string -> list (string * string) -> string)
         (path_exists : string -> bool)
         (dataset_read : list (string * string) -> exn + Dataset)
         (figure_name : string) (st : State) (t : datetime) (ts : list datetime),
    time_datetime (dset st) = t :: ts ->
    path_exists
      (config_files_path "dataset"
         (Py.setitem (Py.merge (vars (dset st)) (analysis (dset st)))
            "stage" "read")) = false ->
    let figure_path_ :=
      path_join figure_dir (Py.replace figure_name "{FIGURE_FORMAT}" FIGURE_FORMAT) in
    let file_path_ :=
      config_files_path "dataset"
        (Py.setitem (Py.merge (vars (dset st)) (analysis (dset st)))
           "stage" "read") in
    plot_satellite_overview figure_dir config_files_path path_exists
      dataset_read figure_name st
    = (inr None,
       {| dset := dset st;
          plots := plots st;
          logged :=
            logged st
            ++ [ (Debug, ("Plot " ++ figure_path_ ++ ".")%string);
                 (Warn, ("Read dataset does not exists: " ++ file_path_
                         ++ ". Plot " ++ figure_path_
                         ++ " can not be plotted.")%string) ] |}).
Proof.
  intros figure_dir config_files_path path_exists dataset_read figure_name
    st t ts Ht Hp figure_path_ file_path_.
  unfold plot_satellite_overview. cbv zeta.
  unfold bind at 1. cbn [log_debug modify].
  unfold bind at 1. unfold _get_day_limits at 1. unfold bind at 1.
  cbn [get_dset dset]. rewrite Ht. cbn [ret].
  unfold bind at 1. cbn [get_dset dset]. rewrite Hp.
  unfold bind, log_warn, modify, ret. cbn [dset plots logged].
  now rewrite <- app_assoc.
Qed.

Lemma overview_skipped_without_read_dataset_witness :
  plot_satellite_overview "figures" (fun _ _ => "work/dataset-read.hdf5")
    (fun _ => false) (fun _ => inl (OSError "no such file"))
    "plot_satellite_overview.{FIGURE_FORMAT}" (start one_observation)
  = (inr None,
     {| dset := one_observation;
        plots := [];
        logged :=
          [ (Debug, "Plot figures/plot_satellite_overview.png.");
            (Warn, "Read dataset does not exists: work/dataset-read.hdf5. Plot figures/plot_satellite_overview.png can not be plotted.") ] |}).
Proof.
  exact (overview_skipped_without_read_dataset "figures"
           (fun _ _ => "work/dataset-read.hdf5") (fun _ => false)
           (fun _ => inl (OSError "no such file"))
           "plot_satellite_overview.{FIGURE_FORMAT}" (start one_observation)
           100%Z [] eq_refl eq_refl).
Defined.

(** C8, the code at the failing input: the object holds one observation
    of G01 at time 100, the stages "read" and "orbit" one of G02 at
    time 7 and one of G03 at time 8.  The figure shows G01 at time 100
    three times, and neither G02 nor G03: [_sort_by_satellite] binds its
    argument to the local [dset] and then reads [self.dset]. *)
Theorem overview_shows_own_dataset_three_times :
  let run := plot_satellite_overview "figures"
               (fun _ _ => "work/dataset-read.hdf5") (fun _ => true)
               read_stages "plot_satellite_overview.{FIGURE_FORMAT}"
               (start one_observation) in
  fst run = inr (Some "figures/plot_satellite_overview.png")
  /\ map x_arrays (plots (snd run))
     = [ [ [Time 100%Z]; [Time 100%Z]; [Time 100%Z] ] ]
  /\ map y_arrays (plots (snd run))
     = [ [ [Text "G01"]; [Text "G01"]; [Text "G01"] ] ]
  /\ sort_by_satellite_of read_stage = ([7%Z], ["G02"], ["G"])
  /\ sort_by_satellite_of orbit_stage = ([8%Z], ["G03"], ["G"]).
Proof. cbv zeta. repeat split; vm_compute; reflexivity. Qed.

(** ** Enumerations *)

Lemma extends_refl (st : State) : extends st st [].
Proof. split; [reflexivity | now rewrite app_nil_r]. Qed.

Lemma extends_trans (st1 st2 st3 : State) (c1 c2 : list PlotCall) :
  extends st1 st2 c1 -> extends st2 st3 c2 -> extends st1 st3 (c1 ++ c2).
Proof.
  intros [Hd1 Hp1] [Hd2 Hp2]. split; [congruence|].
  now rewrite Hp2, Hp1, app_assoc.
Qed.

Lemma get_dset_inv (st st' : State) (d : Dataset) :
  get_dset st = (inr d, st') -> d = dset st /\ st' = st.
Proof. now intros [= <- <-]. Qed.

Lemma lift_inv {A} (r : exn + A) (st st' : State) (a : A) :
  lift r st = (inr a, st') -> r = inr a /\ st' = st.
Proof. now intros [= <- <-]. Qed.

Lemma getitem_inv {V} (m : list (string * V)) (k : string) (st st' : State) (v : V) :
  Py.getitem m k st = (inr v, st') -> Py.lookup k m = Some v /\ st' = st.
Proof.
  unfold Py.getitem. destruct (Py.lookup k m); [|discriminate].
  now intros [= <- <-].
Qed.

Lemma log_debug_inv (msg : string) (st st' : State) (u : unit) :
  log_debug msg st = (inr u, st') -> extends st st' [].
Proof. intros [= _ <-]. split; cbn; [reflexivity | now rewrite app_nil_r]. Qed.

Lemma plot_inv (call : PlotCall) (st st' : State) (u : unit) :
  plot call st = (inr u, st') -> extends st st' [call].
Proof. intros [= _ <-]. split; reflexivity. Qed.

Lemma satellite_series_loop (sys : string) (x : Dataset -> list cell)
    (y : Dataset -> exn + list cell) (sats : list string)
    (acc r : list (list cell) * list (list cell) * list string)
    (st st' : State) :
  for_fold sats acc
    (fun acc sat =>
       if negb (Py.startswith sat sys) then ret acc
       else
         bind get_dset (fun d =>
           let idx := mask_eq (satellite d) sat in
           bind (lift (y d)) (fun ys =>
             ret (fst (fst acc) ++ [Py.take_mask idx (x d)],
                  snd (fst acc) ++ [Py.take_mask idx ys],
                  snd acc ++ [sat])))) st = (inr r, st') ->
  st' = st
  /\ snd r = snd acc ++ filter (fun sat => Py.startswith sat sys) sats.
Proof.
  revert acc st.
  induction sats as [|sat sats IH]; intros acc st; cbn [for_fold filter].
  - intros [= <- <-]. now rewrite app_nil_r.
  - intros H. apply bind_returns in H as (acc1 & s1 & H1 & H).
    apply IH in H as [-> ->].
    destruct (Py.startswith sat sys); cbn [negb] in H1.
    + apply bind_returns in H1 as (d & s2 & [-> ->]%get_dset_inv & H1).
      cbv zeta in H1.
      apply bind_returns in H1 as (ys & s3 & [_ ->]%lift_inv & H1).
      injection H1 as <- <-. cbn [snd]. now rewrite <- app_assoc.
    + injection H1 as <- <-. auto.
Qed.

Lemma satellite_series_inv (sys : string) (x : Dataset -> list cell)
    (y : Dataset -> exn + list cell)
    (r : list (list cell) * list (list cell) * list string) (st st' : State) :
  satellite_series sys x y st = (inr r, st') ->
  st' = st /\ snd r = satellites_of (dset st) sys.
Proof.
  unfold satellite_series. intros H.
  apply bind_returns in H as (d & s1 & [-> ->]%get_dset_inv & H).
  now apply satellite_series_loop in H.
Qed.

Lemma satellite_series_total (sys : string) (x : Dataset -> list cell)
    (y : Dataset -> exn + list cell) (ys : list cell) (st : State) :
  y (dset st) = inr ys ->
  satellite_series sys x y st
  = (inr (map (fun sat => Py.take_mask (mask_eq (satellite (dset st)) sat)
                            (x (dset st))) (satellites_of (dset st) sys),
          map (fun sat => Py.take_mask (mask_eq (satellite (dset st)) sat) ys)
            (satellites_of (dset st) sys),
          satellites_of (dset st) sys),
     st).
Proof.
  intros Hy. unfold satellite_series, satellites_of.
  unfold bind at 1. cbn [get_dset].
  generalize (Py.sorted (Py.unique (satellite (dset st)))). intros sats.
  enough (Hloop : forall acc,
    for_fold sats acc
      (fun acc sat =>
         if negb (Py.startswith sat sys) then ret acc
         else
           bind get_dset (fun d =>
             let idx := mask_eq (satellite d) sat in
             bind (lift (y d)) (fun ys =>
               ret (fst (fst acc) ++ [Py.take_mask idx (x d)],
                    snd (fst acc) ++ [Py.take_mask idx ys],
                    snd acc ++ [sat])))) st
    = (inr (fst (fst acc)
            ++ map (fun sat => Py.take_mask (mask_eq (satellite (dset st)) sat)
                                 (x (dset st)))
                 (filter (fun sat => Py.startswith sat sys) sats),
            snd (fst acc)
            ++ map (fun sat => Py.take_mask (mask_eq (satellite (dset st)) sat) ys)
                 (filter (fun sat => Py.startswith sat sys) sats),
            snd acc ++ filter (fun sat => Py.startswith sat sys) sats),
       st)) by apply (Hloop ([], [], [])).
  induction sats as [|sat sats IH]; intros [[a1 a2] a3]; cbn [for_fold filter fst snd].
  - unfold ret. now rewrite !app_nil_r.
  - destruct (Py.startswith sat sys); cbn [negb map].
    + unfold bind at 1. unfold bind at 1. cbn [get_dset]. cbv zeta.
      unfold bind at 1. unfold lift at 1. rewrite Hy. unfold ret at 1.
      rewrite IH. cbn [fst snd]. now rewrite <- !app_assoc.
    + unfold bind at 1. unfold ret at 1. now rewrite IH.
Qed.

(** A loop whose passes add to the result and to the figures without
    touching the dataset; [expand x] lists what the pass for [x] is to
    show. *)
Section LoopReturns.

Context {X Y R : Type}.
Variable Inv : Dataset -> Prop.
Variable body : list R -> X -> M State (list R).
Variable expand : X -> list Y.
Variable item : Y -> R -> Prop.
Variable shown : Y -> PlotCall -> Prop.

Hypothesis body_returns :
  forall acc x st r st',
    Inv (dset st) ->
    body acc x st = (inr r, st') ->
    Inv (dset st')
    /\ exists new calls,
         r = acc ++ new
         /\ plots st' = plots st ++ calls
         /\ Forall2 item (expand x) new
         /\ Forall2 shown (expand x) calls.

Lemma loop_returns (xs : list X) :
  forall acc st r st',
    Inv (dset st) ->
    for_fold xs acc body st = (inr r, st') ->
    Inv (dset st')
    /\ exists new calls,
         r = acc ++ new
         /\ plots st' = plots st ++ calls
         /\ Forall2 item (flat_map expand xs) new
         /\ Forall2 shown (flat_map expand xs) calls.
Proof.
  induction xs as [|x xs IH]; intros acc st r st' Hd; cbn [for_fold flat_map].
  - intros [= <- <-]. split; [exact Hd|]. exists [], [].
    rewrite !app_nil_r. repeat split; auto.
  - intros H. apply bind_returns in H as (r1 & s1 & H1 & H).
    apply (body_returns _ _ _ _ _ Hd) in H1
      as (Hd1 & new1 & calls1 & -> & Hext1 & Hitem1 & Hshown1).
    apply (IH _ _ _ _ Hd1) in H
      as (Hd2 & new2 & calls2 & -> & Hext2 & Hitem2 & Hshown2).
    split; [exact Hd2|].
    exists (new1 ++ new2), (calls1 ++ calls2).
    split; [now rewrite app_assoc|].
    split; [now rewrite Hext2, Hext1, app_assoc|].
    split; now apply Forall2_app.
Qed.

End LoopReturns.

Lemma flat_map_singleton {X} (xs : list X) : flat_map (fun x => [x]) xs = xs.
Proof. induction xs as [|x xs IH]; cbn; [reflexivity | now rewrite IH]. Qed.

(** A loop whose passes each return, add what depends on the element
    alone and leave the dataset as it is. *)
Section LoopExact.

Context {X R : Type}.
Variable d : Dataset.
Variable body : list R -> X -> M State (list R).
Variable dom : X -> Prop.
Variable new : X -> list R.
Variable logs : X -> list (level * string).
Variable P : X -> list PlotCall -> Prop.

Hypothesis body_exact :
  forall x, dom x ->
    exists cs,
      P x cs
      /\ forall acc st,
           dset st = d ->
           body acc x st
           = (inr (acc ++ new x),
              {| dset := d; plots := plots st ++ cs;
                 logged := logged st ++ logs x |}).

Lemma loop_exact (xs : list X) :
  Forall dom xs ->
  exists cl,
    Forall2 P xs cl
    /\ forall acc st,
         dset st = d ->
         for_fold xs acc body st
         = (inr (acc ++ flat_map new xs),
            {| dset := d; plots := plots st ++ concat cl;
               logged := logged st ++ flat_map logs xs |}).
Proof.
  induction 1 as [|x xs Hx _ IH].
  - exists []. split; [constructor|]. intros acc st <-.
    cbn. unfold ret. rewrite !app_nil_r. now destruct st.
  - destruct (body_exact x Hx) as (cs & HP & Hbody).
    destruct IH as (cl & HPs & Hloop).
    exists (cs :: cl). split; [now constructor|]. intros acc st Hd.
    cbn [for_fold flat_map concat]. unfold bind. rewrite (Hbody acc st Hd).
    rewrite Hloop by reflexivity. cbn [plots logged].
    now rewrite <- !app_assoc.
Qed.

End LoopExact.

Lemma flat_map_filter {X Y} (keep : X -> bool) (f : X -> Y) (xs : list X) :
  flat_map (fun x => if keep x then [f x] else []) xs = map f (filter keep xs).
Proof.
  induction xs as [|x xs IH]; cbn; [reflexivity|].
  destruct (keep x); cbn; now rewrite IH.
Qed.

Lemma Forall2_kept {X} (keep : X -> bool) (shown : X -> PlotCall -> Prop)
    (xs : list X) (cl : list (list PlotCall)) :
  Forall2 (fun x cs => Forall2 shown (if keep x then [x] else []) cs) xs cl ->
  Forall2 shown (filter keep xs) (concat cl).
Proof.
  induction 1 as [|x cs xs cl Hx _ IH]; cbn; [constructor|].
  destruct (keep x).
  - inversion Hx as [|? c ? ? Hc Hnil]; subst. inversion Hnil; subst.
    cbn. now constructor.
  - inversion Hx; subst. exact IH.
Qed.

(** ** Fields of a collection *)

Lemma substring_all (s : string) : String.substring 0 (String.length s) s = s.
Proof. induction s as [|c s IH]; cbn; [reflexivity | now rewrite IH]. Qed.

Lemma prefix_split (p n : string) :
  String.prefix p n = true ->
  (p ++ String.substring (String.length p) (String.length n - String.length p) n)%string
  = n.
Proof.
  revert n. induction p as [|a p IH]; intros n H.
  - cbn. rewrite Nat.sub_0_r. apply substring_all.
  - destruct n as [|b n]; [discriminate|]. cbn in H.
    destruct (ascii_dec a b) as [->|]; [|discriminate].
    cbn. now rewrite IH.
Qed.

Lemma lookup_of_key {V} (k : string) (m : list (string * V)) :
  In k (Py.keys m) -> exists v, Py.lookup k m = Some v.
Proof.
  unfold Py.keys. induction m as [|[k' v] m IH]; cbn; [tauto|].
  destruct (String.eqb_spec k k') as [->|Hne]; [eauto|].
  intros [H|H]; [congruence | auto].
Qed.

Lemma string_app_assoc (a b c : string) :
  ((a ++ b) ++ c)%string = (a ++ (b ++ c))%string.
Proof. induction a as [|x a IH]; cbn; [reflexivity | now rewrite IH]. Qed.

Lemma collection_field_exists (d : Dataset) (collection field : string) :
  In field (collection_fields d collection) ->
  exists values,
    getitem_field d (collection ++ "." ++ field) = inr values.
Proof.
  unfold collection_fields. cbv zeta. rewrite in_map_iff.
  intros (n & <- & Hn). apply filter_In in Hn as [Hin Hp].
  rewrite <- string_app_assoc, (prefix_split _ _ Hp).
  destruct (lookup_of_key n (fields d) Hin) as [v Hv].
  exists v. unfold getitem_field. now rewrite Hv.
Qed.

(** ** [plot_field] and [plot_epoch_by_epoch_difference] *)

Ltac system_pass_exact Hv Hnan :=
  eexists; split;
  [ | intros acc st Hd;
      unfold plot_field_system, plot_epoch_by_epoch_difference_system;
      unfold bind at 1; cbn [get_dset]; rewrite Hd;
      unfold bind at 1; unfold lift at 1; rewrite Hv;
      unfold has_data in Hnan; apply negb_true_iff in Hnan; rewrite Hnan;
      unfold bind at 1; cbn [log_debug modify];
      unfold bind at 1;
      rewrite (satellite_series_total _ _ _ (map Num _))
        by (cbn [dset]; rewrite Hd, Hv; reflexivity);
      cbn [dset fst snd]; rewrite Hd;
      unfold bind, plot, modify, ret; cbn [dset plots logged];
      reflexivity ];
  constructor; [split; reflexivity | constructor].

Section FieldPlots.

Variable figure_dir : string.
Variable figure_name : string.
Variable d : Dataset.

Lemma skipped_pass (st : State) :
  dset st = d ->
  st = {| dset := d; plots := plots st ++ []; logged := logged st ++ [] |}.
Proof. intros <-. rewrite !app_nil_r. now destruct st. Qed.

Lemma plot_field_system_exact (field fieldname : string)
    (values : list Float.float) (sys : string) :
  getitem_field d fieldname = inr values ->
  exists cs,
    Forall2 (shows_satellites d (solution_path figure_dir figure_name field))
      (if has_data d values sys then [sys] else []) cs
    /\ forall acc st,
         dset st = d ->
         plot_field_system figure_dir figure_name field fieldname acc sys st
         = (inr (acc ++ (if has_data d values sys
                         then [solution_path figure_dir figure_name field sys]
                         else [])),
            {| dset := d; plots := plots st ++ cs;
               logged := logged st
                         ++ (if has_data d values sys
                             then [debug_plot (solution_path figure_dir
                                                 figure_name field sys)]
                             else []) |}).
Proof.
  intros Hv. destruct (has_data d values sys) eqn:Hnan.
  - system_pass_exact Hv Hnan.
  - exists []. split; [constructor|]. intros acc st Hd.
    unfold plot_field_system. unfold bind at 1. cbn [get_dset]. rewrite Hd.
    unfold bind at 1. unfold lift at 1. rewrite Hv.
    unfold has_data in Hnan. apply negb_false_iff in Hnan. rewrite Hnan.
    unfold ret. rewrite app_nil_r. f_equal. now apply skipped_pass.
Qed.

Lemma plot_epoch_by_epoch_difference_system_exact (field : string)
    (values : list Float.float) (sys : string) :
  getitem_field d ("diff_epo." ++ field) = inr values ->
  exists cs,
    Forall2 (shows_satellites d (solution_path figure_dir figure_name field))
      (if has_data d values sys then [sys] else []) cs
    /\ forall acc st,
         dset st = d ->
         plot_epoch_by_epoch_difference_system figure_dir figure_name field
           acc sys st
         = (inr (acc ++ (if has_data d values sys
                         then [solution_path figure_dir figure_name field sys]
                         else [])),
            {| dset := d; plots := plots st ++ cs;
               logged := logged st
                         ++ (if has_data d values sys
                             then [debug_plot (solution_path figure_dir
                                                 figure_name field sys)]
                             else []) |}).
Proof.
  intros Hv. destruct (has_data d values sys) eqn:Hnan.
  - system_pass_exact Hv Hnan.
  - exists []. split; [constructor|]. intros acc st Hd.
    unfold plot_epoch_by_epoch_difference_system.
    unfold bind at 1. cbn [get_dset]. rewrite Hd.
    unfold bind at 1. unfold lift at 1. rewrite Hv.
    unfold has_data in Hnan. apply negb_false_iff in Hnan. rewrite Hnan.
    unfold ret. rewrite app_nil_r. f_equal. now apply skipped_pass.
Qed.

Lemma systems_loop_exact (body : list string -> string -> M State (list string))
    (field : string) (values : list Float.float) :
  (forall sys,
     exists cs,
       Forall2 (shows_satellites d (solution_path figure_dir figure_name field))
         (if has_data d values sys then [sys] else []) cs
       /\ forall acc st,
            dset st = d ->
            body acc sys st
            = (inr (acc ++ (if has_data d values sys
                            then [solution_path figure_dir figure_name field sys]
                            else [])),
               {| dset := d; plots := plots st ++ cs;
                  logged := logged st
                            ++ (if has_data d values sys
                                then [debug_plot (solution_path figure_dir
                                                    figure_name field sys)]
                                else []) |})) ->
  exists calls,
    Forall2 (shows_satellites d (solution_path figure_dir figure_name field))
      (systems_with_data d values) calls
    /\ forall acc st,
         dset st = d ->
         for_fold (Py.sorted (Py.keys (meta_obstypes d))) acc body st
         = (inr (acc ++ map (solution_path figure_dir figure_name field)
                          (systems_with_data d values)),
            {| dset := d; plots := plots st ++ calls;
               logged := logged st
                         ++ map (fun sys => debug_plot (solution_path figure_dir
                                                          figure_name field sys))
                              (systems_with_data d values) |}).
Proof.
  intros Hbody.
  destruct (loop_exact d body (fun _ => True) _ _ _
              (fun sys _ => Hbody sys)
              (Py.sorted (Py.keys (meta_obstypes d))))
    as (cl & HP & Hloop).
  { apply Forall_forall. auto. }
  exists (concat cl). split; [now apply Forall2_kept|].
  intros acc st Hd. rewrite (Hloop acc st Hd).
  unfold systems_with_data. now rewrite !flat_map_filter.
Qed.

Lemma plot_field_exact (field : string) (collection : option string)
    (values : list Float.float) :
  getitem_field d (fieldname_of collection field) = inr values ->
  exists calls,
    Forall2 (shows_satellites d (solution_path figure_dir figure_name field))
      (systems_with_data d values) calls
    /\ forall st,
         dset st = d ->
         plot_field figure_dir field collection figure_name st
         = (inr (map (solution_path figure_dir figure_name field)
                   (systems_with_data d values)),
            {| dset := d; plots := plots st ++ calls;
               logged := logged st
                         ++ map (fun sys => debug_plot (solution_path figure_dir
                                                          figure_name field sys))
                              (systems_with_data d values) |}).
Proof.
  intros Hv.
  destruct (systems_loop_exact
              (plot_field_system figure_dir figure_name field
                 (fieldname_of collection field)) field values
              (fun sys => plot_field_system_exact field _ values sys Hv))
    as (calls & Hshown & Hloop).
  exists calls. split; [exact Hshown|]. intros st Hd.
  unfold plot_field. cbv zeta. unfold bind at 1. cbn [get_dset]. rewrite Hd.
  exact (Hloop [] st Hd).
Qed.

Lemma plot_epoch_by_epoch_difference_exact :
  exists cl,
    Forall2 (fun field calls =>
               Forall2 (shows_satellites d
                          (solution_path figure_dir figure_name field))
                 (systems_with_data d (values_of d ("diff_epo." ++ field))) calls)
      (collection_fields d "diff_epo") cl
    /\ forall st,
         dset st = d ->
         plot_epoch_by_epoch_difference figure_dir figure_name st
         = (inr (flat_map
                   (fun field =>
                      map (solution_path figure_dir figure_name field)
                        (systems_with_data d (values_of d ("diff_epo." ++ field))))
                   (collection_fields d "diff_epo")),
            {| dset := d; plots := plots st ++ concat cl;
               logged :=
                 logged st
                 ++ flat_map
                      (fun field =>
                         map (fun sys => debug_plot (solution_path figure_dir
                                                       figure_name field sys))
                           (systems_with_data d
                              (values_of d ("diff_epo." ++ field))))
                      (collection_fields d "diff_epo") |}).
Proof.
  destruct (loop_exact d
              (fun figure_paths field =>
                 bind get_dset (fun d0 =>
                   for_fold (Py.sorted (Py.keys (meta_obstypes d0))) figure_paths
                     (plot_epoch_by_epoch_difference_system figure_dir
                        figure_name field)))
              (fun field => In field (collection_fields d "diff_epo"))
              (fun field =>
                 map (solution_path figure_dir figure_name field)
                   (systems_with_data d (values_of d ("diff_epo." ++ field))))
              (fun field =>
                 map (fun sys => debug_plot (solution_path figure_dir
                                               figure_name field sys))
                   (systems_with_data d (values_of d ("diff_epo." ++ field))))
              (fun field calls =>
                 Forall2 (shows_satellites d
                            (solution_path figure_dir figure_name field))
                   (systems_with_data d (values_of d ("diff_epo." ++ field))) calls))
    with (xs := collection_fields d "diff_epo") as (cl & HP & Hloop).
  - intros field Hin.
    destruct (collection_field_exists d "diff_epo" field Hin) as [values Hv].
    change ("diff_epo" ++ "." ++ field)%string
      with ("diff_epo." ++ field)%string in Hv.
    unfold values_of. rewrite Hv.
    destruct (systems_loop_exact
                (plot_epoch_by_epoch_difference_system figure_dir figure_name
                   field) field values
                (fun sys => plot_epoch_by_epoch_difference_system_exact
                              field values sys Hv))
      as (calls & Hshown & Hinner).
    exists calls. split; [exact Hshown|]. intros acc st Hd.
    unfold bind at 1. cbn [get_dset]. rewrite Hd. exact (Hinner acc st Hd).
  - apply Forall_forall. auto.
  - exists cl. split; [exact HP|]. intros st Hd.
    unfold plot_epoch_by_epoch_difference. unfold bind at 1. cbn [get_dset].
    rewrite Hd. exact (Hloop [] st Hd).
Qed.

End FieldPlots.
Lemma sorted_pair (a b : string) :
  Py.sorted [a; b] = [a; b] \/ Py.sorted [a; b] = [b; a].
Proof.
  unfold Py.sorted, Py.sort_by. cbn. destruct (String.leb a b); auto.
Qed.

(** C6: when the field exists, [plot_field] returns, and its result is
    the list of the paths of the systems of the metadata, in ascending
    order, that have an entry which is not NaN: one figure is handed to
    the plotting collaborator, and one line logged at level debug, for
    each of them, and nothing for a system whose entries are all NaN.
    With two systems of which one has data, the result is the one path
    of that system.  [plot_epoch_by_epoch_difference] always returns and
    does the same for every field of the collection and every system. *)
Theorem all_nan_systems_are_skipped :
  forall (figure_dir figure_name field : string) (collection : option string)
         (st : State) (values : list Float.float),
    getitem_field (dset st) (fieldname_of collection field) = inr values ->
    let d := dset st in
    let path := solution_path figure_dir figure_name in
    (exists calls,
       plot_field figure_dir field collection figure_name st
       = (inr (map (path field) (systems_with_data d values)),
          {| dset := d; plots := plots st ++ calls;
             logged := logged st
                       ++ map (fun sys => debug_plot (path field sys))
                            (systems_with_data d values) |})
       /\ Forall2 (shows_satellites d (path field))
            (systems_with_data d values) calls)
    /\ (forall sys,
          has_data d values sys = false -> ~ In sys (systems_with_data d values))
    /\ (forall sys other,
          Py.keys (meta_obstypes d) = [sys; other]
          \/ Py.keys (meta_obstypes d) = [other; sys] ->
          has_data d values sys = true ->
          has_data d values other = false ->
          systems_with_data d values = [sys])
    /\ (exists cl,
          plot_epoch_by_epoch_difference figure_dir figure_name st
          = (inr (flat_map
                    (fun field =>
                       map (path field)
                         (systems_with_data d (values_of d ("diff_epo." ++ field))))
                    (collection_fields d "diff_epo")),
             {| dset := d; plots := plots st ++ concat cl;
                logged :=
                  logged st
                  ++ flat_map
                       (fun field =>
                          map (fun sys => debug_plot (path field sys))
                            (systems_with_data d
                               (values_of d ("diff_epo." ++ field))))
                       (collection_fields d "diff_epo") |})
          /\ Forall2 (fun field calls =>
                        Forall2 (shows_satellites d (path field))
                          (systems_with_data d
                             (values_of d ("diff_epo." ++ field))) calls)
               (collection_fields d "diff_epo") cl).
Proof.
  intros figure_dir figure_name field collection st values Hv d path.
  repeat split.
  - destruct (plot_field_exact figure_dir figure_name d field collection
                values Hv) as (calls & Hshown & Hrun).
    exists calls. split; [apply Hrun; reflexivity | exact Hshown].
  - intros sys Hnan Hin. unfold systems_with_data in Hin.
    apply filter_In in Hin as [_ Hin]. congruence.
  - intros sys other Hkeys Hsys Hother. unfold systems_with_data.
    destruct Hkeys as [-> | ->].
    + destruct (sorted_pair sys other) as [-> | ->]; cbn [filter];
        now rewrite Hsys, Hother.
    + destruct (sorted_pair other sys) as [-> | ->]; cbn [filter];
        now rewrite Hsys, Hother.
  - destruct (plot_epoch_by_epoch_difference_exact figure_dir figure_name d)
      as (cl & Hshown & Hrun).
    exists cl. split; [apply Hrun; reflexivity | exact Hshown].
Qed.

Lemma all_nan_systems_are_skipped_witness :
  fst (plot_field "figures" "gnss_range" None
         "plot_field_{solution}.{FIGURE_FORMAT}" (start two_systems))
  = inr ["figures/plot_field_G_gnss_range.png"]
  /\ fst (plot_epoch_by_epoch_difference "figures"
            "plot_epoch_by_epoch_difference_{solution}.{FIGURE_FORMAT}"
            (start two_systems))
     = inr ["figures/plot_epoch_by_epoch_difference_G_C1C.png"].
Proof.
  destruct (all_nan_systems_are_skipped "figures"
              "plot_field_{solution}.{FIGURE_FORMAT}" "gnss_range" None
              (start two_systems) [Float.nan; f1] eq_refl)
    as ((calls & Hrun & _) & _ & Hone & _).
  destruct (all_nan_systems_are_skipped "figures"
              "plot_epoch_by_epoch_difference_{solution}.{FIGURE_FORMAT}"
              "gnss_range" None
              (start two_systems) [Float.nan; f1] eq_refl)
    as (_ & _ & _ & (cl & Hepo & _)).
  split.
  - rewrite Hrun. cbn [fst].
    rewrite (Hone "G" "E" (or_intror eq_refl) eq_refl eq_refl). reflexivity.
  - rewrite Hepo. reflexivity.
Defined.

(** ** Order and membership of the enumerations *)

Lemma In_unique (x : string) (l : list string) : In x (Py.unique l) <-> In x l.
Proof.
  unfold Py.unique, Py.sorted. rewrite sort_by_In. apply nodup_In.
Qed.

Lemma satellites_of_In (d : Dataset) (sys sat : string) :
  In sat (satellites_of d sys)
  <-> In sat (satellite d) /\ Py.startswith sat sys = true.
Proof.
  unfold satellites_of. rewrite filter_In.
  unfold Py.sorted. rewrite sort_by_In. now rewrite In_unique.
Qed.

Lemma satellites_of_reverse_In (d : Dataset) (sys sat : string) :
  In sat (satellites_of_reverse d sys)
  <-> In sat (satellite d) /\ Py.startswith sat sys = true.
Proof.
  unfold satellites_of_reverse. rewrite filter_In.
  unfold Py.sorted_reverse. rewrite sort_by_In. now rewrite In_unique.
Qed.

Lemma satellites_of_ascending (d : Dataset) (sys : string) :
  ascending (satellites_of d sys).
Proof. apply (sorted_filter String.leb), sorted_ascending. Qed.

Lemma satellites_of_reverse_descending (d : Dataset) (sys : string) :
  descending (satellites_of_reverse d sys).
Proof.
  apply (sorted_filter (fun x y => String.leb y x)), sorted_reverse_descending.
Qed.

(** ** Methods with one figure for each system *)

(** One step of a computation that returned: the step is taken off and
    what it did is put among the hypotheses. *)
Ltac unbind H :=
  let a := fresh "a" in
  let s := fresh "s" in
  let Hstep := fresh "Hstep" in
  apply bind_returns in H as (a & s & Hstep & H);
  first
    [ apply get_dset_inv in Hstep as [-> ->]
    | apply lift_inv in Hstep as [Hstep ->]
    | apply getitem_inv in Hstep as [Hstep ->]
    | apply satellite_series_inv in Hstep as [-> Hstep]
    | idtac ].

Lemma debug_or_not (debug : bool) (msg : string) (st st' : State) (u : unit) :
  (if debug then log_debug msg else ret tt) st = (inr u, st') ->
  extends st st' [].
Proof.
  destruct debug; [apply log_debug_inv|].
  intros [= _ <-]. apply extends_refl.
Qed.

Section PerSystem.

Variable figure_dir : string.
Variable gnss_id_to_name : list (string * EnumMember).
Variable figure_name : string.
Variable d : Dataset.

Lemma plot_linear_combinations_system_returns (field : string) (debug : bool)
    (info_name : string) (get_ylabel : exn + string)
    (acc r : list FigureInfo) (sys : string) (st st' : State) :
  dset st = d ->
  plot_linear_combinations_system figure_dir figure_name field debug info_name
    get_ylabel acc sys st = (inr r, st') ->
  dset st' = d
  /\ exists new calls,
       r = acc ++ new
       /\ plots st' = plots st ++ calls
       /\ Forall2 (fun sys info => system_ info = sys) [sys] new
       /\ Forall2 (shows_labels d) [sys] calls.
Proof.
  intros Hd H. unfold plot_linear_combinations_system in H.
  unbind H. unbind H. unbind H. cbv zeta in H. unbind H.
  apply debug_or_not in Hstep1 as [Hds Hps]. rewrite app_nil_r in Hps.
  unbind H. unbind H. unbind H. injection H as <- <-.
  split; [cbn; congruence|].
  do 2 eexists. split; [reflexivity|]. split; [|split].
  - cbn [plots]. rewrite Hps. reflexivity.
  - constructor; [reflexivity | constructor].
  - constructor; [|constructor]. unfold shows_labels. cbn [labels].
    match goal with Hl : snd _ = satellites_of _ _ |- _ => rewrite Hl end.
    congruence.
Qed.

Lemma plot_skyplot_system_returns (azimuth_ zenith_distance_ : list Float.float)
    (acc r : list string) (sys : string) (st st' : State) :
  satellite (dset st) = satellite d ->
  plot_skyplot_system figure_dir gnss_id_to_name figure_name azimuth_
    zenith_distance_ acc sys st = (inr r, st') ->
  satellite (dset st') = satellite d
  /\ exists new calls,
       r = acc ++ new
       /\ plots st' = plots st ++ calls
       /\ Forall2 (fun sys p => p = system_path figure_dir figure_name sys) [sys] new
       /\ Forall2 (shows_satellites d (system_path figure_dir figure_name)) [sys] calls.
Proof.
  intros Hd H. unfold plot_skyplot_system in H. cbv zeta in H.
  unbind H. unbind H. unbind H. injection H as <- <-.
  split; [exact Hd|].
  do 2 eexists. split; [reflexivity|]. split; [|split].
  - reflexivity.
  - constructor; [reflexivity | constructor].
  - constructor; [|constructor]. split; [reflexivity|]. cbn [labels].
    match goal with Hl : snd _ = satellites_of _ _ |- _ => rewrite Hl end.
    unfold satellites_of. now rewrite Hd.
Qed.

Lemma plot_satellite_elevation_system_returns (elevation_ : list Float.float)
    (day_start day_end : datetime)
    (acc r : list string) (sys : string) (st st' : State) :
  dset st = d ->
  plot_satellite_elevation_system figure_dir gnss_id_to_name figure_name
    elevation_ day_start day_end acc sys st = (inr r, st') ->
  dset st' = d
  /\ exists new calls,
       r = acc ++ new
       /\ plots st' = plots st ++ calls
       /\ Forall2 (fun sys p => p = system_path figure_dir figure_name sys) [sys] new
       /\ Forall2 (shows_satellites d (system_path figure_dir figure_name)) [sys] calls.
Proof.
  intros Hd H. unfold plot_satellite_elevation_system in H. cbv zeta in H.
  unbind H. unbind H. unbind H. unbind H. injection H as <- <-.
  split; [exact Hd|].
  do 2 eexists. split; [reflexivity|]. split; [|split].
  - reflexivity.
  - constructor; [reflexivity | constructor].
  - constructor; [|constructor]. split; [reflexivity|]. cbn [labels].
    match goal with Hl : snd _ = satellites_of _ _ |- _ => rewrite Hl end.
    cbn [dset]. now rewrite Hd.
Qed.

Lemma flat_map_pair {A B} (a : A) (l : list B) :
  flat_map (fun b => [(a, b)]) l = map (pair a) l.
Proof. induction l as [|b l IH]; cbn; [reflexivity | now rewrite IH]. Qed.

Lemma lin_systems_loop_returns (field : string) (debug : bool)
    (info_name : string) (get_ylabel : exn + string) (syss : list string)
    (acc r : list FigureInfo) (st st' : State) :
  dset st = d ->
  for_fold syss acc
    (plot_linear_combinations_system figure_dir figure_name field debug
       info_name get_ylabel) st = (inr r, st') ->
  dset st' = d
  /\ exists new calls,
       r = acc ++ new
       /\ plots st' = plots st ++ calls
       /\ Forall2 (fun fs info => system_ info = snd fs)
            (map (pair field) syss) new
       /\ Forall2 (fun fs call => shows_labels d (snd fs) call)
            (map (pair field) syss) calls.
Proof.
  intros Hd H. rewrite <- flat_map_pair.
  refine (loop_returns (fun d' => d' = d) _ (fun sys => [(field, sys)])
            (fun fs info => system_ info = snd fs)
            (fun fs call => shows_labels d (snd fs) call) _ syss acc st r st' Hd H).
  clear. intros acc0 sys st0 r0 st0' Hd H.
  apply plot_linear_combinations_system_returns in H
    as (Hd' & new & calls & -> & Hp & Hitem & Hshown); [|exact Hd].
  split; [exact Hd'|]. exists new, calls. repeat split; auto.
  - inversion Hitem as [|? info ? ? Hi Hnil]; subst. inversion Hnil; subst.
    now repeat constructor.
  - inversion Hshown as [|? c ? ? Hc Hnil]; subst. inversion Hnil; subst.
    now repeat constructor.
Qed.

Lemma plot_linear_combinations_returns (st st' : State) (r : list FigureInfo) :
  dset st = d ->
  plot_linear_combinations figure_dir figure_name st = (inr r, st') ->
  exists calls,
    plots st' = plots st ++ calls
    /\ Forall2 (fun fs info => system_ info = snd fs)
         (flat_map (fun field => map (pair field) (lin_systems d field))
            (collection_fields d "lin")) r
    /\ Forall2 (fun fs call => shows_labels d (snd fs) call)
         (flat_map (fun field => map (pair field) (lin_systems d field))
            (collection_fields d "lin")) calls.
Proof.
  intros Hd H. unfold plot_linear_combinations in H. unbind H. rewrite Hd in H.
  apply (loop_returns (fun d' => d' = d) _
           (fun field => map (pair field) (lin_systems d field))
           (fun fs info => system_ info = snd fs)
           (fun fs call => shows_labels d (snd fs) call)) in H
    as (_ & new & calls & -> & Hp & Hitem & Hshown); [eauto | | exact Hd].
  clear. intros acc0 field st0 r0 st0' Hd H. unbind H. rewrite Hd in H.
  unfold lin_systems.
  destruct (String.eqb field "melbourne_wuebbena");
    [|destruct (String.eqb field "code_multipath_f1"
                || String.eqb field "code_multipath_f2");
      [|destruct (String.eqb field "code_phase_f1"
                  || String.eqb field "code_phase_f2")]];
    eapply lin_systems_loop_returns; eauto.
Qed.

Lemma plot_skyplot_returns (azimuth_shared : bool) (st st' : State)
    (r : list string) :
  dset st = d ->
  plot_skyplot figure_dir gnss_id_to_name azimuth_shared figure_name st
  = (inr r, st') ->
  r = map (system_path figure_dir figure_name) (Py.sorted (Py.unique (system d)))
  /\ exists calls,
       plots st' = plots st ++ calls
       /\ Forall2 (shows_satellites d (system_path figure_dir figure_name))
            (Py.sorted (Py.unique (system d))) calls.
Proof.
  intros Hd H. unfold plot_skyplot in H. cbv zeta in H. unbind H.
  unbind H.
  assert (Hs : dset s = skyplot_dataset azimuth_shared d /\ plots s = plots st).
  { unfold skyplot_dataset, azimuth_wrapped. cbv zeta. rewrite <- Hd.
    destruct azimuth_shared; injection Hstep as _ <-; auto. }
  clear Hstep. destruct Hs as [Hds Hps].
  unbind H. rewrite Hds in H.
  replace (system (skyplot_dataset azimuth_shared d)) with (system d) in H
    by (now destruct azimuth_shared).
  apply (loop_returns (fun d' => satellite d' = satellite d) _
           (fun sys => [sys]) (fun sys p => p = system_path figure_dir figure_name sys)
           (shows_satellites d (system_path figure_dir figure_name))) in H
    as (_ & new & calls & -> & Hp & Hitem & Hshown).
  - rewrite flat_map_singleton in Hitem, Hshown. split.
    + clear - Hitem. cbn [app].
      induction Hitem as [|sys p syss new -> _ IH]; cbn; [reflexivity|].
      now rewrite IH.
    + exists calls. split; [congruence | exact Hshown].
  - clear. intros acc0 sys st0 r0 st0'. apply plot_skyplot_system_returns.
  - rewrite Hds. now destruct azimuth_shared.
Qed.

Lemma plot_satellite_elevation_returns (st st' : State) (r : list string) :
  dset st = d ->
  plot_satellite_elevation figure_dir gnss_id_to_name figure_name st
  = (inr r, st') ->
  r = map (system_path figure_dir figure_name) (Py.sorted (Py.unique (system d)))
  /\ exists calls,
       plots st' = plots st ++ calls
       /\ Forall2 (shows_satellites d (system_path figure_dir figure_name))
            (Py.sorted (Py.unique (system d))) calls.
Proof.
  intros Hd H. unfold plot_satellite_elevation in H. cbv zeta in H. unbind H.
  unbind H.
  assert (s = st) as ->.
  { revert Hstep. unfold _get_day_limits, bind, get_dset, raise, ret.
    destruct (time_datetime (dset st)); [discriminate|]. now intros [= _ <-]. }
  clear Hstep. unbind H. rewrite Hd in H.
  apply (loop_returns (fun d' => d' = d) _
           (fun sys => [sys]) (fun sys p => p = system_path figure_dir figure_name sys)
           (shows_satellites d (system_path figure_dir figure_name))) in H
    as (_ & new & calls & -> & Hp & Hitem & Hshown).
  - rewrite flat_map_singleton in Hitem, Hshown. split.
    + clear - Hitem. cbn [app].
      induction Hitem as [|sys p syss new -> _ IH]; cbn; [reflexivity|].
      now rewrite IH.
    + exists calls. split; [exact Hp | exact Hshown].
  - clear. intros acc0 sys st0 r0 st0'.
    apply plot_satellite_elevation_system_returns.
  - exact Hd.
Qed.

End PerSystem.

(** ** Methods with one figure for all systems *)

Section OneFigure.

Variable figure_dir : string.
Variable gnss_id_to_name : list (string * EnumMember).
Variable get_number_of_satellites :
  list string -> list string -> list datetime -> list Float.float.
Variable figure_name : string.

Lemma plot_number_of_satellites_loop (syss : list string)
    (acc r : list (list cell) * list (list cell) * list string)
    (st st' : State) :
  for_fold syss acc
    (fun acc sys =>
       bind get_dset (fun d =>
         let idx := mask_eq (system d) sys in
         let x := Py.take_mask idx (gps_time d) in
         let y := map Num (get_number_of_satellites
                             (Py.take_mask idx (system d))
                             (Py.take_mask idx (satellite d))
                             (Py.take_mask idx (time_gps_datetime d))) in
         bind (Py.getitem gnss_id_to_name sys) (fun member =>
           ret (fst (fst acc) ++ [x], snd (fst acc) ++ [y],
                snd acc ++ [value_ member])))) st = (inr r, st') ->
  st' = st
  /\ fst (fst r)
     = fst (fst acc)
       ++ map (rows_of_system (dset st) (gps_time (dset st))) syss.
Proof.
  revert acc st.
  induction syss as [|sys syss IH]; intros acc st; cbn [for_fold map].
  - intros [= <- <-]. now rewrite app_nil_r.
  - intros H. unbind H. apply IH in H as [-> ->].
    unbind Hstep. cbv zeta in Hstep. unbind Hstep.
    injection Hstep as <- <-. cbn [fst]. now rewrite <- app_assoc.
Qed.

Lemma plot_number_of_satellites_returns (st st' : State) (p : string) :
  plot_number_of_satellites figure_dir gnss_id_to_name
    get_number_of_satellites figure_name st = (inr p, st') ->
  exists call,
    plots st' = plots st ++ [call]
    /\ x_arrays call
       = map (rows_of_system (dset st) (gps_time (dset st)))
           (Py.sorted (Py.unique (system (dset st)))).
Proof.
  intros H. unfold plot_number_of_satellites in H. cbv zeta in H.
  unbind H. unbind H. unbind H.
  apply plot_number_of_satellites_loop in Hstep0 as [-> Hx].
  unbind H. unbind H. injection H as _ <-.
  eexists. split; [reflexivity|]. cbn [x_arrays]. exact Hx.
Qed.

Lemma plot_satellite_availability_loop (system_sorted : list string)
    (time_ : list datetime) (satellite_ : list string) (syss : list string)
    (acc r : list (list cell) * list (list cell) * list string)
    (st st' : State) :
  for_fold syss acc
    (fun acc sys =>
       let idx := mask_eq system_sorted sys in
       bind (Py.getitem gnss_id_to_name sys) (fun member =>
         ret (fst (fst acc) ++ [map Time (Py.take_mask idx time_)],
              snd (fst acc) ++ [map Text (Py.take_mask idx satellite_)],
              snd acc ++ [value_ member]))) st = (inr r, st') ->
  st' = st
  /\ snd (fst r)
     = snd (fst acc)
       ++ map (fun sys => map Text (Py.take_mask (mask_eq system_sorted sys)
                                      satellite_)) syss.
Proof.
  revert acc st.
  induction syss as [|sys syss IH]; intros acc st; cbn [for_fold map].
  - intros [= <- <-]. now rewrite app_nil_r.
  - intros H. unbind H. apply IH in H as [-> ->].
    cbv zeta in Hstep. unbind Hstep.
    injection Hstep as <- <-. cbn [fst snd]. now rewrite <- app_assoc.
Qed.

Lemma plot_satellite_availability_returns (st st' : State) (p : string) :
  plot_satellite_availability figure_dir gnss_id_to_name figure_name st
  = (inr p, st') ->
  exists call,
    plots st' = plots st ++ [call]
    /\ y_arrays call
       = map (fun sys =>
                map Text
                  (Py.take_mask
                     (mask_eq (snd (sort_by_satellite_of (dset st))) sys)
                     (snd (fst (sort_by_satellite_of (dset st))))))
           (Py.sorted_reverse (Py.unique (system (dset st)))).
Proof.
  intros H. unfold plot_satellite_availability in H. cbv zeta in H.
  unbind H. unbind H.
  rewrite _sort_by_satellite_returns in Hstep0. injection Hstep0 as <- <-.
  unbind H. unbind H.
  apply plot_satellite_availability_loop in Hstep0 as [-> Hy].
  unbind H. unbind H. injection H as _ <-.
  eexists. split; [reflexivity|]. cbn [y_arrays]. exact Hy.
Qed.

End OneFigure.

(** ** [plot_obstype_availability] *)

Section Obstype.

Variable figure_dir : string.
Variable figure_name : string.
Variable d : Dataset.

Lemma plot_obstype_availability_obstype_returns (sat : string)
    (idx_sat : list bool)
    (acc r : list bool * (list (list cell) * list (list cell)))
    (obstype_ : string) (st st' : State) :
  plot_obstype_availability_obstype sat idx_sat acc obstype_ st = (inr r, st') ->
  st' = st
  /\ exists block,
       snd (snd r) = snd (snd acc) ++ block
       /\ Forall (Forall (labelled sat)) block.
Proof.
  intros H. unfold plot_obstype_availability_obstype in H.
  unbind H. unbind H. cbv zeta in H.
  destruct (any _); injection H as <- <-; split; auto.
  - eexists. split; [reflexivity|]. constructor; [|constructor].
    apply Forall_forall. intros c Hc. apply repeat_spec in Hc. subst c.
    now exists obstype_.
  - exists []. split; [now rewrite app_nil_r | constructor].
Qed.

Lemma plot_obstype_availability_obstypes_returns (sat : string)
    (idx_sat : list bool) (obstypes : list string)
    (acc r : list bool * (list (list cell) * list (list cell)))
    (st st' : State) :
  for_fold obstypes acc (plot_obstype_availability_obstype sat idx_sat) st
  = (inr r, st') ->
  st' = st
  /\ exists block,
       snd (snd r) = snd (snd acc) ++ block
       /\ Forall (Forall (labelled sat)) block.
Proof.
  revert acc st.
  induction obstypes as [|o obstypes IH]; intros acc st; cbn [for_fold].
  - intros [= <- <-]. split; auto. exists []. now rewrite app_nil_r.
  - intros H. unbind H.
    apply plot_obstype_availability_obstype_returns in Hstep
      as (-> & b1 & Hb1 & Hl1).
    apply IH in H as (-> & b2 & Hb2 & Hl2). split; auto.
    exists (b1 ++ b2). split; [now rewrite Hb2, Hb1, app_assoc|].
    now apply Forall_app.
Qed.

Lemma _sort_string_array_returns (r : list_ref) (items : list string)
    (st st' : State) :
  _sort_string_array r st = (inr items, st') ->
  same_columns (dset st) (dset st') /\ plots st' = plots st.
Proof.
  destruct r as [sys]. unfold _sort_string_array, deref, assign.
  intros H. unbind H. cbv zeta in H. unbind H.
  injection H as _ <-. now split.
Qed.

Lemma plot_obstype_availability_satellite_returns (sys : string)
    (acc r : list (list cell) * list (list cell)) (sat : string)
    (st st' : State) :
  plot_obstype_availability_satellite sys acc sat st = (inr r, st') ->
  same_columns (dset st) (dset st')
  /\ plots st' = plots st
  /\ exists blocks,
       snd r = snd acc ++ concat blocks
       /\ Forall2 (fun sat block => Forall (Forall (labelled sat)) block)
            (if Py.startswith sat sys then [sat] else []) blocks.
Proof.
  unfold plot_obstype_availability_satellite.
  destruct (Py.startswith sat sys); cbn [negb].
  - intros H. unbind H. cbv zeta in H. unbind H.
    apply _sort_string_array_returns in Hstep as [Hc Hp].
    unbind H.
    apply plot_obstype_availability_obstypes_returns in Hstep
      as (-> & block & Hb & Hl).
    injection H as <- <-. repeat split; try apply Hc; auto.
    exists [block]. cbn [concat]. rewrite app_nil_r.
    split; [exact Hb | now repeat constructor].
  - intros [= <- <-]. repeat split. exists []. cbn.
    split; [now rewrite app_nil_r | constructor].
Qed.

Lemma plot_obstype_availability_satellites_returns (sys : string)
    (sats : list string) (acc r : list (list cell) * list (list cell))
    (st st' : State) :
  for_fold sats acc (plot_obstype_availability_satellite sys) st
  = (inr r, st') ->
  same_columns (dset st) (dset st')
  /\ plots st' = plots st
  /\ exists blocks,
       snd r = snd acc ++ concat blocks
       /\ Forall2 (fun sat block => Forall (Forall (labelled sat)) block)
            (filter (fun sat => Py.startswith sat sys) sats) blocks.
Proof.
  revert acc st.
  induction sats as [|sat sats IH]; intros acc st; cbn [for_fold filter].
  - intros [= <- <-]. repeat split. exists []. cbn.
    split; [now rewrite app_nil_r | constructor].
  - intros H. unbind H.
    apply plot_obstype_availability_satellite_returns in Hstep
      as ([Hc1 Hc1'] & Hp1 & b1 & Hb1 & Hl1).
    apply IH in H as ([Hc2 Hc2'] & Hp2 & b2 & Hb2 & Hl2).
    split; [split; congruence|]. split; [congruence|].
    exists (b1 ++ b2). split.
    + now rewrite Hb2, Hb1, concat_app, app_assoc.
    + destruct (Py.startswith sat sys).
      * now apply (Forall2_app (l1 := [sat])).
      * inversion Hl1; subst. exact Hl2.
Qed.

Lemma plot_obstype_availability_system_returns (acc r : list string)
    (sys : string) (st st' : State) :
  same_columns d (dset st) ->
  plot_obstype_availability_system figure_dir figure_name acc sys st
  = (inr r, st') ->
  same_columns d (dset st')
  /\ exists new calls,
       r = acc ++ new
       /\ plots st' = plots st ++ calls
       /\ Forall2 (fun sys p => p = system_path figure_dir figure_name sys)
            [sys] new
       /\ Forall2 (shows_blocks figure_dir figure_name d) [sys] calls.
Proof.
  intros [Hsat Hsys] H. unfold plot_obstype_availability_system in H.
  unbind H. cbv zeta in H. unbind H. unbind H.
  apply plot_obstype_availability_satellites_returns in Hstep0
    as ([Hc Hc'] & Hp & blocks & Hb & Hl).
  unbind H. injection H as <- <-.
  split; [split; cbn [dset] in *; congruence|].
  do 2 eexists. split; [reflexivity|]. split; [|split].
  - cbn [plots] in *. rewrite Hp. reflexivity.
  - constructor; [reflexivity | constructor].
  - constructor; [|constructor]. split; [reflexivity|].
    cbn [y_arrays]. exists blocks. split; [exact Hb|].
    unfold satellites_of_reverse. cbn [dset] in Hl. now rewrite <- Hsat.
Qed.

Lemma plot_obstype_availability_returns (st st' : State) (r : list string) :
  dset st = d ->
  plot_obstype_availability figure_dir figure_name st = (inr r, st') ->
  r = map (system_path figure_dir figure_name)
        (Py.sorted (Py.unique (system d)))
  /\ exists calls,
       plots st' = plots st ++ calls
       /\ Forall2 (shows_blocks figure_dir figure_name d)
            (Py.sorted (Py.unique (system d))) calls.
Proof.
  intros Hd H. unfold plot_obstype_availability in H. unbind H. rewrite Hd in H.
  apply (loop_returns (same_columns d) _ (fun sys => [sys])
           (fun sys p => p = system_path figure_dir figure_name sys)
           (shows_blocks figure_dir figure_name d)) in H
    as (_ & new & calls & -> & Hp & Hitem & Hshown).
  - rewrite flat_map_singleton in Hitem, Hshown. split.
    + clear - Hitem. cbn [app].
      induction Hitem as [|sys p syss new -> _ IH]; cbn; [reflexivity|].
      now rewrite IH.
    + exists calls. split; [exact Hp | exact Hshown].
  - clear. intros acc0 sys st0 r0 st0'.
    apply plot_obstype_availability_system_returns.
  - rewrite Hd. now split.
Qed.

End Obstype.

(** ** Descending rows of [_sort_by_satellite] *)

Lemma leb_refl (x : string) : String.leb x x = true.
Proof. apply leb_iff. now left. Qed.

Lemma take_own_mask (column : list string) (sat : string) :
  Forall (eq sat) (Py.take_mask (mask_eq column sat) column).
Proof.
  unfold mask_eq. induction column as [|x column IH]; cbn; [constructor|].
  destruct (String.eqb_spec sat x) as [->|_]; [constructor; auto | exact IH].
Qed.

Lemma sorted_block_app {A} (R : A -> A -> Prop) (x : A) (block rest : list A) :
  R x x ->
  Forall (eq x) block ->
  StronglySorted R rest ->
  Forall (R x) rest ->
  StronglySorted R (block ++ rest).
Proof.
  intros Hrefl Hblock Hrest Hall.
  induction Hblock as [|y ys <- Hys IH]; cbn; [exact Hrest|].
  constructor; [exact IH|].
  apply Forall_app. split; [|exact Hall].
  revert Hys. apply Forall_impl. now intros a <-.
Qed.

Lemma sorted_blocks {A} (R : A -> A -> Prop) (f : A -> list A) (l : list A) :
  (forall x, R x x) ->
  (forall x, Forall (eq x) (f x)) ->
  StronglySorted R l -> StronglySorted R (flat_map f l).
Proof.
  intros Hrefl Hf. induction 1 as [|x l Hs IH Hall]; cbn; [constructor|].
  apply (sorted_block_app R x); auto.
  apply Forall_forall. intros a Ha. apply in_flat_map in Ha as (y & Hy & Ha).
  rewrite Forall_forall in Hall. specialize (Hall y Hy).
  specialize (Hf y). rewrite Forall_forall in Hf. now rewrite <- (Hf a Ha).
Qed.

Lemma sort_by_satellite_of_descending (d : Dataset) :
  descending (snd (fst (sort_by_satellite_of d))).
Proof.
  unfold sort_by_satellite_of. cbn [fst snd].
  apply sorted_blocks.
  - apply leb_refl.
  - intros sat. apply take_own_mask.
  - apply sorted_reverse_descending.
Qed.

(** ** The enumerations of every method *)

Lemma plot_field_returns (figure_dir figure_name field : string)
    (collection : option string) (st st' : State) (r : list string) :
  plot_field figure_dir field collection figure_name st = (inr r, st') ->
  exists calls,
    plots st' = plots st ++ calls
    /\ Forall2 (shows_satellites (dset st)
                  (solution_path figure_dir figure_name field))
         (systems_with_data (dset st)
            (values_of (dset st) (fieldname_of collection field))) calls.
Proof.
  intros H.
  destruct (getitem_field (dset st) (fieldname_of collection field))
    as [e|values] eqn:Hv.
  - unfold plot_field in H. cbv zeta in H. unbind H.
    unfold systems_with_data.
    destruct (Py.sorted (Py.keys (meta_obstypes (dset st)))) as [|sys syss].
    + injection H as _ <-. exists []. rewrite app_nil_r. split; [reflexivity|].
      constructor.
    + cbn [for_fold] in H. unbind H. unfold plot_field_system in Hstep.
      unbind Hstep. unbind Hstep. unfold fieldname_of in Hv. congruence.
  - destruct (plot_field_exact figure_dir figure_name (dset st) field
                collection values Hv) as (calls & Hshown & Hrun).
    rewrite (Hrun st eq_refl) in H. injection H as _ <-.
    exists calls. unfold values_of. rewrite Hv. now split.
Qed.

(** C9, the claim as stated fails: [plot_obstype_availability], which is
    neither [plot_satellite_availability] nor [_sort_by_satellite],
    shows the satellite E02 before E01, in descending order; and
    [plot_satellite_availability] puts the satellite E01 in the series
    of the system G of its row, although its name does not start with
    that code. *)
Lemma plot_obstype_availability_is_descending :
  map y_arrays
    (plots (snd (plot_obstype_availability "figures"
                   "plot_obstype_availability_{system}.{FIGURE_FORMAT}"
                   (start two_satellites))))
  = [ [ [Text "E02_C1C"]; [Text "E01_C1C"] ] ]
  /\ String.ltb "E01" "E02" = true
  /\ ~ ascending ["E02"; "E01"]
  /\ map y_arrays
       (plots (snd (plot_satellite_availability "figures"
                      [("G", {| value_ := "GPS"; shown := "GPS" |})]
                      "plot_satellite_availability.png" (start mixed_row))))
     = [ [ [Text "E01"] ] ]
  /\ Py.startswith "E01" "G" = false.
Proof.
  repeat split; try (vm_compute; reflexivity).
  intros H. inversion H as [|? ? _ Hall]; subst.
  inversion Hall as [|? ? Hleb _]; subst. vm_compute in Hleb. discriminate.
Qed.

(** C9, amended.  The satellites of a system are those of the dataset
    whose name starts with the code of the system, in ascending order
    ([satellites_of]) or in descending order ([satellites_of_reverse]).
    For a run that returns:
    - [plot_epoch_by_epoch_difference], [plot_field],
      [plot_linear_combinations], [plot_skyplot] and
      [plot_satellite_elevation] hand over one figure for each system
      they run over, the systems in ascending order, and the figure of
      a system shows its satellites in ascending order;
    - [plot_obstype_availability] hands over one figure for each
      system, the systems in ascending order, and the figure shows the
      satellites of the system in descending order;
    - [plot_number_of_satellites] shows one series for each system, in
      ascending order, made of the rows whose system column has the
      code;
    - [plot_satellite_availability] shows one series for each system,
      in descending order, made of the rows whose system column has
      the code, the rows being those of [_sort_by_satellite], which are
      in descending order of the satellites. *)
Theorem enumeration_orders :
  forall (figure_dir : string)
         (gnss_id_to_name : list (string * EnumMember))
         (get_number_of_satellites :
            list string -> list string -> list datetime -> list Float.float)
         (azimuth_shared : bool)
         (figure_name : string) (st : State),
    let d := dset st in
    let systems := Py.sorted (Py.unique (system d)) in
    (forall sys,
       ascending (satellites_of d sys)
       /\ descending (satellites_of_reverse d sys)
       /\ forall sat,
            (In sat (satellites_of d sys)
             <-> In sat (satellite d) /\ Py.startswith sat sys = true)
            /\ (In sat (satellites_of_reverse d sys)
                <-> In sat (satellite d) /\ Py.startswith sat sys = true))
    /\ (forall l, ascending (Py.sorted l) /\ descending (Py.sorted_reverse l))
    /\ (forall values, ascending (systems_with_data d values))
    /\ (forall r st',
          plot_epoch_by_epoch_difference figure_dir figure_name st = (inr r, st') ->
          exists cl,
            plots st' = plots st ++ concat cl
            /\ Forall2
                 (fun field calls =>
                    Forall2 (shows_satellites d
                               (solution_path figure_dir figure_name field))
                      (systems_with_data d (values_of d ("diff_epo." ++ field)))
                      calls)
                 (collection_fields d "diff_epo") cl)
    /\ (forall field collection r st',
          plot_field figure_dir field collection figure_name st = (inr r, st') ->
          exists calls,
            plots st' = plots st ++ calls
            /\ Forall2 (shows_satellites d
                          (solution_path figure_dir figure_name field))
                 (systems_with_data d
                    (values_of d (fieldname_of collection field))) calls)
    /\ (forall r st',
          plot_linear_combinations figure_dir figure_name st = (inr r, st') ->
          exists calls,
            plots st' = plots st ++ calls
            /\ Forall2 (fun fs info => system_ info = snd fs)
                 (flat_map (fun field => map (pair field) (lin_systems d field))
                    (collection_fields d "lin")) r
            /\ Forall2 (fun fs call => shows_labels d (snd fs) call)
                 (flat_map (fun field => map (pair field) (lin_systems d field))
                    (collection_fields d "lin")) calls)
    /\ (forall r st',
          plot_skyplot figure_dir gnss_id_to_name azimuth_shared figure_name st
          = (inr r, st') ->
          r = map (system_path figure_dir figure_name) systems
          /\ exists calls,
               plots st' = plots st ++ calls
               /\ Forall2 (shows_satellites d
                             (system_path figure_dir figure_name))
                    systems calls)
    /\ (forall r st',
          plot_satellite_elevation figure_dir gnss_id_to_name figure_name st
          = (inr r, st') ->
          r = map (system_path figure_dir figure_name) systems
          /\ exists calls,
               plots st' = plots st ++ calls
               /\ Forall2 (shows_satellites d
                             (system_path figure_dir figure_name))
                    systems calls)
    /\ (forall r st',
          plot_obstype_availability figure_dir figure_name st = (inr r, st') ->
          r = map (system_path figure_dir figure_name) systems
          /\ exists calls,
               plots st' = plots st ++ calls
               /\ Forall2 (shows_blocks figure_dir figure_name d) systems calls)
    /\ (forall p st',
          plot_number_of_satellites figure_dir gnss_id_to_name
            get_number_of_satellites figure_name st = (inr p, st') ->
          exists call,
            plots st' = plots st ++ [call]
            /\ x_arrays call = map (rows_of_system d (gps_time d)) systems)
    /\ (forall p st',
          plot_satellite_availability figure_dir gnss_id_to_name figure_name st
          = (inr p, st') ->
          exists call,
            plots st' = plots st ++ [call]
            /\ y_arrays call
               = map (fun sys =>
                        map Text
                          (Py.take_mask
                             (mask_eq (snd (sort_by_satellite_of d)) sys)
                             (snd (fst (sort_by_satellite_of d)))))
                   (Py.sorted_reverse (Py.unique (system d))))
    /\ (forall dset_arg,
          _sort_by_satellite dset_arg st = (inr (sort_by_satellite_of d), st))
    /\ descending (snd (fst (sort_by_satellite_of d))).
Proof.
  intros figure_dir gnss_id_to_name get_number_of_satellites azimuth_shared
    figure_name st d systems.
  split; [|split; [|split; [|split; [|split; [|split; [|split; [|split;
    [|split; [|split; [|split; [|split]]]]]]]]]]].
  - intros sys. split; [apply satellites_of_ascending|].
    split; [apply satellites_of_reverse_descending|].
    intros sat. split;
      [apply satellites_of_In | apply satellites_of_reverse_In].
  - intros l. split; [apply sorted_ascending | apply sorted_reverse_descending].
  - intros values. apply (sorted_filter String.leb), sorted_ascending.
  - intros r st' H.
    destruct (plot_epoch_by_epoch_difference_exact figure_dir figure_name d)
      as (cl & Hshown & Hrun).
    rewrite (Hrun st eq_refl) in H. injection H as _ <-.
    exists cl. now split.
  - intros field collection r st'. apply plot_field_returns.
  - intros r st'. now apply plot_linear_combinations_returns.
  - intros r st'. now apply plot_skyplot_returns.
  - intros r st'. now apply plot_satellite_elevation_returns.
  - intros r st'. now apply plot_obstype_availability_returns.
  - intros p st'. apply plot_number_of_satellites_returns.
  - intros p st'. apply plot_satellite_availability_returns.
  - intros dset_arg. apply _sort_by_satellite_returns.
  - apply sort_by_satellite_of_descending.
Qed.

(** On the dataset of two systems, the figure of [plot_field] for G shows
    G01, and [plot_skyplot] hands over the figure of E and then that
    of G. *)
Lemma enumeration_orders_witness :
  map labels
    (plots (snd (plot_field "figures" "gnss_range" None
                   "plot_field_{solution}.{FIGURE_FORMAT}" (start two_systems))))
  = [Some ["G01"]]
  /\ fst (plot_skyplot "figures"
            [ ("E", {| value_ := "Galileo"; shown := "Galileo" |});
              ("G", {| value_ := "GPS"; shown := "GPS" |}) ] false
            "plot_skyplot_{system}.{FIGURE_FORMAT}" (start two_systems))
     = inr ["figures/plot_skyplot_E.png"; "figures/plot_skyplot_G.png"].
Proof.
  pose proof (enumeration_orders "figures"
                [ ("E", {| value_ := "Galileo"; shown := "Galileo" |});
                  ("G", {| value_ := "GPS"; shown := "GPS" |}) ]
                (fun _ _ _ => []) false
                "plot_field_{solution}.{FIGURE_FORMAT}" (start two_systems))
    as (_ & _ & _ & _ & Hfield & _).
  pose proof (enumeration_orders "figures"
                [ ("E", {| value_ := "Galileo"; shown := "Galileo" |});
                  ("G", {| value_ := "GPS"; shown := "GPS" |}) ]
                (fun _ _ _ => []) false
                "plot_skyplot_{system}.{FIGURE_FORMAT}" (start two_systems))
    as (_ & _ & _ & _ & _ & _ & Hsky & _).
  split.
  - destruct (Hfield "gnss_range" None _ _ (surjective_pairing _))
      as (calls & Hplots & Hshown).
    rewrite Hplots. cbn [plots start app].
    inversion Hshown as [|sys call syss calls' [_ Hl] Hrest]; subst.
    inversion Hrest; subst. cbn [map]. rewrite Hl. reflexivity.
  - destruct (plot_skyplot "figures" _ false _ (start two_systems))
      as [[e|r] st'] eqn:Hrun.
    + vm_compute in Hrun. discriminate.
    + destruct (Hsky r st' eq_refl) as [-> _]. reflexivity.
Defined.

(** ** [plot_dop] *)

(** The run has raised the error of the lookup, with the log written and
    no figure handed over. *)
Ltac raised :=
  split; [reflexivity|]; split; [reflexivity|];
  split; [eexists; split; reflexivity | reflexivity].

(** X6: [plot_dop] logs the path of the figure and then reads the fields
    gdop, pdop, vdop, hdop and tdop in this order.  When one of them is
    no field of the dataset it raises the error of the dataset for the
    first that is missing, an [AttributeError], and hands no figure
    over; otherwise it returns the path after handing over one figure
    of five series, each against the whole GPS time column. *)
Theorem plot_dop_needs_its_five_fields :
  forall (figure_dir figure_name : string) (st : State),
    let d := dset st in
    let path := format_path figure_dir figure_name in
    let run := plot_dop figure_dir figure_name st in
    dset (snd run) = d
    /\ logged (snd run) = logged st ++ [debug_plot path]
    /\ match first_missing d dop_fields with
       | Some n =>
           (exists e, getattr_field d n = inl e /\ fst run = inl e)
           /\ plots (snd run) = plots st
       | None =>
           fst run = inr path
           /\ exists call,
                plots (snd run) = plots st ++ [call]
                /\ figure_path call = path
                /\ x_arrays call = repeat (gps_time d) 5
                /\ y_arrays call
                   = map (fun n => map Num (values_of d n)) dop_fields
                /\ labels call = Some ["GDOP"; "PDOP"; "VDOP"; "HDOP"; "TDOP"]
       end.
Proof.
  intros figure_dir figure_name st d path run. subst run d path.
  unfold plot_dop, format_path, first_missing, dop_fields, values_of,
    getitem_field, getattr_field, debug_plot.
  cbv zeta. unfold bind, log_debug, modify, get_dset, lift, plot, ret.
  cbn [dset plots logged fst snd find map].
  destruct (Py.lookup "gdop" (fields (dset st))) eqn:Hgdop;
    [|cbn [dset plots logged fst snd find]; rewrite Hgdop; raised].
  destruct (Py.lookup "pdop" (fields (dset st))) eqn:Hpdop;
    [|cbn [dset plots logged fst snd find]; rewrite Hpdop; raised].
  destruct (Py.lookup "vdop" (fields (dset st))) eqn:Hvdop;
    [|cbn [dset plots logged fst snd find]; rewrite Hvdop; raised].
  destruct (Py.lookup "hdop" (fields (dset st))) eqn:Hhdop;
    [|cbn [dset plots logged fst snd find]; rewrite Hhdop; raised].
  destruct (Py.lookup "tdop" (fields (dset st))) eqn:Htdop;
    [|cbn [dset plots logged fst snd find]; rewrite Htdop; raised].
  cbn [dset plots logged fst snd find].
  split; [reflexivity|]. split; [reflexivity|]. split; [reflexivity|].
  eexists. split; [reflexivity|]. now repeat split.
Qed.

(** ** [plot_number_of_satellites_used] *)

Lemma lookup_app_new {V} (k k' : string) (v : V) (m : list (string * V)) :
  Py.lookup k (m ++ [(k', v)])
  = match Py.lookup k m with
    | Some x => Some x
    | None => if String.eqb k k' then Some v else None
    end.
Proof.
  induction m as [|[k0 v0] m IH]; cbn; [reflexivity|].
  now destruct (String.eqb k k0).
Qed.

Lemma key_exists_iff_lookup {V} (k : string) (m : list (string * V)) :
  existsb (String.eqb k) (Py.keys m)
  = match Py.lookup k m with Some _ => true | None => false end.
Proof.
  unfold Py.keys. induction m as [|[k0 v0] m IH]; cbn; [reflexivity|].
  now destruct (String.eqb k k0).
Qed.

(** X7: [plot_number_of_satellites_used] adds the column
    [num_satellite_used] before it reads the fields it shows.  So the
    column is in the dataset after every call, a call that raises
    included, and a further call adds nothing; the call raises the
    error of the dataset, an [AttributeError], and hands no figure over,
    exactly when the dataset has no field [num_satellite_available];
    otherwise it returns the
    path after handing over one figure of the available and the used
    numbers, the used ones being the column the dataset had, or else
    the numbers the collaborator counts. *)
Theorem used_column_is_added_before_the_fields_are_read :
  forall (figure_dir : string)
         (get_number_of_satellites :
            list string -> list string -> list datetime -> list Float.float)
         (figure_name : string) (st : State),
    let d := dset st in
    let d' := used_column_added get_number_of_satellites d in
    let path := format_path figure_dir figure_name in
    let run := plot_number_of_satellites_used figure_dir
                 get_number_of_satellites figure_name st in
    dset (snd run) = d'
    /\ Py.lookup "num_satellite_used" (fields d')
       = Some (used_column get_number_of_satellites d)
    /\ used_column_added get_number_of_satellites d' = d'
    /\ logged (snd run) = logged st ++ [debug_plot path]
    /\ match Py.lookup "num_satellite_available" (fields d) with
       | None =>
           (exists e,
              getattr_field d "num_satellite_available" = inl e
              /\ fst run = inl e)
           /\ plots (snd run) = plots st
       | Some available =>
           fst run = inr path
           /\ exists call,
                plots (snd run) = plots st ++ [call]
                /\ figure_path call = path
                /\ x_arrays call = [gps_time d; gps_time d]
                /\ y_arrays call
                   = [map Num available;
                      map Num (used_column get_number_of_satellites d)]
                /\ labels call = Some ["Available"; "Used"]
       end.
Proof.
  intros figure_dir get_number_of_satellites figure_name st d d' path run.
  assert (Hused : Py.lookup "num_satellite_used" (fields d')
                  = Some (used_column get_number_of_satellites d)).
  { subst d'. unfold used_column_added, used_column.
    rewrite key_exists_iff_lookup.
    destruct (Py.lookup "num_satellite_used" (fields d)) eqn:Hl;
      [exact Hl|].
    cbn [fields with_fields]. rewrite lookup_app_new, Hl. reflexivity. }
  assert (Havailable : Py.lookup "num_satellite_available" (fields d')
                       = Py.lookup "num_satellite_available" (fields d)).
  { subst d'. unfold used_column_added.
    destruct (existsb _ _); [reflexivity|].
    cbn [fields with_fields]. rewrite lookup_app_new.
    now destruct (Py.lookup "num_satellite_available" (fields d)). }
  assert (Hrun : run
            = match Py.lookup "num_satellite_available" (fields d) with
              | None =>
                  (inl (AttributeError "num_satellite_available"),
                   {| dset := d'; plots := plots st;
                      logged := logged st ++ [debug_plot path] |})
              | Some available =>
                  (inr path,
                   {| dset := d';
                      plots := plots st
                        ++ [ {| x_arrays := [gps_time d'; gps_time d'];
                                y_arrays :=
                                  [map Num available;
                                   map Num (used_column
                                              get_number_of_satellites d)];
                                xlabel := "Time [GPS]";
                                ylabel := "Number of satellites";
                                y_unit := "";
                                labels := Some ["Available"; "Used"];
                                colors := None;
                                figure_path := path;
                                opt_args := [ ("figsize", VSeq [VInt 7; VInt 4]);
                                              ("legend", VBool true);
                                              ("marker", VStr ",");
                                              ("plot_to", VStr "file");
                                              ("plot_type", VStr "plot") ] |} ];
                      logged := logged st ++ [debug_plot path] |})
              end).
  { subst run d' d. revert Hused Havailable.
    unfold plot_number_of_satellites_used, used_column_added, format_path,
      debug_plot in *.
    cbv zeta. unfold bind at 1. cbn [log_debug modify].
    unfold bind at 1. cbn [get_dset dset]. unfold bind at 1.
    destruct (existsb (String.eqb "num_satellite_used")
                (Py.keys (fields (dset st))));
      intros Hused Havailable;
      cbn [negb add_float modify set_dset ret dset plots logged];
      unfold bind at 1;
      cbn [get_dset add_float modify set_dset ret dset plots logged];
      unfold bind at 1; unfold lift at 1; unfold getattr_field at 1;
      try rewrite Havailable;
      (destruct (Py.lookup "num_satellite_available" (fields (dset st)));
       [|reflexivity]);
      unfold bind at 1; unfold lift at 1; unfold getattr_field at 1;
      rewrite Hused; reflexivity. }
  split; [|split; [|split; [|split]]].
  - rewrite Hrun. now destruct (Py.lookup "num_satellite_available" (fields d)).
  - exact Hused.
  - unfold used_column_added at 1. rewrite key_exists_iff_lookup, Hused.
    reflexivity.
  - rewrite Hrun. now destruct (Py.lookup "num_satellite_available" (fields d)).
  - rewrite Hrun. unfold getattr_field.
    destruct (Py.lookup "num_satellite_available" (fields d));
      [|split; [eexists; split; reflexivity | reflexivity]].
    split; [reflexivity|]. eexists. split; [reflexivity|].
    cbn [figure_path x_arrays y_arrays labels]. repeat split.
    subst d'. unfold used_column_added, gps_time.
    now destruct (existsb _ _).
Qed.

(** ** [_get_day_limits] *)

Lemma fold_min_spec (ts : list Z) (t : Z) :
  In (fold_left Z.min ts t) (t :: ts)
  /\ Forall (fun x => (fold_left Z.min ts t <= x)%Z) (t :: ts).
Proof.
  revert t. induction ts as [|a ts IH]; intros t; cbn [fold_left].
  - split; [now left | constructor; [lia | constructor]].
  - destruct (IH (Z.min t a)) as [Hin Hall]. split.
    + destruct Hin as [Hin|Hin]; [|now right; right].
      rewrite <- Hin. destruct (Z.min_spec t a) as [[_ ->]|[_ ->]];
        [now left | now right; left].
    + inversion Hall as [|? ? Hm Hts]; subst.
      constructor; [lia|]. constructor; [lia | exact Hts].
Qed.

Lemma fold_max_spec (ts : list Z) (t : Z) :
  In (fold_left Z.max ts t) (t :: ts)
  /\ Forall (fun x => (x <= fold_left Z.max ts t)%Z) (t :: ts).
Proof.
  revert t. induction ts as [|a ts IH]; intros t; cbn [fold_left].
  - split; [now left | constructor; [lia | constructor]].
  - destruct (IH (Z.max t a)) as [Hin Hall]. split.
    + destruct Hin as [Hin|Hin]; [|now right; right].
      rewrite <- Hin. destruct (Z.max_spec t a) as [[_ ->]|[_ ->]];
        [now right; left | now left].
    + inversion Hall as [|? ? Hm Hts]; subst.
      constructor; [lia|]. constructor; [lia | exact Hts].
Qed.

(** X8: [_get_day_limits] raises [ValueError] on a dataset without
    observations; on any other dataset it returns, without an effect,
    two times of the column [time.datetime] between which every time of
    the column lies. *)
Theorem day_limits_bound_the_times :
  forall st : State,
    match time_datetime (dset st) with
    | [] => exists msg, _get_day_limits st = (inl (ValueError msg), st)
    | _ :: _ =>
        exists day_start day_end,
          _get_day_limits st = (inr (day_start, day_end), st)
          /\ In day_start (time_datetime (dset st))
          /\ In day_end (time_datetime (dset st))
          /\ Forall (fun t => (day_start <= t <= day_end)%Z)
               (time_datetime (dset st))
    end.
Proof.
  intros st. unfold _get_day_limits, bind, get_dset, raise, ret.
  destruct (time_datetime (dset st)) as [|t ts]; [eexists; reflexivity|].
  destruct (fold_min_spec ts t) as [Hmin Hlow].
  destruct (fold_max_spec ts t) as [Hmax Hhigh].
  do 2 eexists. split; [reflexivity|]. split; [exact Hmin|].
  split; [exact Hmax|].
  rewrite Forall_forall in *. intros x Hx. split; auto.
Qed.

(** ** [_get_dataset] *)

Lemma lookup_setitem {V} (k k' : string) (v : V) (m : list (string * V)) :
  Py.lookup k (Py.setitem m k' v)
  = if String.eqb k k' then Some v else Py.lookup k m.
Proof.
  induction m as [|[k0 v0] m IH]; cbn [Py.setitem Py.lookup].
  - reflexivity.
  - destruct (String.eqb_spec k' k0) as [->|Hne]; cbn [Py.lookup].
    + now destruct (String.eqb k k0).
    + rewrite IH. destruct (String.eqb_spec k k0) as [->|]; [|reflexivity].
      destruct (String.eqb_spec k0 k') as [->|]; [contradiction | reflexivity].
Qed.

Lemma lookup_not_key {V} (k : string) (m : list (string * V)) :
  ~ In k (Py.keys m) -> Py.lookup k m = None.
Proof.
  unfold Py.keys. induction m as [|[k0 v0] m IH]; cbn; [reflexivity|].
  intros H. destruct (String.eqb_spec k k0) as [->|]; [|apply IH]; tauto.
Qed.

Lemma lookup_merge {V} (k : string) (m1 m2 : list (string * V)) :
  NoDup (Py.keys m2) ->
  Py.lookup k (Py.merge m1 m2)
  = match Py.lookup k m2 with
    | Some v => Some v
    | None => Py.lookup k m1
    end.
Proof.
  unfold Py.merge. revert m1.
  induction m2 as [|[k0 v0] m2 IH]; intros m1 Hnd; cbn [fold_left Py.lookup];
    [reflexivity|].
  cbn in Hnd. inversion Hnd as [|? ? Hnew Hnd']; subst.
  rewrite (IH _ Hnd'). cbn [fst snd]. rewrite lookup_setitem.
  destruct (String.eqb_spec k k0) as [->|]; [|reflexivity].
  now rewrite (lookup_not_key k0 m2 Hnew).
Qed.

(** X9: [_get_dataset] reads the dataset of a stage with the variables
    of the dataset of the object: under ["stage"] the stage asked for,
    whatever [vars] and [analysis] hold there, and under any other name
    the value of [analysis], or that of [vars] when [analysis] has
    none.  The reader is used for these variables only: two readers
    that agree on them give the same outcome. *)
Theorem stage_is_read_with_the_variables_of_the_analysis :
  forall (stage : string) (systems : option (list string)) (st : State),
    NoDup (Py.keys (analysis (dset st))) ->
    exists file_vars,
      (forall k, Py.lookup k file_vars = file_vars_of (dset st) stage k)
      /\ forall dataset_read dataset_read' : list (string * string) -> exn + Dataset,
           dataset_read file_vars = dataset_read' file_vars ->
           _get_dataset dataset_read stage systems st
           = _get_dataset dataset_read' stage systems st.
Proof.
  intros stage systems st Hnd.
  exists (Py.setitem (Py.merge (vars (dset st)) (analysis (dset st))) "stage" stage).
  split.
  - intros k. unfold file_vars_of. rewrite lookup_setitem.
    destruct (String.eqb k "stage"); [reflexivity|].
    now apply lookup_merge.
  - intros dataset_read dataset_read' Hsame.
    unfold _get_dataset. unfold bind at 1 3. cbn [get_dset].
    now rewrite Hsame.
Qed.

(** The stage "orbit" of the analysis of one day: the stage of [vars]
    and its label give way, and a reader that looks at the stage alone
    does as one that finds every dataset. *)
Lemma stage_is_read_with_the_variables_of_the_analysis_witness :
  exists file_vars,
    Py.lookup "stage" file_vars = Some "orbit"
    /\ Py.lookup "label" file_vars = Some "0"
    /\ Py.lookup "station" file_vars = Some "vegs"
    /\ Py.lookup "rundate" file_vars = Some "2021-07-01"
    /\ _get_dataset (fun _ => inr one_day) "orbit" None (start one_day)
       = _get_dataset
           (fun fv => match Py.lookup "stage" fv with
                      | Some _ => inr one_day
                      | None => inl (OSError "no stage")
                      end)
           "orbit" None (start one_day).
Proof.
  destruct (stage_is_read_with_the_variables_of_the_analysis "orbit" None
              (start one_day)) as (file_vars & Hvars & Hread).
  { cbn. repeat constructor; cbn; intuition discriminate. }
  exists file_vars.
  split; [rewrite Hvars; reflexivity|].
  split; [rewrite Hvars; reflexivity|].
  split; [rewrite Hvars; reflexivity|].
  split; [rewrite Hvars; reflexivity|].
  apply Hread. rewrite Hvars. reflexivity.
Defined.

Lemma put_mask_true (g : string -> bool) (col : list string) (sys : string)
    (n : nat) :
  List.length col <= n ->
  Py.put_mask (mask_eq col sys) (map g col) (repeat true n)
  = map (fun c => g c || String.eqb sys c) col.
Proof.
  unfold mask_eq. revert n.
  induction col as [|c col IH]; intros n Hn; cbn [map Py.put_mask];
    [reflexivity|].
  cbn [List.length] in Hn. destruct n as [|n]; [lia|].
  destruct (String.eqb sys c).
  - cbn [repeat]. rewrite IH by lia. now rewrite orb_true_r.
  - rewrite IH by lia. now rewrite orb_false_r.
Qed.

Lemma keep_idx_of_systems (systems : list string) (col : list string)
    (g : string -> bool) :
  fold_left (fun keep sys => set_true keep (mask_eq col sys)) systems (map g col)
  = map (fun c => g c || of_systems systems c) col.
Proof.
  revert g. induction systems as [|sys systems IH]; intros g; cbn [fold_left].
  - apply map_ext. intros c. unfold of_systems. cbn. now rewrite orb_false_r.
  - unfold set_true at 2. rewrite put_mask_true.
    + rewrite IH. apply map_ext. intros c. unfold of_systems. cbn [existsb].
      now rewrite orb_assoc.
    + unfold mask_eq. now rewrite length_map.
Qed.

Lemma take_mask_filter {A} (keep : A -> bool) (l : list A) :
  Py.take_mask (map keep l) l = filter keep l.
Proof.
  induction l as [|x l IH]; cbn; [reflexivity|].
  destruct (keep x); now rewrite IH.
Qed.

(** X10: when the reader finds the dataset of the stage, with a system
    for each of its observations, and [_get_dataset] is given a list of
    systems that is not empty, it returns that dataset cut down to the
    observations whose system is in the list, in the order they had;
    the dataset of the object, the figures and the log are left as they
    are. *)
Theorem stage_dataset_is_cut_down_to_the_systems :
  forall (dataset_read : list (string * string) -> exn + Dataset)
         (stage sys : string) (systems : list string) (st : State)
         (dset_out : Dataset),
    dataset_read
      (Py.setitem (Py.merge (vars (dset st)) (analysis (dset st))) "stage" stage)
    = inr dset_out ->
    List.length (system dset_out) = num_obs dset_out ->
    let keep_idx := map (of_systems (sys :: systems)) (system dset_out) in
    _get_dataset dataset_read stage (Some (sys :: systems)) st
    = (inr (StageDataset (subset keep_idx dset_out)), st)
    /\ system (subset keep_idx dset_out)
       = filter (of_systems (sys :: systems)) (system dset_out)
    /\ Forall (fun s => In s (sys :: systems)) (system (subset keep_idx dset_out))
    /\ (forall s, In s (system dset_out) -> In s (sys :: systems) ->
                  In s (system (subset keep_idx dset_out))).
Proof.
  intros dataset_read stage sys systems st dset_out Hread Hlen keep_idx.
  assert (Hsys : system (subset keep_idx dset_out)
                 = filter (of_systems (sys :: systems)) (system dset_out)).
  { subst keep_idx. cbn [subset system]. apply take_mask_filter. }
  assert (Hof : forall s, of_systems (sys :: systems) s = true
                          <-> In s (sys :: systems)).
  { intros s. unfold of_systems. rewrite existsb_exists. split.
    - intros (key & Hin & Heq). apply String.eqb_eq in Heq. now subst.
    - intros Hin. exists s. split; [exact Hin | apply String.eqb_refl]. }
  split; [|split; [exact Hsys | split]].
  - unfold _get_dataset. unfold bind at 1. cbn [get_dset]. rewrite Hread.
    cbv beta iota zeta. unfold ret. subst keep_idx.
    rewrite <- Hlen, <- (map_const false (system dset_out)).
    rewrite (keep_idx_of_systems (sys :: systems) (system dset_out)
               (fun _ => false)).
    reflexivity.
  - rewrite Hsys. apply Forall_forall. intros s Hs.
    apply filter_In in Hs as [_ Hs]. now apply Hof.
  - intros s Hin Hlisted. rewrite Hsys. apply filter_In.
    split; [exact Hin | now apply Hof].
Qed.

(** Of the observations of G, R and E, those of E and G are kept. *)
Lemma stage_dataset_is_cut_down_to_the_systems_witness :
  exists kept,
    _get_dataset (fun _ => inr one_day) "read" (Some ["E"; "G"]) (start one_day)
    = (inr (StageDataset kept), start one_day)
    /\ system kept = ["G"; "E"]
    /\ satellite kept = ["G01"; "E11"].
Proof.
  destruct (stage_dataset_is_cut_down_to_the_systems (fun _ => inr one_day)
              "read" "E" ["G"] (start one_day) one_day eq_refl eq_refl)
    as (Hrun & Hsys & _).
  eexists. split; [exact Hrun|]. split; [exact Hsys | reflexivity].
Defined.

Lemma _get_dataset_unreadable
    (dataset_read : list (string * string) -> exn + Dataset)
    (stage : string) (systems : option (list string)) (st : State) :
  (forall file_vars, exists msg, dataset_read file_vars = inl (OSError msg)) ->
  _get_dataset dataset_read stage systems st
  = (inr ExitStatus_error,
     {| dset := dset st; plots := plots st;
        logged := logged st ++ [could_not_read] |}).
Proof.
  intros Hread. unfold _get_dataset. unfold bind at 1. cbn [get_dset].
  destruct (Hread (Py.setitem (Py.merge (vars (dset st)) (analysis (dset st)))
                     "stage" stage)) as [msg ->].
  reflexivity.
Qed.

(** X11: when the reader raises [OSError], [_get_dataset] does not
    raise: it logs one warning, whose text holds the braces of the
    source unfilled, and returns the exit status for an error.
    [plot_satellite_overview] hands the status on to
    [_sort_by_satellite], which does not look at it.  So with a dataset
    that has an observation and a file for the stage "read" that
    exists, the overview is handed over although no stage can be read:
    the call returns the path after three warnings, and the three
    series of the figure are those of the dataset of the object. *)
Theorem overview_is_plotted_although_no_stage_is_read :
  forall (figure_dir : string)
         (config_files_path : string -> list (string * string) -> string)
         (path_exists : string -> bool)
         (dataset_read : list (string * string) -> exn + Dataset)
         (figure_name : string) (st : State) (t : datetime) (ts : list datetime),
    time_datetime (dset st) = t :: ts ->
    path_exists
      (config_files_path "dataset"
         (Py.setitem (Py.merge (vars (dset st)) (analysis (dset st)))
            "stage" "read")) = true ->
    (forall file_vars, exists msg, dataset_read file_vars = inl (OSError msg)) ->
    let d := dset st in
    let path := format_path figure_dir figure_name in
    (forall stage systems,
       _get_dataset dataset_read stage systems st
       = (inr ExitStatus_error,
          {| dset := d; plots := plots st;
             logged := logged st ++ [could_not_read] |}))
    /\ exists call,
         plot_satellite_overview figure_dir config_files_path path_exists
           dataset_read figure_name st
         = (inr (Some path),
            {| dset := d; plots := plots st ++ [call];
               logged := logged st
                         ++ [debug_plot path; could_not_read; could_not_read;
                             could_not_read] |})
         /\ figure_path call = path
         /\ x_arrays call = [own_times d; own_times d; own_times d]
         /\ y_arrays call
            = [own_satellites d; own_satellites d; own_satellites d].
Proof.
  intros figure_dir config_files_path path_exists dataset_read figure_name
    st t ts Ht Hexists Hread d path.
  split; [intros stage systems; now apply _get_dataset_unreadable|].
  eexists. split; [|split; [|split]].
  - unfold plot_satellite_overview. cbv zeta.
    unfold bind at 1. cbn [log_debug modify].
    unfold bind at 1. unfold _get_day_limits at 1. unfold bind at 1.
    cbn [get_dset dset]. rewrite Ht. cbn [ret].
    unfold bind at 1. cbn [get_dset dset]. rewrite Hexists.
    repeat (unfold bind at 1; cbn [get_dset dset];
            unfold bind at 1; rewrite (_get_dataset_unreadable _ _ _ _ Hread);
            cbn [dset plots logged];
            unfold bind at 1; rewrite _sort_by_satellite_returns;
            cbn [dset plots logged]).
    unfold bind, plot, modify, ret. cbn [dset plots logged].
    rewrite <- !app_assoc. reflexivity.
  - reflexivity.
  - reflexivity.
  - reflexivity.
Qed.

(** The dataset of [one_day] with a reader that finds no file. *)
Lemma overview_is_plotted_although_no_stage_is_read_witness :
  let run := plot_satellite_overview "figures"
               (fun _ _ => "work/dataset-read.hdf5") (fun _ => true)
               (fun _ => inl (OSError "no such file"))
               "plot_satellite_overview.{FIGURE_FORMAT}" (start one_day) in
  fst run = inr (Some "figures/plot_satellite_overview.png")
  /\ map y_arrays (plots (snd run))
     = [ [ [Text "R07"; Text "G01"; Text "E11"];
           [Text "R07"; Text "G01"; Text "E11"];
           [Text "R07"; Text "G01"; Text "E11"] ] ]
  /\ List.length (logged (snd run)) = 4.
Proof.
  destruct (overview_is_plotted_although_no_stage_is_read "figures"
              (fun _ _ => "work/dataset-read.hdf5") (fun _ => true)
              (fun _ => inl (OSError "no such file"))
              "plot_satellite_overview.{FIGURE_FORMAT}" (start one_day)
              100%Z [101%Z; 102%Z] eq_refl eq_refl
              (fun _ => ex_intro _ "no such file" eq_refl))
    as (_ & call & Hrun & _ & _ & Hy).
  cbv zeta. rewrite Hrun. cbn [fst snd plots logged start app map].
  rewrite Hy. repeat split.
Defined.

(** ** The rows of [_sort_by_satellite] *)

Lemma take_mask_combine {A B} (mask : list bool) (a : list A) (b : list B) :
  Py.take_mask mask (combine a b)
  = combine (Py.take_mask mask a) (Py.take_mask mask b).
Proof.
  revert a b. induction mask as [|m mask IH]; intros a b.
  - now destruct a, b.
  - destruct a as [|x a], b as [|y b]; cbn [combine Py.take_mask].
    + reflexivity.
    + reflexivity.
    + now destruct m; rewrite combine_nil.
    + destruct m; cbn [combine]; now rewrite IH.
Qed.

Lemma take_mask_length {A B} (mask : list bool) (a : list A) (b : list B) :
  List.length a = List.length b ->
  List.length (Py.take_mask mask a) = List.length (Py.take_mask mask b).
Proof.
  revert a b. induction mask as [|m mask IH]; intros a b Hlen.
  - now destruct a, b.
  - destruct a as [|x a], b as [|y b]; try discriminate; [reflexivity|].
    cbn [Py.take_mask]. injection Hlen as Hlen.
    destruct m; cbn [List.length]; now rewrite (IH a b Hlen).
Qed.

Lemma combine_app {A B} (a1 a2 : list A) (b1 b2 : list B) :
  List.length a1 = List.length b1 ->
  combine (a1 ++ a2) (b1 ++ b2) = combine a1 b1 ++ combine a2 b2.
Proof.
  revert b1. induction a1 as [|x a1 IH]; intros [|y b1] Hlen;
    try discriminate; [reflexivity|].
  cbn. now rewrite IH by (now injection Hlen).
Qed.

Lemma length_flat_map_eq {X A B} (f : X -> list A) (g : X -> list B)
    (xs : list X) :
  (forall x, List.length (f x) = List.length (g x)) ->
  List.length (flat_map f xs) = List.length (flat_map g xs).
Proof.
  intros H. induction xs as [|x xs IH]; cbn; [reflexivity|].
  now rewrite !length_app, H, IH.
Qed.

Lemma combine_flat_map {X A B} (f : X -> list A) (g : X -> list B)
    (xs : list X) :
  (forall x, List.length (f x) = List.length (g x)) ->
  combine (flat_map f xs) (flat_map g xs)
  = flat_map (fun x => combine (f x) (g x)) xs.
Proof.
  intros H. induction xs as [|x xs IH]; cbn; [reflexivity|].
  now rewrite combine_app, IH by apply H.
Qed.

Lemma flat_map_nil {X A} (f : X -> list A) (xs : list X) :
  (forall x, f x = []) -> flat_map f xs = [].
Proof.
  intros H. induction xs as [|x xs IH]; cbn; [reflexivity|].
  now rewrite H, IH.
Qed.

Lemma flat_map_same_in {X A} (f g : X -> list A) (xs : list X) :
  (forall x, In x xs -> f x = g x) -> flat_map f xs = flat_map g xs.
Proof.
  induction xs as [|x xs IH]; intros H; cbn; [reflexivity|].
  rewrite (H x (or_introl eq_refl)), IH; [reflexivity|].
  intros y Hy. apply H. now right.
Qed.

(** The blocks of the keys of a column, each key taken once, hold
    every row once. *)
Lemma blocks_permutation {A} (col keys : list string) (l : list A) :
  NoDup keys ->
  (forall k, In k col -> In k keys) ->
  List.length l = List.length col ->
  Permutation (flat_map (fun k => Py.take_mask (mask_eq col k) l) keys) l.
Proof.
  intros Hnd. revert l.
  induction col as [|c col IH]; intros l Hin Hlen.
  - destruct l; [|discriminate].
    rewrite flat_map_nil by reflexivity. constructor.
  - destruct l as [|r l]; [discriminate|]. injection Hlen as Hlen.
    destruct (in_split c keys (Hin c (or_introl eq_refl))) as (s1 & s2 & ->).
    apply NoDup_remove_2 in Hnd as Hc.
    assert (Hother : forall s, In s (s1 ++ s2) ->
              Py.take_mask (mask_eq (c :: col) s) (r :: l)
              = Py.take_mask (mask_eq col s) l).
    { intros s Hs. unfold mask_eq. cbn [map Py.take_mask].
      destruct (String.eqb_spec s c) as [->|]; [contradiction | reflexivity]. }
    specialize (IH l (fun k Hk => Hin k (or_intror Hk)) Hlen).
    rewrite flat_map_app in *. cbn [flat_map] in *.
    rewrite (flat_map_same_in _ (fun k => Py.take_mask (mask_eq col k) l) s1)
      by (intros s Hs; apply Hother, in_or_app; now left).
    rewrite (flat_map_same_in _ (fun k => Py.take_mask (mask_eq col k) l) s2)
      by (intros s Hs; apply Hother, in_or_app; now right).
    unfold mask_eq at 2. cbn [map Py.take_mask]. rewrite String.eqb_refl.
    fold (mask_eq col c).
    rewrite <- app_comm_cons. symmetry. apply Permutation_cons_app.
    now symmetry.
Qed.

Lemma sort_by_permutation {A} (le : A -> A -> bool) (l : list A) :
  Permutation (Py.sort_by le l) l.
Proof.
  unfold Py.sort_by. induction l as [|x l IH]; cbn; [constructor|].
  transitivity (x :: fold_right (Py.insert_by le) [] l); [|now constructor].
  generalize (fold_right (Py.insert_by le) [] l). clear.
  intros l. induction l as [|y l IH]; cbn; [reflexivity|].
  destruct (le x y); [reflexivity|].
  rewrite IH. apply perm_swap.
Qed.

Lemma unique_NoDup (l : list string) : NoDup (Py.unique l).
Proof.
  unfold Py.unique, Py.sorted.
  apply (Permutation_NoDup (l := nodup string_dec l)).
  - symmetry. apply sort_by_permutation.
  - apply NoDup_nodup.
Qed.

Lemma take_mask_rows (sat : string) (col : list string)
    (l : list (datetime * (string * string))) :
  map (fun row => fst (snd row)) l = col ->
  Py.take_mask (mask_eq col sat) l = filter (of_satellite sat) l.
Proof.
  intros <-. unfold mask_eq, of_satellite. rewrite map_map.
  apply take_mask_filter.
Qed.

Lemma filter_other_block (sat k : string)
    (l : list (datetime * (string * string))) :
  k <> sat -> filter (of_satellite sat) (filter (of_satellite k) l) = [].
Proof.
  intros Hne. induction l as [|row l IH]; cbn; [reflexivity|].
  unfold of_satellite at 2.
  destruct (String.eqb_spec k (fst (snd row))) as [Hk|]; [|exact IH].
  cbn [filter]. unfold of_satellite at 1.
  destruct (String.eqb_spec sat (fst (snd row))) as [Hs|]; [congruence | exact IH].
Qed.

Lemma filter_own_block (sat : string) (l : list (datetime * (string * string))) :
  filter (of_satellite sat) (filter (of_satellite sat) l)
  = filter (of_satellite sat) l.
Proof.
  induction l as [|row l IH]; cbn; [reflexivity|].
  destruct (of_satellite sat row) eqn:H; [|exact IH].
  cbn [filter]. now rewrite H, IH.
Qed.

Lemma filter_blocks (sat : string) (keys : list string)
    (l : list (datetime * (string * string))) :
  NoDup keys ->
  filter (of_satellite sat) (flat_map (fun k => filter (of_satellite k) l) keys)
  = if in_dec string_dec sat keys then filter (of_satellite sat) l else [].
Proof.
  induction 1 as [|k keys Hnew Hnd IH]; cbn [flat_map]; [reflexivity|].
  rewrite filter_app, IH.
  destruct (string_dec k sat) as [->|Hne].
  - rewrite filter_own_block.
    destruct (in_dec string_dec sat keys) as [Hin|_]; [contradiction|].
    destruct (in_dec string_dec sat (sat :: keys)) as [_|Hout];
      [apply app_nil_r | elim Hout; now left].
  - rewrite (filter_other_block sat k l Hne). cbn [app].
    destruct (in_dec string_dec sat keys) as [Hin|Hout];
      destruct (in_dec string_dec sat (k :: keys)) as [Hin'|Hout'];
      try reflexivity.
    + elim Hout'. now right.
    + destruct Hin' as [Hk|Hin']; [congruence | contradiction].
Qed.

(** X12: [_sort_by_satellite] always returns and has no effect.  On a
    dataset that has a time and a system for each satellite entry, the
    three arrays it returns hold, row by row, the observations of the
    dataset of the object: every observation once, none added, and the
    observations of one satellite in the order they have in the
    dataset. *)
Theorem sorting_by_satellite_keeps_every_observation :
  forall (dset_arg : option StageData) (st : State),
    List.length (time_gps_datetime (dset st)) = List.length (satellite (dset st)) ->
    List.length (system (dset st)) = List.length (satellite (dset st)) ->
    exists time_ satellite_ system_,
      _sort_by_satellite dset_arg st = (inr (time_, satellite_, system_), st)
      /\ List.length time_ = List.length satellite_
      /\ List.length system_ = List.length satellite_
      /\ Permutation (rows time_ satellite_ system_) (rows_of (dset st))
      /\ forall sat,
           filter (of_satellite sat) (rows time_ satellite_ system_)
           = filter (of_satellite sat) (rows_of (dset st)).
Proof.
  intros dset_arg st Ht Hs.
  rewrite _sort_by_satellite_returns. unfold sort_by_satellite_of.
  set (d := dset st) in *.
  set (sats := Py.sorted_reverse (Py.unique (satellite d))).
  do 3 eexists. split; [reflexivity|].
  assert (Hnd : NoDup sats).
  { apply (Permutation_NoDup (l := Py.unique (satellite d))).
    - symmetry. apply sort_by_permutation.
    - apply unique_NoDup. }
  assert (Hall : forall k, In k (satellite d) -> In k sats).
  { intros k Hk. unfold sats, Py.sorted_reverse.
    rewrite sort_by_In. now apply In_unique. }
  assert (Hrows : rows
            (flat_map (fun sat => Py.take_mask (mask_eq (satellite d) sat)
                                    (time_gps_datetime d)) sats)
            (flat_map (fun sat => Py.take_mask (mask_eq (satellite d) sat)
                                    (satellite d)) sats)
            (flat_map (fun sat => Py.take_mask (mask_eq (satellite d) sat)
                                    (system d)) sats)
          = flat_map (fun sat => Py.take_mask (mask_eq (satellite d) sat)
                                   (rows_of d)) sats).
  { unfold rows_of, rows.
    rewrite (combine_flat_map
               (fun sat => Py.take_mask (mask_eq (satellite d) sat) (satellite d))
               (fun sat => Py.take_mask (mask_eq (satellite d) sat) (system d)))
      by (intros sat; apply take_mask_length; now symmetry).
    rewrite combine_flat_map.
    - apply flat_map_ext. intros sat. now rewrite !take_mask_combine.
    - intros sat. rewrite <- take_mask_combine. apply take_mask_length.
      rewrite length_combine, Hs, Nat.min_id. exact Ht. }
  assert (Hlen : List.length (rows_of d) = List.length (satellite d)).
  { unfold rows_of, rows. rewrite !length_combine, Hs, Ht, !Nat.min_id.
    reflexivity. }
  assert (Hcol : map (fun row => fst (snd row)) (rows_of d) = satellite d).
  { unfold rows_of, rows. clear - Ht Hs.
    revert Ht Hs. generalize (time_gps_datetime d) (system d).
    induction (satellite d) as [|s l IH]; intros [|t ts] [|y ys] Ht Hs;
      try discriminate; [reflexivity|].
    cbn. f_equal. apply IH; now injection Ht; injection Hs. }
  split; [|split; [|split]].
  - apply length_flat_map_eq. intros sat. apply take_mask_length. exact Ht.
  - apply length_flat_map_eq. intros sat. apply take_mask_length. exact Hs.
  - rewrite Hrows. now apply blocks_permutation.
  - intros sat. rewrite Hrows.
    rewrite (flat_map_ext _ (fun k => filter (of_satellite k) (rows_of d)))
      by (intros k; now apply take_mask_rows).
    rewrite (filter_blocks sat sats (rows_of d) Hnd).
    destruct (in_dec string_dec sat sats) as [_|Hout]; [reflexivity|].
    symmetry. rewrite <- Hcol in Hall. clear - Hall Hout.
    induction (rows_of d) as [|row l IH]; [reflexivity|].
    cbn [filter]. unfold of_satellite at 1.
    destruct (String.eqb_spec sat (fst (snd row))) as [->|_].
    + elim Hout. apply Hall. now left.
    + apply IH. intros k Hk. apply Hall. now right.
Qed.

(** The observations of [one_day], of G01, R07 and E11 in this order,
    come back as those of R07, G01 and E11. *)
Lemma sorting_by_satellite_keeps_every_observation_witness :
  exists time_ satellite_ system_,
    _sort_by_satellite None (start one_day)
    = (inr (time_, satellite_, system_), start one_day)
    /\ Permutation (rows time_ satellite_ system_)
         [ (100%Z, ("G01", "G")); (101%Z, ("R07", "R")); (102%Z, ("E11", "E")) ].
Proof.
  destruct (sorting_by_satellite_keeps_every_observation None (start one_day)
              eq_refl eq_refl)
    as (time_ & satellite_ & system_ & Hrun & _ & _ & Hperm & _).
  exists time_, satellite_, system_. split; [exact Hrun | exact Hperm].
Defined.

(** ** The key of [_sort_string_array] *)

Lemma slice_of_three (x : string) :
  String.length x = 3 -> Py.slice_m2_3 x = last_two x.
Proof.
  destruct x as [|a [|b [|c [|e x]]]]; try discriminate. reflexivity.
Qed.

Lemma substring_none (n : nat) (x : string) : String.substring n 0 x = "".
Proof.
  revert n. induction x as [|c x IH]; intros [|n]; cbn; auto.
Qed.

Lemma slice_of_five (x : string) :
  5 <= String.length x -> Py.slice_m2_3 x = "".
Proof.
  intros H. unfold Py.slice_m2_3. cbv zeta.
  replace (Nat.min 3 (String.length x) - (String.length x - 2)) with 0 by lia.
  apply substring_none.
Qed.

Lemma filter_insert_by {A} (le : A -> A -> bool) (keep : A -> bool) (x : A)
    (l : list A) :
  (forall y, keep x = true -> keep y = true -> le x y = true) ->
  filter keep (Py.insert_by le x l)
  = if keep x then x :: filter keep l else filter keep l.
Proof.
  intros Hle. induction l as [|y l IH]; cbn [Py.insert_by filter].
  - reflexivity.
  - destruct (le x y) eqn:Hxy; cbn [filter]; [reflexivity|].
    rewrite IH. destruct (keep x) eqn:Hx; [|reflexivity].
    destruct (keep y) eqn:Hy; [|reflexivity].
    rewrite (Hle y eq_refl Hy) in Hxy. discriminate.
Qed.

(** Sorting by a key is stable: the elements of one key keep their
    order. *)
Lemma sort_key_stable (key : string -> string) (k : string) (l : list string) :
  filter (fun x => String.eqb (key x) k) (Py.sort_key key l)
  = filter (fun x => String.eqb (key x) k) l.
Proof.
  unfold Py.sort_key, Py.sort_by.
  induction l as [|x l IH]; cbn [fold_right filter]; [reflexivity|].
  rewrite filter_insert_by, IH; [reflexivity|].
  intros y Hx Hy. apply String.eqb_eq in Hx, Hy. rewrite Hx, Hy.
  apply leb_refl.
Qed.

Lemma sort_key_sorted (key : string -> string) (l : list string) :
  StronglySorted (fun x y => String.leb (key x) (key y) = true)
    (Py.sort_key key l).
Proof.
  apply Sorted_StronglySorted.
  - intros a b c. apply leb_trans.
  - apply (sort_by_sorted (fun x y => String.leb (key x) (key y))).
    intros x y. apply String.leb_total.
Qed.

Lemma StronglySorted_impl_in {A} (R R' : A -> A -> Prop) (l : list A) :
  (forall x y, In x l -> In y l -> R x y -> R' x y) ->
  StronglySorted R l -> StronglySorted R' l.
Proof.
  intros H. induction 1 as [|x l Hs IH Hall]; constructor.
  - apply IH. intros a b Ha Hb. apply H; now right.
  - rewrite Forall_forall in *. intros y Hy.
    apply H; [now left | now right | now apply Hall].
Qed.

Lemma _sort_string_array_runs (sys : string) (items : list string) (st : State) :
  Py.lookup sys (meta_obstypes (dset st)) = Some items ->
  _sort_string_array (Obstypes sys) st
  = (inr (Py.sort_key Py.slice_m2_3 items),
     with_obstypes sys (Py.sort_key Py.slice_m2_3 items) st).
Proof.
  intros Hl. unfold _sort_string_array, deref, assign, with_obstypes.
  unfold bind at 1. unfold bind at 1. cbn [get_dset].
  unfold Py.getitem. rewrite Hl. reflexivity.
Qed.

(** X13: on a list of names of three characters, as the observation
    types of RINEX 3 are, [_sort_string_array] sorts by the last two
    characters: it returns the names in ascending order of their last
    two characters, every name as often as it was given, and names
    with the same last two characters in the order they had.  The list
    of the system in the metadata of the dataset is that result
    afterwards; the figures and the log are left as they are.  For a
    system without a list the lookup of the caller raises
    [KeyError]. *)
Theorem obstypes_are_sorted_by_their_last_two_characters :
  forall (sys : string) (items : list string) (st : State),
    Py.lookup sys (meta_obstypes (dset st)) = Some items ->
    Forall (fun x => String.length x = 3) items ->
    exists sorted_,
      _sort_string_array (Obstypes sys) st
      = (inr sorted_, with_obstypes sys sorted_ st)
      /\ Py.lookup sys (meta_obstypes (dset (with_obstypes sys sorted_ st)))
         = Some sorted_
      /\ Permutation sorted_ items
      /\ StronglySorted
           (fun x y => String.leb (last_two x) (last_two y) = true) sorted_
      /\ forall k,
           filter (fun x => String.eqb (last_two x) k) sorted_
           = filter (fun x => String.eqb (last_two x) k) items.
Proof.
  intros sys items st Hl Hlen.
  exists (Py.sort_key Py.slice_m2_3 items).
  assert (Hperm : Permutation (Py.sort_key Py.slice_m2_3 items) items)
    by apply sort_by_permutation.
  assert (Hthree : forall x, In x (Py.sort_key Py.slice_m2_3 items) ->
                             Py.slice_m2_3 x = last_two x).
  { intros x Hx. apply slice_of_three.
    rewrite Forall_forall in Hlen. apply Hlen.
    now apply (Permutation_in _ Hperm). }
  split; [now apply _sort_string_array_runs|].
  split; [|split; [exact Hperm | split]].
  - unfold with_obstypes. cbn [dset meta_obstypes with_meta_obstypes].
    rewrite lookup_setitem. now rewrite String.eqb_refl.
  - apply (StronglySorted_impl_in
             (fun x y => String.leb (Py.slice_m2_3 x) (Py.slice_m2_3 y) = true)).
    + intros x y Hx Hy. now rewrite (Hthree x Hx), (Hthree y Hy).
    + apply sort_key_sorted.
  - intros k.
    assert (Hsame : forall l,
              (forall x, In x l -> Py.slice_m2_3 x = last_two x) ->
              filter (fun x => String.eqb (last_two x) k) l
              = filter (fun x => String.eqb (Py.slice_m2_3 x) k) l).
    { intros l Hin. apply filter_ext_in. intros x Hx. now rewrite (Hin x Hx). }
    rewrite (Hsame _ Hthree), sort_key_stable. symmetry. apply Hsame.
    intros x Hx. apply slice_of_three.
    rewrite Forall_forall in Hlen. now apply Hlen.
Qed.

(** The observation types of GPS: 1C before 2W, and C, S, L of 1C in
    the order they were given. *)
Lemma obstypes_are_sorted_by_their_last_two_characters_witness :
  fst (_sort_string_array (Obstypes "G") (start rinex_obstypes))
  = inr ["C1C"; "S1C"; "L1C"; "L2W"; "C2W"]
  /\ fst (_sort_string_array (Obstypes "R") (start rinex_obstypes))
     = inl (KeyError "R").
Proof.
  destruct (obstypes_are_sorted_by_their_last_two_characters "G"
              ["L2W"; "C1C"; "S1C"; "C2W"; "L1C"] (start rinex_obstypes)
              eq_refl)
    as (sorted_ & Hrun & _).
  { repeat constructor. }
  split; [|reflexivity].
  rewrite Hrun. cbn [fst].
  rewrite _sort_string_array_runs with (items := ["L2W"; "C1C"; "S1C"; "C2W"; "L1C"])
    in Hrun by reflexivity.
  injection Hrun as <- _. reflexivity.
Defined.

Lemma setitem_same {V} (k : string) (v : V) (m : list (string * V)) :
  Py.lookup k m = Some v -> Py.setitem m k v = m.
Proof.
  induction m as [|[k0 v0] m IH]; cbn; [discriminate|].
  destruct (String.eqb k k0); [now intros [= ->] | intros H; now rewrite IH].
Qed.

(** X14: the key of [_sort_string_array] is [x[-2:3]], which is empty
    for every name of five characters or more.  A list of such names is
    returned in the order it was given, and the dataset is left as it
    is. *)
Theorem longer_names_are_not_sorted :
  forall (sys : string) (items : list string) (st : State),
    Py.lookup sys (meta_obstypes (dset st)) = Some items ->
    Forall (fun x => 5 <= String.length x) items ->
    Forall (fun x => Py.slice_m2_3 x = "") items
    /\ _sort_string_array (Obstypes sys) st = (inr items, st).
Proof.
  intros sys items st Hl Hlen.
  assert (Hkey : Forall (fun x => Py.slice_m2_3 x = "") items).
  { revert Hlen. apply Forall_impl. intros x. apply slice_of_five. }
  split; [exact Hkey|].
  rewrite (_sort_string_array_runs sys items st Hl).
  assert (Hsame : Py.sort_key Py.slice_m2_3 items = items).
  { unfold Py.sort_key. apply sort_by_of_sorted.
    clear - Hkey. induction Hkey as [|x l Hx Hl IH]; constructor; [exact IH|].
    destruct Hl as [|y l Hy _]; constructor.
    unfold le_prop. now rewrite Hx, Hy. }
  rewrite Hsame. f_equal. unfold with_obstypes.
  rewrite (setitem_same _ _ _ Hl).
  destruct st as [d p lg]. cbn [dset plots logged]. f_equal. now destruct d.
Qed.

(** The names of Galileo in [rinex_obstypes] stay as they are, although
    "codes" goes before "phase" by its last two characters. *)
Lemma longer_names_are_not_sorted_witness :
  _sort_string_array (Obstypes "E") (start rinex_obstypes)
  = (inr ["phase"; "codes"], start rinex_obstypes)
  /\ String.ltb "es" "se" = true.
Proof.
  split; [|reflexivity].
  apply (longer_names_are_not_sorted "E" ["phase"; "codes"]
           (start rinex_obstypes) eq_refl).
  repeat constructor.
Defined.

(** ** [plot_skyplot] *)

(** [a[mask] = f(a[mask])] with the mask [p(a)] changes the entries
    that satisfy [p], each by [f]. *)
Lemma put_mask_map {A} (p : A -> bool) (f : A -> A) (a : list A) :
  Py.put_mask (map p a) a (map f (Py.take_mask (map p a) a))
  = map (fun x => if p x then f x else x) a.
Proof.
  induction a as [|x a IH]; cbn [map Py.put_mask Py.take_mask]; [reflexivity|].
  destruct (p x); cbn [map]; now rewrite IH.
Qed.

Lemma azimuth_wrapped_from_zero (d : Dataset) :
  azimuth_wrapped d = map from_zero (azimuth (site_pos d)).
Proof. unfold azimuth_wrapped. cbv zeta. apply put_mask_map. Qed.

Lemma Forall2_single {X} (Q : X -> PlotCall -> Prop) (xs : list X)
    (cl : list (list PlotCall)) :
  Forall2 (fun x cs => exists call, cs = [call] /\ Q x call) xs cl ->
  Forall2 Q xs (concat cl).
Proof.
  induction 1 as [|x cs xs cl (call & -> & Hq) _ IH]; cbn; now constructor.
Qed.

Lemma flat_map_unit {X Y} (f : X -> Y) (xs : list X) :
  flat_map (fun x => [f x]) xs = map f xs.
Proof. induction xs as [|x xs IH]; cbn; [reflexivity | now rewrite IH]. Qed.

Lemma sorted_unique_In (x : string) (l : list string) :
  In x (Py.sorted (Py.unique l)) <-> In x l.
Proof. unfold Py.sorted. rewrite sort_by_In. apply In_unique. Qed.

Section Skyplot.

Variable figure_dir : string.
Variable gnss_id_to_name : list (string * EnumMember).
Variable azimuth_shared : bool.
Variable figure_name : string.
Variable d : Dataset.

Lemma plot_skyplot_system_exact (sys : string) :
  Py.lookup sys gnss_id_to_name <> None ->
  exists cs,
    (exists call, cs = [call] /\ skyplot_of figure_dir figure_name d sys call)
    /\ forall acc st,
         dset st = skyplot_dataset azimuth_shared d ->
         plot_skyplot_system figure_dir gnss_id_to_name figure_name
           (map from_zero (azimuth (site_pos d)))
           (map Float.rad2deg (zenith_distance (site_pos d))) acc sys st
         = (inr (acc ++ [system_path figure_dir figure_name sys]),
            {| dset := skyplot_dataset azimuth_shared d;
               plots := plots st ++ cs;
               logged := logged st ++ [] |}).
Proof.
  intros Hnamed.
  destruct (Py.lookup sys gnss_id_to_name) as [member|] eqn:Hm; [|now elim Hnamed].
  assert (Hsat : satellite (skyplot_dataset azimuth_shared d) = satellite d)
    by (unfold skyplot_dataset; now destruct azimuth_shared).
  eexists. split.
  2:{ intros acc st Hd. unfold plot_skyplot_system. cbv zeta.
      unfold bind at 1.
      rewrite (satellite_series_total sys _ _
                 (map Num (map Float.rad2deg (zenith_distance (site_pos d)))))
        by reflexivity.
      rewrite Hd. unfold satellites_of. rewrite Hsat.
      unfold bind at 1. unfold Py.getitem at 1. rewrite Hm.
      unfold bind, plot, modify, ret. cbn [dset plots logged fst snd].
      rewrite Hd, (app_nil_r (logged st)). reflexivity. }
  eexists. split; [reflexivity|].
  unfold skyplot_of, series_of, satellites_of.
  cbn [figure_path labels x_arrays y_arrays]. repeat split.
Qed.

Lemma plot_skyplot_exact :
  systems_named gnss_id_to_name d ->
  exists calls,
    Forall2 (skyplot_of figure_dir figure_name d)
      (Py.sorted (Py.unique (system d))) calls
    /\ forall st,
         dset st = d ->
         plot_skyplot figure_dir gnss_id_to_name azimuth_shared figure_name st
         = (inr (map (system_path figure_dir figure_name)
                   (Py.sorted (Py.unique (system d)))),
            {| dset := skyplot_dataset azimuth_shared d;
               plots := plots st ++ calls;
               logged := logged st |}).
Proof.
  intros Hnamed.
  destruct (loop_exact (skyplot_dataset azimuth_shared d)
              (plot_skyplot_system figure_dir gnss_id_to_name figure_name
                 (map from_zero (azimuth (site_pos d)))
                 (map Float.rad2deg (zenith_distance (site_pos d))))
              (fun sys => Py.lookup sys gnss_id_to_name <> None)
              (fun sys => [system_path figure_dir figure_name sys])
              (fun _ => [])
              (fun sys cs =>
                 exists call, cs = [call]
                              /\ skyplot_of figure_dir figure_name d sys call)
              plot_skyplot_system_exact
              (Py.sorted (Py.unique (system d))))
    as (cl & HP & Hloop).
  { apply Forall_forall. intros sys Hsys. apply Hnamed.
    now apply sorted_unique_In. }
  exists (concat cl). split; [now apply Forall2_single|].
  intros st Hd. unfold plot_skyplot. cbv zeta.
  unfold bind at 1. cbn [get_dset]. rewrite Hd.
  fold (azimuth_wrapped d). rewrite azimuth_wrapped_from_zero.
  unfold bind at 1.
  assert (Hstep :
    (if azimuth_shared
     then modify (set_dset (with_azimuth (map from_zero (azimuth (site_pos d)))))
     else ret tt) st
    = (inr tt, {| dset := skyplot_dataset azimuth_shared d;
                  plots := plots st; logged := logged st |})).
  { unfold skyplot_dataset. rewrite azimuth_wrapped_from_zero.
    destruct azimuth_shared; unfold modify, set_dset, ret.
    - now rewrite Hd.
    - destruct st; cbn in *; now subst. }
  rewrite Hstep. unfold bind at 1. cbn [get_dset dset].
  replace (system (skyplot_dataset azimuth_shared d)) with (system d)
    by (unfold skyplot_dataset; now destruct azimuth_shared).
  replace (zenith_distance (site_pos (skyplot_dataset azimuth_shared d)))
    with (zenith_distance (site_pos d))
    by (unfold skyplot_dataset; now destruct azimuth_shared).
  rewrite Hloop by reflexivity. cbn [plots logged app].
  rewrite (flat_map_nil (fun _ : string => @nil (level * string)))
    by reflexivity.
  rewrite app_nil_r, flat_map_unit. reflexivity.
Qed.

End Skyplot.

Lemma for_fold_app {A B} (body : B -> A -> M State B) (xs ys : list A)
    (acc : B) (st : State) :
  for_fold (xs ++ ys) acc body st
  = match for_fold xs acc body st with
    | (inl e, st') => (inl e, st')
    | (inr acc', st') => for_fold ys acc' body st'
    end.
Proof.
  revert acc st. induction xs as [|x xs IH]; intros acc st; cbn [app for_fold].
  - reflexivity.
  - unfold bind. destruct (body acc x st) as [[e|acc'] st']; [reflexivity|].
    apply IH.
Qed.

(** X15: when every system of the dataset has a name in
    [enums.gnss_id_to_name], [plot_skyplot] returns the paths of the
    systems in ascending order, one figure handed over for each.  The
    figure of a system shows, for each of its satellites, the azimuths
    with [2 * pi] added to the negative ones against the zenith
    distances in degrees.  Nothing is logged, and the dataset is left
    with the azimuths so changed when the array is shared. *)
Theorem skyplot_of_named_systems :
  forall (figure_dir : string) (gnss_id_to_name : list (string * EnumMember))
         (azimuth_shared : bool) (figure_name : string) (st : State),
    systems_named gnss_id_to_name (dset st) ->
    let d := dset st in
    let systems := Py.sorted (Py.unique (system d)) in
    exists calls,
      plot_skyplot figure_dir gnss_id_to_name azimuth_shared figure_name st
      = (inr (map (system_path figure_dir figure_name) systems),
         {| dset := skyplot_dataset azimuth_shared d;
            plots := plots st ++ calls;
            logged := logged st |})
      /\ Forall2 (skyplot_of figure_dir figure_name d) systems calls
      /\ azimuth (site_pos (skyplot_dataset true d))
         = map from_zero (azimuth (site_pos d))
      /\ skyplot_dataset false d = d.
Proof.
  intros figure_dir gnss_id_to_name azimuth_shared figure_name st Hnamed d
    systems.
  destruct (plot_skyplot_exact figure_dir gnss_id_to_name azimuth_shared
              figure_name d Hnamed) as (calls & Hshown & Hrun).
  exists calls. split; [now apply Hrun|]. split; [exact Hshown|].
  split; [|reflexivity].
  unfold skyplot_dataset. cbn [with_azimuth site_pos azimuth].
  apply azimuth_wrapped_from_zero.
Qed.

(** The azimuth -1 of G01 is shown as -1 + 2 pi, the azimuth 1 of E01
    as it is. *)
Lemma skyplot_of_named_systems_witness :
  let run := plot_skyplot "figures" two_names false
               "plot_skyplot_{system}.{FIGURE_FORMAT}"
               (start (with_azimuth [f1; Float.of_Z (-1)] two_systems)) in
  fst run = inr ["figures/plot_skyplot_E.png"; "figures/plot_skyplot_G.png"]
  /\ map x_arrays (plots (snd run))
     = [ [[Num f1]]; [[Num (Float.add two_pi (Float.of_Z (-1)))]] ]
  /\ logged (snd run) = [].
Proof.
  destruct (skyplot_of_named_systems "figures" two_names false
              "plot_skyplot_{system}.{FIGURE_FORMAT}"
              (start (with_azimuth [f1; Float.of_Z (-1)] two_systems)))
    as (calls & Hrun & Hshown & _).
  { intros sys [<-|[<-|[]]]; discriminate. }
  cbv zeta. rewrite Hrun. cbn [fst snd plots logged start app].
  split; [reflexivity|]. split; [|reflexivity].
  clear Hrun. revert Hshown.
  change (Py.sorted (Py.unique (system (dset (start (with_azimuth
            [f1; Float.of_Z (-1)] two_systems)))))) with ["E"; "G"].
  intros Hshown.
  inversion Hshown as [|? c1 ? ? (_ & _ & Hx1 & _) Hrest]; subst.
  inversion Hrest as [|? c2 ? ? (_ & _ & Hx2 & _) Hnil]; subst.
  inversion Hnil; subst. cbn [map]. rewrite Hx1, Hx2. reflexivity.
Defined.

(** X16: [plot_skyplot] stops at the first system, in ascending order,
    that has no name in [enums.gnss_id_to_name]: it raises [KeyError]
    for that system after the figures of the systems before it have
    been handed over, and after the azimuths of a shared array have
    been changed. *)
Theorem skyplot_stops_at_the_first_system_without_a_name :
  forall (figure_dir : string) (gnss_id_to_name : list (string * EnumMember))
         (azimuth_shared : bool) (figure_name : string) (st : State)
         (before after : list string) (sys : string),
    Py.sorted (Py.unique (system (dset st))) = before ++ sys :: after ->
    Forall (fun s => Py.lookup s gnss_id_to_name <> None) before ->
    Py.lookup sys gnss_id_to_name = None ->
    let d := dset st in
    exists calls,
      plot_skyplot figure_dir gnss_id_to_name azimuth_shared figure_name st
      = (inl (KeyError sys),
         {| dset := skyplot_dataset azimuth_shared d;
            plots := plots st ++ calls;
            logged := logged st |})
      /\ Forall2 (skyplot_of figure_dir figure_name d) before calls.
Proof.
  intros figure_dir gnss_id_to_name azimuth_shared figure_name st before
    after sys Hsystems Hnamed Hnone d.
  destruct (loop_exact (skyplot_dataset azimuth_shared d)
              (plot_skyplot_system figure_dir gnss_id_to_name figure_name
                 (map from_zero (azimuth (site_pos d)))
                 (map Float.rad2deg (zenith_distance (site_pos d))))
              (fun sys => Py.lookup sys gnss_id_to_name <> None)
              (fun sys => [system_path figure_dir figure_name sys])
              (fun _ => [])
              (fun sys cs =>
                 exists call, cs = [call]
                              /\ skyplot_of figure_dir figure_name d sys call)
              (plot_skyplot_system_exact figure_dir gnss_id_to_name
                 azimuth_shared figure_name d)
              before Hnamed)
    as (cl & HP & Hloop).
  exists (concat cl). split; [|now apply Forall2_single].
  unfold plot_skyplot. cbv zeta.
  unfold bind at 1. cbn [get_dset]. fold d.
  fold (azimuth_wrapped d). rewrite azimuth_wrapped_from_zero.
  unfold bind at 1.
  assert (Hstep :
    (if azimuth_shared
     then modify (set_dset (with_azimuth (map from_zero (azimuth (site_pos d)))))
     else ret tt) st
    = (inr tt, {| dset := skyplot_dataset azimuth_shared d;
                  plots := plots st; logged := logged st |})).
  { unfold skyplot_dataset. rewrite azimuth_wrapped_from_zero.
    destruct azimuth_shared; unfold modify, set_dset, ret.
    - reflexivity.
    - subst d. now destruct st. }
  rewrite Hstep. unfold bind at 1. cbn [get_dset dset].
  replace (system (skyplot_dataset azimuth_shared d)) with (system d)
    by (unfold skyplot_dataset; now destruct azimuth_shared).
  replace (zenith_distance (site_pos (skyplot_dataset azimuth_shared d)))
    with (zenith_distance (site_pos d))
    by (unfold skyplot_dataset; now destruct azimuth_shared).
  subst d. rewrite Hsystems, for_fold_app, Hloop by reflexivity.
  cbn [plots logged app for_fold].
  rewrite (flat_map_nil (fun _ : string => @nil (level * string)))
    by reflexivity.
  rewrite app_nil_r.
  unfold bind at 1. unfold plot_skyplot_system at 1. cbv zeta.
  unfold bind at 1.
  rewrite (satellite_series_total sys _ _
             (map Num (map Float.rad2deg
                         (zenith_distance (site_pos (dset st))))))
    by reflexivity.
  unfold bind at 1. unfold Py.getitem at 1. rewrite Hnone. reflexivity.
Qed.

(** With GPS and GLONASS, of which GPS alone has a name, the figure of
    GPS is handed over before [KeyError] is raised for GLONASS. *)
Lemma skyplot_stops_at_the_first_system_without_a_name_witness :
  let run := plot_skyplot "figures" two_names true
               "plot_skyplot_{system}.{FIGURE_FORMAT}" (start with_glonass) in
  fst run = inl (KeyError "R")
  /\ map figure_path (plots (snd run)) = ["figures/plot_skyplot_G.png"]
  /\ azimuth (site_pos (dset (snd run)))
     = [f1; Float.add two_pi (Float.of_Z (-1))].
Proof.
  destruct (skyplot_stops_at_the_first_system_without_a_name "figures"
              two_names true "plot_skyplot_{system}.{FIGURE_FORMAT}"
              (start with_glonass) ["G"] [] "R" eq_refl)
    as (calls & Hrun & Hshown).
  { repeat constructor. discriminate. }
  { reflexivity. }
  cbv zeta. rewrite Hrun. cbn [fst snd plots dset start app].
  split; [reflexivity|]. split; [|reflexivity].
  inversion Hshown as [|? c1 ? ? (Hp & _) Hnil]; subst.
  inversion Hnil; subst. cbn [map]. rewrite Hp. reflexivity.
Defined.

(** ** Methods with one figure for all systems *)

Lemma run_ret {A} (a : A) (st : State) : ret a st = (inr a, st).
Proof. reflexivity. Qed.

Lemma run_get_dset {A} (f : Dataset -> M State A) (st : State) :
  bind get_dset f st = f (dset st) st.
Proof. reflexivity. Qed.

Lemma run_getitem {V A} (m : list (string * V)) (k : string)
    (f : V -> M State A) (st : State) :
  bind (Py.getitem m k) f st
  = match Py.lookup k m with
    | Some v => f v st
    | None => (inl (KeyError k), st)
    end.
Proof. unfold bind, Py.getitem. now destruct (Py.lookup k m). Qed.

Section Named.

Variable gnss_id_to_name : list (string * EnumMember).
Variable get_number_of_satellites :
  list string -> list string -> list datetime -> list Float.float.

Lemma plot_number_of_satellites_loop_exact (syss : list string)
    (acc : list (list cell) * list (list cell) * list string) (st : State) :
  for_fold syss acc
    (fun acc sys =>
       bind get_dset (fun d =>
         bind (Py.getitem gnss_id_to_name sys) (fun member =>
           ret (fst (fst acc)
                ++ [Py.take_mask (mask_eq (system d) sys) (gps_time d)],
                snd (fst acc)
                ++ [map Num
                      (get_number_of_satellites
                         (Py.take_mask (mask_eq (system d) sys) (system d))
                         (Py.take_mask (mask_eq (system d) sys) (satellite d))
                         (Py.take_mask (mask_eq (system d) sys)
                            (time_gps_datetime d)))],
                snd acc ++ [value_ member])))) st
  = match first_unnamed gnss_id_to_name syss with
    | Some sys => (inl (KeyError sys), st)
    | None =>
        (inr (fst (fst acc)
              ++ map (rows_of_system (dset st) (gps_time (dset st))) syss,
              snd (fst acc)
              ++ map (satellites_counted get_number_of_satellites (dset st)) syss,
              snd acc ++ map (name_of gnss_id_to_name) syss),
         st)
    end.
Proof.
  revert acc. unfold first_unnamed.
  induction syss as [|sys syss IH]; intros [[xs ys] ls];
    cbn [for_fold find map fst snd].
  - unfold ret. now rewrite !app_nil_r.
  - unfold bind at 1. rewrite run_get_dset, run_getitem.
    unfold name_of at 1.
    destruct (Py.lookup sys gnss_id_to_name) as [member|]; [|reflexivity].
    rewrite run_ret, IH. cbn [fst snd].
    destruct (find _ syss); [reflexivity|].
    now rewrite <- !app_assoc.
Qed.

Lemma plot_satellite_availability_loop_exact (system_sorted : list string)
    (time_ : list datetime) (satellite_ : list string) (syss : list string)
    (acc : list (list cell) * list (list cell) * list string) (st : State) :
  for_fold syss acc
    (fun acc sys =>
       bind (Py.getitem gnss_id_to_name sys) (fun member =>
         ret (fst (fst acc)
              ++ [map Time (Py.take_mask (mask_eq system_sorted sys) time_)],
              snd (fst acc)
              ++ [map Text (Py.take_mask (mask_eq system_sorted sys) satellite_)],
              snd acc ++ [value_ member]))) st
  = match first_unnamed gnss_id_to_name syss with
    | Some sys => (inl (KeyError sys), st)
    | None =>
        (inr (fst (fst acc)
              ++ map (fun sys => map Time (Py.take_mask (mask_eq system_sorted sys)
                                             time_)) syss,
              snd (fst acc)
              ++ map (fun sys => map Text (Py.take_mask (mask_eq system_sorted sys)
                                             satellite_)) syss,
              snd acc ++ map (name_of gnss_id_to_name) syss),
         st)
    end.
Proof.
  revert acc. unfold first_unnamed.
  induction syss as [|sys syss IH]; intros [[xs ys] ls];
    cbn [for_fold find map fst snd].
  - unfold ret. now rewrite !app_nil_r.
  - unfold bind at 1. rewrite run_getitem. unfold name_of at 1.
    destruct (Py.lookup sys gnss_id_to_name) as [member|]; [|reflexivity].
    rewrite run_ret, IH. cbn [fst snd].
    destruct (find _ syss); [reflexivity|].
    now rewrite <- !app_assoc.
Qed.

End Named.

Lemma sorted_length (l : list string) :
  List.length (Py.sorted l) = List.length l.
Proof. apply Permutation_length, sort_by_permutation. Qed.

(** X17: [plot_number_of_satellites] logs the path of the figure and
    then looks up the name of every system of the dataset, in ascending
    order.  It raises [KeyError] for the first system without a name in
    [enums.gnss_id_to_name], and has then handed no figure over;
    otherwise it returns the path after handing over one figure with,
    for each system in ascending order, the times of its observations,
    the numbers the collaborator counts for them and the name of the
    system as label, and with one column of the legend for each
    system. *)
Theorem number_of_satellites_needs_a_name_for_every_system :
  forall (figure_dir : string) (gnss_id_to_name : list (string * EnumMember))
         (get_number_of_satellites :
            list string -> list string -> list datetime -> list Float.float)
         (figure_name : string) (st : State),
    let d := dset st in
    let systems := Py.sorted (Py.unique (system d)) in
    let path := format_path figure_dir figure_name in
    let run := plot_number_of_satellites figure_dir gnss_id_to_name
                 get_number_of_satellites figure_name st in
    dset (snd run) = d
    /\ logged (snd run) = logged st ++ [debug_plot path]
    /\ match first_unnamed gnss_id_to_name systems with
       | Some sys => fst run = inl (KeyError sys) /\ plots (snd run) = plots st
       | None =>
           fst run = inr path
           /\ exists call,
                plots (snd run) = plots st ++ [call]
                /\ figure_path call = path
                /\ x_arrays call = map (rows_of_system d (gps_time d)) systems
                /\ y_arrays call
                   = map (satellites_counted get_number_of_satellites d) systems
                /\ labels call = Some (map (name_of gnss_id_to_name) systems)
                /\ Py.lookup "legend_ncol" (opt_args call)
                   = Some (VInt (Z.of_nat (List.length systems)))
       end.
Proof.
  intros figure_dir gnss_id_to_name get_number_of_satellites figure_name st
    d systems path run.
  eassert (Hrun : run = match first_unnamed gnss_id_to_name systems with
                        | Some sys => (inl (KeyError sys), _)
                        | None => (inr path, _)
                        end).
  { subst run. unfold plot_number_of_satellites. cbv zeta.
    unfold bind at 1. cbn [log_debug modify].
    unfold bind at 1. cbn [get_dset dset].
    unfold bind at 1. rewrite plot_number_of_satellites_loop_exact.
    fold d. fold systems.
    destruct (first_unnamed gnss_id_to_name systems) as [sys|]; [reflexivity|].
    unfold bind, get_dset, plot, modify, ret.
    cbn [fst snd dset plots logged app]. reflexivity. }
  rewrite Hrun. clear Hrun.
  destruct (first_unnamed gnss_id_to_name systems) as [sys|];
    cbn [fst snd dset plots logged].
  - repeat split.
  - split; [reflexivity|]. split; [reflexivity|]. split; [reflexivity|].
    eexists. split; [reflexivity|].
    cbn [figure_path x_arrays y_arrays labels opt_args].
    split; [reflexivity|]. split; [reflexivity|]. split; [reflexivity|].
    split; [reflexivity|].
    cbn. unfold systems. now rewrite sorted_length.
Qed.

(** X18: [plot_satellite_availability] looks up the name of every
    system, in descending order, although it hands no labels over: it
    raises [KeyError] for the first system without a name, and has then
    handed no figure over.  Otherwise it returns the path after handing
    over one figure without labels that shows, for each system in
    descending order, the observations of that system in the rows of
    [_sort_by_satellite]: their times and the names of their
    satellites. *)
Theorem satellite_availability_needs_a_name_for_every_system :
  forall (figure_dir : string) (gnss_id_to_name : list (string * EnumMember))
         (figure_name : string) (st : State),
    let d := dset st in
    let systems := Py.sorted_reverse (Py.unique (system d)) in
    let path := format_path figure_dir figure_name in
    let sorted_ := sort_by_satellite_of d in
    let run := plot_satellite_availability figure_dir gnss_id_to_name
                 figure_name st in
    dset (snd run) = d
    /\ logged (snd run) = logged st ++ [debug_plot path]
    /\ match first_unnamed gnss_id_to_name systems with
       | Some sys => fst run = inl (KeyError sys) /\ plots (snd run) = plots st
       | None =>
           fst run = inr path
           /\ exists call,
                plots (snd run) = plots st ++ [call]
                /\ figure_path call = path
                /\ labels call = None
                /\ x_arrays call
                   = map (fun sys =>
                            map Time (Py.take_mask (mask_eq (snd sorted_) sys)
                                        (fst (fst sorted_)))) systems
                /\ y_arrays call
                   = map (fun sys =>
                            map Text (Py.take_mask (mask_eq (snd sorted_) sys)
                                        (snd (fst sorted_)))) systems
       end.
Proof.
  intros figure_dir gnss_id_to_name figure_name st d systems path sorted_ run.
  eassert (Hrun : run = match first_unnamed gnss_id_to_name systems with
                        | Some sys => (inl (KeyError sys), _)
                        | None => (inr path, _)
                        end).
  { subst run. unfold plot_satellite_availability. cbv zeta.
    unfold bind at 1. cbn [log_debug modify].
    unfold bind at 1. rewrite _sort_by_satellite_returns. cbn [dset].
    unfold bind at 1. cbn [get_dset dset].
    unfold bind at 1. rewrite plot_satellite_availability_loop_exact.
    fold d. fold systems. fold sorted_.
    destruct (first_unnamed gnss_id_to_name systems) as [sys|]; [reflexivity|].
    unfold bind, get_dset, plot, modify, ret.
    cbn [fst snd dset plots logged app]. reflexivity. }
  rewrite Hrun. clear Hrun.
  destruct (first_unnamed gnss_id_to_name systems) as [sys|];
    cbn [fst snd dset plots logged].
  - repeat split.
  - split; [reflexivity|]. split; [reflexivity|]. split; [reflexivity|].
    eexists. split; [reflexivity|]. repeat split.
Qed.

(** ** [plot_satellite_elevation] *)

Section Elevation.

Variable figure_dir : string.
Variable gnss_id_to_name : list (string * EnumMember).
Variable figure_name : string.
Variable d : Dataset.
Variable day_start day_end : datetime.

Lemma plot_satellite_elevation_system_exact (sys : string) :
  Py.lookup sys gnss_id_to_name <> None ->
  exists cs,
    (exists call,
       cs = [call]
       /\ elevation_of figure_dir figure_name gnss_id_to_name d
            day_start day_end sys call)
    /\ forall acc st,
         dset st = d ->
         plot_satellite_elevation_system figure_dir gnss_id_to_name figure_name
           (map Float.rad2deg (elevation (site_pos d))) day_start day_end
           acc sys st
         = (inr (acc ++ [system_path figure_dir figure_name sys]),
            {| dset := d;
               plots := plots st ++ cs;
               logged := logged st
                         ++ [debug_plot (system_path figure_dir figure_name sys)] |}).
Proof.
  intros Hnamed.
  destruct (Py.lookup sys gnss_id_to_name) as [member|] eqn:Hm; [|now elim Hnamed].
  eexists. split.
  2:{ intros acc st Hd. unfold plot_satellite_elevation_system. cbv zeta.
      unfold bind at 1. cbn [log_debug modify].
      unfold bind at 1.
      rewrite (satellite_series_total sys _ _
                 (map Num (map Float.rad2deg (elevation (site_pos d)))))
        by reflexivity.
      cbn [dset]. rewrite Hd.
      rewrite run_getitem, Hm.
      unfold bind, plot, modify, ret. cbn [dset plots logged fst snd].
      reflexivity. }
  eexists. split; [reflexivity|].
  unfold elevation_of, series_of.
  cbn [figure_path labels x_arrays y_arrays opt_args].
  repeat split. exists member. split; [exact Hm | reflexivity].
Qed.

End Elevation.

(** X19: [plot_satellite_elevation] takes the limits of the day before
    it logs or plots anything, so on a dataset without observations it
    raises [ValueError] and leaves no trace.  On a dataset with
    observations whose systems all have a name it returns the paths of
    the systems in ascending order; for each system the path is logged
    and one figure is handed over, which shows the elevations in
    degrees of each satellite of the system against its times, between
    the least and the greatest time of the column [time.datetime], and
    has the name of the system in its title. *)
Theorem satellite_elevation_between_the_limits_of_the_day :
  forall (figure_dir : string) (gnss_id_to_name : list (string * EnumMember))
         (figure_name : string) (st : State),
    let d := dset st in
    let systems := Py.sorted (Py.unique (system d)) in
    match time_datetime d with
    | [] =>
        exists msg,
          plot_satellite_elevation figure_dir gnss_id_to_name figure_name st
          = (inl (ValueError msg), st)
    | t :: ts =>
        systems_named gnss_id_to_name d ->
        exists calls,
          plot_satellite_elevation figure_dir gnss_id_to_name figure_name st
          = (inr (map (system_path figure_dir figure_name) systems),
             {| dset := d;
                plots := plots st ++ calls;
                logged :=
                  logged st
                  ++ map (fun sys =>
                            debug_plot (system_path figure_dir figure_name sys))
                       systems |})
          /\ Forall2 (elevation_of figure_dir figure_name gnss_id_to_name d
                        (fold_left Z.min ts t) (fold_left Z.max ts t))
               systems calls
    end.
Proof.
  intros figure_dir gnss_id_to_name figure_name st d systems.
  assert (Hlimits : _get_day_limits st
            = match time_datetime d with
              | [] => (inl (ValueError "min() arg is an empty sequence"), st)
              | t :: ts => (inr (fold_left Z.min ts t, fold_left Z.max ts t), st)
              end).
  { unfold _get_day_limits, bind, get_dset, raise, ret. fold d.
    now destruct (time_datetime d). }
  unfold plot_satellite_elevation. cbv zeta.
  destruct (time_datetime d) as [|t ts].
  - eexists. rewrite run_get_dset. unfold bind at 1. now rewrite Hlimits.
  - intros Hnamed. rewrite run_get_dset. unfold bind at 1. rewrite Hlimits.
    rewrite run_get_dset. cbn [fst snd]. fold d. fold systems.
    destruct (loop_exact d
                (plot_satellite_elevation_system figure_dir gnss_id_to_name
                   figure_name (map Float.rad2deg (elevation (site_pos d)))
                   (fold_left Z.min ts t) (fold_left Z.max ts t))
                (fun sys => Py.lookup sys gnss_id_to_name <> None)
                (fun sys => [system_path figure_dir figure_name sys])
                (fun sys => [debug_plot (system_path figure_dir figure_name sys)])
                (fun sys cs =>
                   exists call,
                     cs = [call]
                     /\ elevation_of figure_dir figure_name gnss_id_to_name d
                          (fold_left Z.min ts t) (fold_left Z.max ts t) sys call)
                (plot_satellite_elevation_system_exact figure_dir
                   gnss_id_to_name figure_name d
                   (fold_left Z.min ts t) (fold_left Z.max ts t))
                systems)
      as (cl & HP & Hloop).
    { apply Forall_forall. intros sys Hsys. apply Hnamed.
      now apply sorted_unique_In. }
    exists (concat cl). split; [|now apply Forall2_single].
    rewrite Hloop by reflexivity. cbn [app].
    now rewrite !flat_map_unit.
Qed.

(** With the two systems of [two_systems], and without observations. *)
Lemma satellite_elevation_between_the_limits_of_the_day_witness :
  fst (plot_satellite_elevation "figures" two_names
         "plot_satellite_elevation_{system}.{FIGURE_FORMAT}" (start two_systems))
  = inr [ "figures/plot_satellite_elevation_E.png";
          "figures/plot_satellite_elevation_G.png" ]
  /\ exists msg,
       plot_satellite_elevation "figures" two_names
         "plot_satellite_elevation_{system}.{FIGURE_FORMAT}"
         (start no_observation)
       = (inl (ValueError msg), start no_observation).
Proof.
  split.
  - destruct (satellite_elevation_between_the_limits_of_the_day "figures"
                two_names "plot_satellite_elevation_{system}.{FIGURE_FORMAT}"
                (start two_systems)) as (calls & Hrun & _).
    + intros sys [<-|[<-|[]]]; discriminate.
    + rewrite Hrun. reflexivity.
  - exact (satellite_elevation_between_the_limits_of_the_day "figures"
             two_names "plot_satellite_elevation_{system}.{FIGURE_FORMAT}"
             (start no_observation)).
Defined.

(** ** Templates without a placeholder *)

Lemma system_path_without_placeholder (figure_dir figure_name sys : string) :
  RowNotions.occurs "{system}" figure_name = false ->
  system_path figure_dir figure_name sys = format_path figure_dir figure_name.
Proof.
  intros H. unfold system_path, format_path. unfold Py.replace at 2.
  now rewrite RowFacts.replace_no_occurrence.
Qed.

Lemma paths_without_placeholder (figure_dir figure_name : string)
    (systems : list string) :
  RowNotions.occurs "{system}" figure_name = false ->
  map (system_path figure_dir figure_name) systems
  = repeat (format_path figure_dir figure_name) (List.length systems).
Proof.
  intros H. induction systems as [|sys systems IH]; cbn; [reflexivity|].
  now rewrite IH, system_path_without_placeholder.
Qed.

(** X20: the figures of the systems are told apart by the placeholder
    [{system}] of the name of the figure alone.  With a name that does
    not hold it, [plot_skyplot], [plot_satellite_elevation] and
    [plot_obstype_availability], when they return, return the same path
    once for each system of the dataset, and every figure they hand
    over has that path. *)
Theorem figures_share_a_path_without_the_placeholder :
  forall (figure_dir : string) (gnss_id_to_name : list (string * EnumMember))
         (azimuth_shared : bool) (figure_name : string) (st : State),
    RowNotions.occurs "{system}" figure_name = false ->
    let path := format_path figure_dir figure_name in
    let n := List.length (Py.unique (system (dset st))) in
    let same r st' :=
      r = repeat path n
      /\ exists calls,
           plots st' = plots st ++ calls
           /\ List.length calls = n
           /\ Forall (fun call => figure_path call = path) calls in
    (forall r st',
       plot_skyplot figure_dir gnss_id_to_name azimuth_shared figure_name st
       = (inr r, st') -> same r st')
    /\ (forall r st',
          plot_satellite_elevation figure_dir gnss_id_to_name figure_name st
          = (inr r, st') -> same r st')
    /\ (forall r st',
          plot_obstype_availability figure_dir figure_name st = (inr r, st') ->
          same r st').
Proof.
  intros figure_dir gnss_id_to_name azimuth_shared figure_name st Hnone
    path n same.
  assert (Hn : List.length (Py.sorted (Py.unique (system (dset st)))) = n)
    by apply sorted_length.
  assert (Hshown : forall (shows : string -> PlotCall -> Prop) calls,
            (forall sys call, shows sys call ->
               figure_path call = system_path figure_dir figure_name sys) ->
            Forall2 shows (Py.sorted (Py.unique (system (dset st)))) calls ->
            List.length calls = n
            /\ Forall (fun call => figure_path call = path) calls).
  { intros shows calls Hpath H. rewrite <- Hn. clear Hn. split.
    - symmetry. eapply Forall2_length, H.
    - induction H as [|sys call syss calls Hc _ IH]; constructor; [|exact IH].
      rewrite (Hpath _ _ Hc). now apply system_path_without_placeholder. }
  assert (Hpaths : map (system_path figure_dir figure_name)
                     (Py.sorted (Py.unique (system (dset st))))
                   = repeat path n).
  { rewrite <- Hn. now apply paths_without_placeholder. }
  split; [|split]; intros r st' Hrun.
  - apply (plot_skyplot_returns _ _ _ (dset st)) in Hrun
      as (-> & calls & Hplots & Hcalls); [|reflexivity].
    split; [exact Hpaths|]. exists calls. split; [exact Hplots|].
    apply (Hshown _ calls (fun sys call H => proj1 H) Hcalls).
  - apply (plot_satellite_elevation_returns _ _ _ (dset st)) in Hrun
      as (-> & calls & Hplots & Hcalls); [|reflexivity].
    split; [exact Hpaths|]. exists calls. split; [exact Hplots|].
    apply (Hshown _ calls (fun sys call H => proj1 H) Hcalls).
  - apply (plot_obstype_availability_returns _ _ (dset st)) in Hrun
      as (-> & calls & Hplots & Hcalls); [|reflexivity].
    split; [exact Hpaths|]. exists calls. split; [exact Hplots|].
    apply (Hshown _ calls (fun sys call H => proj1 H) Hcalls).
Qed.

(** With the name ["skyplot.png"] the figures of E and of G go to the
    same file. *)
Lemma figures_share_a_path_without_the_placeholder_witness :
  fst (plot_skyplot "figures" two_names false "skyplot.png" (start two_systems))
  = inr ["figures/skyplot.png"; "figures/skyplot.png"].
Proof.
  destruct (figures_share_a_path_without_the_placeholder "figures" two_names
              false "skyplot.png" (start two_systems) eq_refl) as (Hsky & _).
  destruct (plot_skyplot "figures" two_names false "skyplot.png"
              (start two_systems)) as [[e|r] st'] eqn:Hrun;
    [vm_compute in Hrun; discriminate|].
  destruct (Hsky r st' eq_refl) as [-> _]. reflexivity.
Defined.

(** ** A field that does not exist *)



(** ** The names and labels of [plot_linear_combinations] *)

Lemma split_not_nil (sep : ascii) (s : string) : Py.split sep s <> [].
Proof.
  destruct s as [|c s]; cbn; [discriminate|].
  destruct (Ascii.eqb c sep); [discriminate|].
  destruct (Py.split sep s); discriminate.
Qed.

(** [sep.join(s.split(sep))] is [s]. *)
Lemma join_split (sep : ascii) (s : string) :
  Py.join (String sep "") (Py.split sep s) = s.
Proof.
  unfold Py.join. induction s as [|c s IH]; [reflexivity|].
  cbn [Py.split]. destruct (Ascii.eqb_spec c sep) as [->|Hne].
  - pose proof (split_not_nil sep s) as Hnil.
    destruct (Py.split sep s) as [|w ws]; [contradiction|].
    cbn [String.concat]. cbn [String.concat] in IH. now rewrite IH.
  - pose proof (split_not_nil sep s) as Hnil.
    destruct (Py.split sep s) as [|w ws]; [contradiction|].
    destruct ws as [|w' ws]; cbn [String.concat] in *; now rewrite <- IH.
Qed.

(** No part of [s.split(sep)] holds the separator. *)
Lemma split_parts (sep : ascii) (s : string) :
  Forall (fun part => RowNotions.occurs (String sep "") part = false)
    (Py.split sep s).
Proof.
  induction s as [|c s IH]; cbn [Py.split].
  - repeat constructor.
  - destruct (Ascii.eqb_spec c sep) as [->|Hne].
    + constructor; [reflexivity | exact IH].
    + pose proof (split_not_nil sep s) as Hnil.
      destruct (Py.split sep s) as [|w ws]; [contradiction|].
      inversion IH as [|? ? Hw Hws]; subst. constructor; [|exact Hws].
      cbn [RowNotions.occurs String.prefix].
      destruct (ascii_dec sep c) as [->|_]; [contradiction|].
      exact Hw.
Qed.

Lemma generic_ylabel_parts (field label : string) :
  generic_ylabel field = inr label ->
  exists name1 name2 obscode,
    three_parts field name1 name2 obscode
    /\ Py.join "_" (firstn 2 (Py.split "_" field)) = (name1 ++ "_" ++ name2)%string
    /\ label = (Py.capitalize name1 ++ "-" ++ name2 ++ " (" ++ obscode ++ ")")%string.
Proof.
  unfold generic_ylabel.
  pose proof (join_split "_" field) as Hjoin.
  pose proof (split_parts "_" field) as Hparts.
  destruct (Py.split "_" field) as [|n1 [|n2 [|o [|x parts]]]]; try discriminate.
  intros [= <-]. exists n1, n2, o.
  inversion Hparts as [|? ? H1 Hparts']; subst.
  inversion Hparts' as [|? ? H2 Hparts'']; subst.
  inversion Hparts'' as [|? ? H3 _]; subst.
  repeat split; auto.
Qed.

Section Lin.

Variable figure_dir : string.
Variable figure_name : string.
Variable d : Dataset.

Lemma plot_linear_combinations_system_info (field : string) (debug : bool)
    (info_name : string) (get_ylabel : exn + string)
    (acc r : list FigureInfo) (sys : string) (st st' : State) :
  dset st = d ->
  plot_linear_combinations_system figure_dir figure_name field debug info_name
    get_ylabel acc sys st = (inr r, st') ->
  dset st' = d
  /\ exists comb label info call,
       combination_of d field sys = Some comb
       /\ get_ylabel = inr label
       /\ r = acc ++ [info]
       /\ plots st' = plots st ++ [call]
       /\ info = {| file_path := lin_path figure_dir figure_name field sys comb;
                    name := info_name; system_ := sys; obstype := comb |}
       /\ figure_path call = lin_path figure_dir figure_name field sys comb
       /\ ylabel call = label
       /\ labels call = Some (satellites_of d sys).
Proof.
  intros Hd H. unfold plot_linear_combinations_system in H.
  unbind H. unbind H. unbind H. cbv zeta in H. unbind H.
  apply debug_or_not in Hstep1 as [Hds Hps]. rewrite app_nil_r in Hps.
  unbind H. unbind H. unbind H. injection H as <- <-.
  split; [cbn; congruence|].
  do 4 eexists. split; [|split; [eassumption|]].
  - unfold combination_of. rewrite <- Hd.
    match goal with Hl : Py.lookup field _ = Some _ |- _ => rewrite Hl end.
    eassumption.
  - split; [reflexivity|]. split; [cbn [plots]; rewrite Hps; reflexivity|].
    split; [reflexivity|]. split; [reflexivity|]. split; [reflexivity|].
    cbn [labels].
    match goal with Hl : snd _ = satellites_of _ _ |- _ => rewrite Hl end.
    congruence.
Qed.

Lemma lin_systems_loop_info (field : string) (debug : bool)
    (info_name : string) (get_ylabel : exn + string) (syss : list string)
    (acc r : list FigureInfo) (st st' : State) :
  (generic_field field = true ->
   forall label, get_ylabel = inr label ->
     exists name1 name2 obscode,
       three_parts field name1 name2 obscode
       /\ info_name = (name1 ++ "_" ++ name2)%string
       /\ label = (Py.capitalize name1 ++ "-" ++ name2
                   ++ " (" ++ obscode ++ ")")%string) ->
  dset st = d ->
  for_fold syss acc
    (plot_linear_combinations_system figure_dir figure_name field debug
       info_name get_ylabel) st = (inr r, st') ->
  dset st' = d
  /\ exists new calls,
       r = acc ++ new
       /\ plots st' = plots st ++ calls
       /\ Forall2 (lin_info figure_dir figure_name d) (map (pair field) syss) new
       /\ Forall2 (lin_figure figure_dir figure_name d) (map (pair field) syss)
            calls.
Proof.
  intros Hgeneric Hd H. rewrite <- flat_map_pair.
  refine (loop_returns (fun d' => d' = d) _ (fun sys => [(field, sys)])
            (lin_info figure_dir figure_name d)
            (lin_figure figure_dir figure_name d) _ syss acc st r st' Hd H).
  clear - Hgeneric. intros acc0 sys st0 r0 st0' Hd H.
  apply plot_linear_combinations_system_info in H
    as (Hd' & comb & label & info & call & Hcomb & Hlabel & -> & Hp & -> & Hpath
        & Hylabel & Hlabels); [|exact Hd].
  split; [exact Hd'|]. eexists. exists [call].
  split; [reflexivity|]. split; [exact Hp|]. split.
  - constructor; [|constructor]. unfold lin_info.
    cbn [fst snd system_ obstype file_path name].
    repeat split; auto.
    intros Hg. destruct (Hgeneric Hg label Hlabel)
      as (n1 & n2 & o & Hparts & Hname & _). eauto.
  - constructor; [|constructor]. unfold lin_figure. cbn [fst snd].
    split; [exact Hlabels|]. split; [eauto|].
    intros Hg. destruct (Hgeneric Hg label Hlabel)
      as (n1 & n2 & o & Hparts & _ & Hl). exists n1, n2, o.
    split; [exact Hparts | congruence].
Qed.

Lemma plot_linear_combinations_info (st st' : State) (r : list FigureInfo) :
  dset st = d ->
  plot_linear_combinations figure_dir figure_name st = (inr r, st') ->
  exists calls,
    plots st' = plots st ++ calls
    /\ Forall2 (lin_info figure_dir figure_name d)
         (flat_map (fun field => map (pair field) (lin_systems d field))
            (collection_fields d "lin")) r
    /\ Forall2 (lin_figure figure_dir figure_name d)
         (flat_map (fun field => map (pair field) (lin_systems d field))
            (collection_fields d "lin")) calls.
Proof.
  intros Hd H. unfold plot_linear_combinations in H. unbind H. rewrite Hd in H.
  apply (loop_returns (fun d' => d' = d) _
           (fun field => map (pair field) (lin_systems d field))
           (lin_info figure_dir figure_name d)
           (lin_figure figure_dir figure_name d)) in H
    as (_ & new & calls & -> & Hp & Hitem & Hshown); [eauto | | exact Hd].
  clear. intros acc0 field st0 r0 st0' Hd H. unbind H. rewrite Hd in H.
  unfold lin_systems.
  destruct (String.eqb field "melbourne_wuebbena") eqn:H1;
    [|destruct (String.eqb field "code_multipath_f1"
                || String.eqb field "code_multipath_f2") eqn:H2;
      [|destruct (String.eqb field "code_phase_f1"
                  || String.eqb field "code_phase_f2") eqn:H3]];
    (eapply lin_systems_loop_info; [|exact Hd | exact H]).
  - unfold generic_field. rewrite H1. discriminate.
  - unfold generic_field. rewrite H1. cbn [orb]. rewrite <- orb_assoc, H2.
    discriminate.
  - unfold generic_field. rewrite H1. cbn [orb].
    apply orb_false_iff in H2 as [-> ->]. cbn [orb]. rewrite H3. discriminate.
  - intros _ label Hlabel.
    destruct (generic_ylabel_parts field label Hlabel)
      as (n1 & n2 & o & Hparts & Hname & Hl). eauto 6.
Qed.

End Lin.

Lemma Forall2_In_l {X Y} (P : X -> Y -> Prop) (xs : list X) (ys : list Y)
    (x : X) :
  Forall2 P xs ys -> In x xs -> exists y, In y ys /\ P x y.
Proof.
  induction 1 as [|x0 y0 xs ys Hp _ IH]; intros Hin; [destruct Hin|].
  destruct Hin as [->|Hin].
  - exists y0. split; [now left | exact Hp].
  - destruct (IH Hin) as (y & Hy & Hpy). exists y. split; [now right | exact Hpy].
Qed.

(** X22: a run of [plot_linear_combinations] that returns has returned
    one entry and handed over one figure for each field of the
    collection [lin] and each system the field is run over.  The entry
    has the system, the observation types the metadata gives for the
    field and the system, and the path of the figure, which is made of
    the field, the system and the observation types joined by
    underscores.  A field without a branch of its own is unpacked into
    three parts: so a run returns only if every such field, once the
    dataset has an observation, is made of three parts without an
    underscore, joined by underscores; the entry is then named by the
    first two parts, and the label of the y-axis of the figure is made
    of the three. *)
Theorem linear_combinations_are_named_by_their_parts :
  forall (figure_dir figure_name : string) (st st' : State)
         (r : list FigureInfo),
    plot_linear_combinations figure_dir figure_name st = (inr r, st') ->
    let d := dset st in
    let pairs := flat_map (fun field => map (pair field) (lin_systems d field))
                   (collection_fields d "lin") in
    (exists calls,
       plots st' = plots st ++ calls
       /\ Forall2 (lin_info figure_dir figure_name d) pairs r
       /\ Forall2 (lin_figure figure_dir figure_name d) pairs calls)
    /\ forall field,
         In field (collection_fields d "lin") ->
         generic_field field = true ->
         system d <> [] ->
         exists name1 name2 obscode, three_parts field name1 name2 obscode.
Proof.
  intros figure_dir figure_name st st' r Hrun d pairs.
  destruct (plot_linear_combinations_info figure_dir figure_name d st st' r
              eq_refl Hrun) as (calls & Hplots & Hinfo & Hfigure).
  split; [exists calls; auto|].
  intros field Hfield Hgeneric Hsystem.
  destruct (system d) as [|sys0 syss] eqn:Hsys; [now elim Hsystem|].
  assert (Hin : In sys0 (lin_systems d field)).
  { unfold lin_systems, generic_field in *.
    destruct (String.eqb field "melbourne_wuebbena"); [discriminate|].
    destruct (String.eqb field "code_multipath_f1"); [discriminate|].
    destruct (String.eqb field "code_multipath_f2"); [discriminate|].
    destruct (String.eqb field "code_phase_f1"); [discriminate|].
    destruct (String.eqb field "code_phase_f2"); [discriminate|].
    cbn [orb]. apply sorted_unique_In. rewrite Hsys. now left. }
  assert (Hpair : In (field, sys0) pairs).
  { unfold pairs. apply in_flat_map. exists field. split; [exact Hfield|].
    now apply in_map. }
  destruct (Forall2_In_l _ _ _ _ Hinfo Hpair) as (info & _ & Hi).
  destruct Hi as (_ & _ & _ & Hparts).
  destruct (Hparts Hgeneric) as (n1 & n2 & o & H & _). eauto.
Qed.

(** The geometry-free combination of the codes of GPS. *)
Lemma linear_combinations_are_named_by_their_parts_witness :
  let run := plot_linear_combinations "figures" "plot_{solution}.{FIGURE_FORMAT}"
               (start with_geometry_free) in
  fst run
  = inr [ {| file_path := "figures/plot_geometry_free_code_G_C1C_C2W.png";
             name := "geometry_free";
             system_ := "G";
             obstype := ["C1C"; "C2W"] |} ]
  /\ map ylabel (plots (snd run)) = ["Geometry-free (code)"]
  /\ three_parts "geometry_free_code" "geometry" "free" "code".
Proof.
  cbv zeta.
  destruct (plot_linear_combinations "figures" "plot_{solution}.{FIGURE_FORMAT}"
              (start with_geometry_free)) as [[e|r] st'] eqn:Hrun;
    [vm_compute in Hrun; discriminate|].
  destruct (linear_combinations_are_named_by_their_parts _ _ _ _ _ Hrun)
    as (_ & Hparts).
  destruct (Hparts "geometry_free_code") as (n1 & n2 & o & _);
    [now left | reflexivity | discriminate |].
  vm_compute in Hrun. injection Hrun as <- <-.
  repeat split.
Defined.

(** ** The arrays of [plot_obstype_availability] *)

(** [keep_idx[idx] = f(obs[idx])], with [keep_idx] false outside [idx],
    marks the entries of [idx] that satisfy [f]. *)
Lemma put_mask_observed {A} (f : A -> bool) (sat : string) (col : list string)
    (keep : list bool) (obs : list A) :
  List.length keep = List.length col ->
  List.length obs = List.length col ->
  Forall2 (fun k c => String.eqb sat c = false -> k = false) keep col ->
  Py.put_mask (mask_eq col sat) keep (map f (Py.take_mask (mask_eq col sat) obs))
  = map (fun p => String.eqb sat (fst p) && f (snd p)) (combine col obs).
Proof.
  unfold mask_eq. intros Hk Ho Hout. revert obs Ho.
  induction Hout as [|k c keep col Hkc _ IH]; intros [|v obs] Ho;
    try discriminate; [reflexivity|].
  cbn [map combine Py.put_mask Py.take_mask fst snd].
  injection Hk as Hk. injection Ho as Ho.
  destruct (String.eqb sat c).
  - cbn [map andb]. now rewrite IH.
  - rewrite (Hkc eq_refl), IH by assumption. reflexivity.
Qed.

Lemma observed_outside (d : Dataset) (sat obstype_ : string) :
  List.length (values_of d ("obs." ++ obstype_)) = List.length (satellite d) ->
  List.length (observed d sat obstype_) = List.length (satellite d)
  /\ Forall2 (fun k c => String.eqb sat c = false -> k = false)
       (observed d sat obstype_) (satellite d).
Proof.
  unfold observed. generalize (values_of d ("obs." ++ obstype_)).
  induction (satellite d) as [|c col IH]; intros [|v obs] Hlen;
    try discriminate; [split; [reflexivity | constructor]|].
  injection Hlen as Hlen. destruct (IH obs Hlen) as [Hl Hf].
  cbn [combine map fst snd List.length]. split; [now rewrite Hl|].
  constructor; [|exact Hf]. now intros ->.
Qed.

Lemma lookup_In {V} (k : string) (v : V) (m : list (string * V)) :
  Py.lookup k m = Some v -> In (k, v) m.
Proof.
  induction m as [|[k0 v0] m IH]; cbn; [discriminate|].
  destruct (String.eqb_spec k k0) as [->|_].
  - intros [= ->]. now left.
  - intros H. right. now apply IH.
Qed.

Lemma sorted_in_place_lookup (m m' : list (string * list string))
    (sys : string) (cur : list string) :
  lists_sorted_in_place m m' ->
  Py.lookup sys m' = Some cur ->
  Py.sort_key Py.slice_m2_3 cur
  = Py.sort_key Py.slice_m2_3
      match Py.lookup sys m with Some items => items | None => [] end.
Proof.
  induction 1 as [|[k v] [k' v'] m m' [Hk Hv] _ IH]; cbn [Py.lookup];
    [discriminate|].
  cbn [fst snd] in Hk, Hv. subst k'.
  destruct (String.eqb sys k); [|exact IH].
  intros [= <-]. destruct Hv as [->| ->]; [reflexivity|].
  apply sort_key_idempotent.
Qed.

Section Availability.

Variable figure_dir : string.
Variable figure_name : string.
Variable d : Dataset.
Hypothesis d_well_formed : well_formed d.

Lemma obs_length (obstype_ : string) :
  List.length (values_of d ("obs." ++ obstype_)) = List.length (satellite d)
  \/ getitem_field d ("obs." ++ obstype_) = inl (KeyError ("obs." ++ obstype_)).
Proof.
  destruct d_well_formed as (_ & _ & Hsat & _ & _ & _ & Hfields).
  unfold values_of, getitem_field.
  destruct (Py.lookup ("obs." ++ obstype_) (fields d)) as [a|] eqn:Hl;
    [left | now right].
  apply lookup_In in Hl. rewrite Forall_forall in Hfields.
  specialize (Hfields _ Hl). cbn [snd] in Hfields. now rewrite Hfields, Hsat.
Qed.

Lemma same_observations_refl : same_observations d d.
Proof. repeat split. apply lists_sorted_in_place_refl. Qed.

Lemma plot_obstype_availability_obstype_exact (sat : string)
    (acc r : list bool * (list (list cell) * list (list cell)))
    (obstype_ : string) (st st' : State) :
  same_observations d (dset st) ->
  List.length (fst acc) = List.length (satellite d) ->
  Forall2 (fun k c => String.eqb sat c = false -> k = false)
    (fst acc) (satellite d) ->
  plot_obstype_availability_obstype sat (mask_eq (satellite d) sat) acc
    obstype_ st = (inr r, st') ->
  st' = st
  /\ List.length (fst r) = List.length (satellite d)
  /\ Forall2 (fun k c => String.eqb sat c = false -> k = false)
       (fst r) (satellite d)
  /\ fst (snd r) = fst (snd acc) ++ map fst (availability d sat obstype_)
  /\ snd (snd r) = snd (snd acc) ++ map snd (availability d sat obstype_).
Proof.
  intros (Ht & Hg & _ & _ & Hf & _) Hlen Hout H.
  unfold plot_obstype_availability_obstype in H.
  unbind H. unbind H. cbv zeta in H.
  match goal with
  | Hs : getitem_field _ _ = inr ?v |- _ => rename v into obs; rename Hs into Hobs
  end.
  unfold getitem_field in Hobs. rewrite Hf in Hobs.
  assert (Hv : values_of d ("obs." ++ obstype_) = obs).
  { unfold values_of, getitem_field.
    destruct (Py.lookup _ (fields d)); congruence. }
  destruct (obs_length obstype_) as [Hl|Hnone].
  2:{ unfold getitem_field in Hnone.
      destruct (Py.lookup _ (fields d)); congruence. }
  rewrite Hv in Hl.
  rewrite (put_mask_observed (fun v => negb (Float.isnan v)) sat (satellite d)
             (fst acc) obs Hlen Hl Hout) in H.
  assert (Hkeep : map (fun p => String.eqb sat (fst p)
                                && negb (Float.isnan (snd p)))
                    (combine (satellite d) obs) = observed d sat obstype_)
    by (unfold observed; now rewrite Hv).
  rewrite Hkeep in H.
  destruct (observed_outside d sat obstype_) as [Hl' Ho];
    [now rewrite Hv|].
  unfold availability. cbv zeta. unfold gps_time in *. rewrite Ht, Hg in H.
  destruct (any (observed d sat obstype_)); injection H as <- <-;
    cbn [fst snd map]; rewrite ?app_nil_r; auto.
Qed.

Lemma plot_obstype_availability_obstypes_exact (sat : string)
    (obstypes : list string)
    (acc r : list bool * (list (list cell) * list (list cell)))
    (st st' : State) :
  same_observations d (dset st) ->
  List.length (fst acc) = List.length (satellite d) ->
  Forall2 (fun k c => String.eqb sat c = false -> k = false)
    (fst acc) (satellite d) ->
  for_fold obstypes acc
    (plot_obstype_availability_obstype sat (mask_eq (satellite d) sat)) st
  = (inr r, st') ->
  st' = st
  /\ fst (snd r)
     = fst (snd acc) ++ map fst (flat_map (availability d sat) obstypes)
  /\ snd (snd r)
     = snd (snd acc) ++ map snd (flat_map (availability d sat) obstypes).
Proof.
  intros Hsame. revert acc.
  induction obstypes as [|o obstypes IH]; intros acc Hlen Hout;
    cbn [for_fold flat_map].
  - intros [= <- <-]. cbn [map]. now rewrite !app_nil_r.
  - intros H. unbind H.
    apply plot_obstype_availability_obstype_exact in Hstep
      as (-> & Hlen' & Hout' & Hx & Hy); auto.
    apply IH in H as (-> & Hx' & Hy'); auto.
    rewrite Hx', Hy', Hx, Hy, !map_app, !app_assoc. auto.
Qed.

Lemma plot_obstype_availability_satellite_exact (sys : string)
    (acc r : list (list cell) * list (list cell)) (sat : string)
    (st st' : State) :
  same_observations d (dset st) ->
  plot_obstype_availability_satellite sys acc sat st = (inr r, st') ->
  same_observations d (dset st')
  /\ plots st' = plots st
  /\ fst r
     = fst acc
       ++ map fst (flat_map (fun sat => flat_map (availability d sat)
                                          (obstypes_of d sys))
                     (if Py.startswith sat sys then [sat] else []))
  /\ snd r
     = snd acc
       ++ map snd (flat_map (fun sat => flat_map (availability d sat)
                                          (obstypes_of d sys))
                     (if Py.startswith sat sys then [sat] else [])).
Proof.
  intros Hsame. unfold plot_obstype_availability_satellite.
  destruct (Py.startswith sat sys); cbn [negb].
  2:{ intros [= <- <-]. cbn. now rewrite !app_nil_r. }
  intros H. unbind H. cbv zeta in H. unbind H.
  match goal with
  | Hs : _sort_string_array _ _ = (inr ?o, ?s1) |- _ =>
      rename o into obstypes; rename s1 into st1; rename Hs into Hsort
  end.
  assert (Hsorted : obstypes = obstypes_of d sys
                    /\ same_observations d (dset st1) /\ plots st1 = plots st).
  { clear H. unfold _sort_string_array, deref, assign in Hsort.
    apply bind_returns in Hsort as (items & s2 & Hderef & Hsort).
    apply bind_returns in Hderef as (d0 & s3 & [-> ->]%get_dset_inv & Hderef).
    apply getitem_inv in Hderef as [Hitems ->].
    cbv zeta in Hsort.
    apply bind_returns in Hsort as (u & s4 & Hassign & Hsort).
    injection Hsort as <- <-. injection Hassign as _ <-.
    destruct Hsame as (Ht & Hg & Hy & Hs & Hf & Hm).
    split; [|split; [|reflexivity]].
    - unfold obstypes_of. eapply sorted_in_place_lookup; eauto.
    - cbn [set_dset dset with_meta_obstypes time_datetime time_gps_datetime
             system satellite fields meta_obstypes].
      repeat split; auto.
      eapply lists_sorted_in_place_trans; [exact Hm|].
      now apply setitem_sorted_in_place. }
  destruct Hsorted as (-> & Hsame' & Hplots).
  apply bind_returns in H as (looped & s5 & Hloop & H).
  injection H as <- <-.
  destruct Hsame as (Ht & _ & _ & Hs & _).
  rewrite Hs in Hloop. unfold num_obs in Hloop. rewrite Ht in Hloop.
  apply plot_obstype_availability_obstypes_exact in Hloop
    as (-> & Hx & Hy); auto.
  - cbn [flat_map]. rewrite app_nil_r. cbn [fst snd] in *. auto.
  - cbn [fst]. rewrite repeat_length.
    destruct d_well_formed as (_ & _ & Hsat & _). now rewrite Hsat.
  - cbn [fst]. destruct d_well_formed as (_ & _ & Hsat & _).
    fold (num_obs d). rewrite <- Hsat. clear.
    induction (satellite d); cbn; constructor; auto.
Qed.

Lemma plot_obstype_availability_satellites_exact (sys : string)
    (sats : list string) (acc r : list (list cell) * list (list cell))
    (st st' : State) :
  same_observations d (dset st) ->
  for_fold sats acc (plot_obstype_availability_satellite sys) st
  = (inr r, st') ->
  same_observations d (dset st')
  /\ plots st' = plots st
  /\ fst r
     = fst acc
       ++ map fst (flat_map (fun sat => flat_map (availability d sat)
                                          (obstypes_of d sys))
                     (filter (fun sat => Py.startswith sat sys) sats))
  /\ snd r
     = snd acc
       ++ map snd (flat_map (fun sat => flat_map (availability d sat)
                                          (obstypes_of d sys))
                     (filter (fun sat => Py.startswith sat sys) sats)).
Proof.
  revert acc st.
  induction sats as [|sat sats IH]; intros acc st Hsame; cbn [for_fold filter].
  - intros [= <- <-]. cbn. now rewrite !app_nil_r.
  - intros H. unbind H.
    apply plot_obstype_availability_satellite_exact in Hstep
      as (Hsame1 & Hp1 & Hx1 & Hy1); [|exact Hsame].
    apply IH in H as (Hsame2 & Hp2 & Hx2 & Hy2); [|exact Hsame1].
    split; [exact Hsame2|]. split; [congruence|].
    rewrite Hx2, Hy2, Hx1, Hy1.
    destruct (Py.startswith sat sys); cbn [flat_map app];
      rewrite ?app_nil_r, ?map_app, ?app_assoc; auto.
Qed.

Lemma plot_obstype_availability_system_exact (acc r : list string)
    (sys : string) (st st' : State) :
  same_observations d (dset st) ->
  plot_obstype_availability_system figure_dir figure_name acc sys st
  = (inr r, st') ->
  same_observations d (dset st')
  /\ exists new calls,
       r = acc ++ new
       /\ plots st' = plots st ++ calls
       /\ Forall2 (fun sys p => p = system_path figure_dir figure_name sys)
            [sys] new
       /\ Forall2 (availability_figure figure_dir figure_name d) [sys] calls.
Proof.
  intros Hsame H. unfold plot_obstype_availability_system in H.
  unbind H. cbv zeta in H. unbind H. unbind H.
  match goal with
  | Hs : for_fold _ _ _ _ = _ |- _ => rename Hs into Hloop
  end.
  pose proof Hsame as (_ & _ & _ & Hsat & _).
  rewrite Hsat in Hloop.
  apply plot_obstype_availability_satellites_exact in Hloop
    as (Hsame2 & Hp2 & Hx & Hy); [|exact Hsame].
  unbind H. injection H as <- <-.
  split; [exact Hsame2|].
  do 2 eexists. split; [reflexivity|]. split; [|split].
  - cbn [plots] in *. rewrite Hp2. reflexivity.
  - constructor; [reflexivity | constructor].
  - constructor; [|constructor]. unfold availability_figure.
    cbn [figure_path x_arrays y_arrays]. split; [reflexivity|].
    unfold availability_of, satellites_of_reverse.
    cbn [fst snd] in Hx, Hy. now rewrite Hx, Hy.
Qed.

Lemma plot_obstype_availability_exact (st st' : State) (r : list string) :
  dset st = d ->
  plot_obstype_availability figure_dir figure_name st = (inr r, st') ->
  same_observations d (dset st')
  /\ exists calls,
       plots st' = plots st ++ calls
       /\ Forall2 (availability_figure figure_dir figure_name d)
            (Py.sorted (Py.unique (system d))) calls.
Proof.
  intros Hd H. unfold plot_obstype_availability in H. unbind H. rewrite Hd in H.
  apply (loop_returns (same_observations d) _ (fun sys => [sys])
           (fun sys p => p = system_path figure_dir figure_name sys)
           (availability_figure figure_dir figure_name d)) in H
    as (Hsame & new & calls & -> & Hp & Hitem & Hshown).
  - rewrite flat_map_singleton in Hshown. split; [exact Hsame|].
    exists calls. split; [exact Hp | exact Hshown].
  - intros acc0 sys st0 r0 st0'. apply plot_obstype_availability_system_exact.
  - rewrite Hd. apply same_observations_refl.
Qed.

End Availability.

Lemma availability_aligned (d : Dataset) (sys : string) :
  well_formed d ->
  Forall (fun xy => List.length (fst xy) = List.length (snd xy))
    (availability_of d sys).
Proof.
  intros (Hg & _). unfold availability_of.
  apply Forall_forall. intros xy Hxy.
  apply in_flat_map in Hxy as (sat & _ & Hxy).
  apply in_flat_map in Hxy as (o & _ & Hxy).
  unfold availability in Hxy. cbv zeta in Hxy.
  destruct (any (observed d sat o)); [|destruct Hxy].
  destruct Hxy as [<-|[]]. cbn [fst snd]. rewrite repeat_length.
  unfold gps_time. apply take_mask_length. now rewrite length_map.
Qed.

(** X23: a run of [plot_obstype_availability] on a dataset whose
    columns and fields have one entry for each observation, when it
    returns, has handed over one figure for each system, which holds,
    for each satellite of the system from the last to the first and
    each observation type of the system in the order of
    [_sort_string_array], one series if the satellite has a value of
    that type that is not NaN, and none if it has not.  The series
    shows the times of the observations of the satellite that have
    such a value, each against the text of the satellite and the type.
    The run changes nothing in the dataset but the order of the lists
    of observation types. *)
Theorem obstype_availability_shows_the_observed_values :
  forall (figure_dir figure_name : string) (st st' : State) (r : list string),
    well_formed (dset st) ->
    plot_obstype_availability figure_dir figure_name st = (inr r, st') ->
    let d := dset st in
    same_observations d (dset st')
    /\ (exists calls,
          plots st' = plots st ++ calls
          /\ Forall2 (availability_figure figure_dir figure_name d)
               (Py.sorted (Py.unique (system d))) calls)
    /\ forall sys,
         Forall (fun xy => List.length (fst xy) = List.length (snd xy))
           (availability_of d sys).
Proof.
  intros figure_dir figure_name st st' r Hwf Hrun d.
  destruct (plot_obstype_availability_exact figure_dir figure_name d Hwf
              st st' r eq_refl Hrun) as (Hsame & Hcalls).
  split; [exact Hsame|]. split; [exact Hcalls|].
  intros sys. now apply availability_aligned.
Qed.

(** In [two_epochs] the satellite G02 comes first and has the type C1C
    alone; G01 has one value of C1C and two of C2W. *)
Lemma obstype_availability_shows_the_observed_values_witness :
  let run := plot_obstype_availability "figures"
               "plot_obstype_availability_{system}.{FIGURE_FORMAT}"
               (start two_epochs) in
  map x_arrays (plots (snd run))
  = [ [ [Time 118%Z; Time 148%Z]; [Time 118%Z]; [Time 118%Z; Time 148%Z] ] ]
  /\ map y_arrays (plots (snd run))
     = [ [ [Text "G02_C1C"; Text "G02_C1C"]; [Text "G01_C1C"];
           [Text "G01_C2W"; Text "G01_C2W"] ] ].
Proof.
  cbv zeta.
  destruct (plot_obstype_availability "figures"
              "plot_obstype_availability_{system}.{FIGURE_FORMAT}"
              (start two_epochs)) as [[e|r] st'] eqn:Hrun;
    [vm_compute in Hrun; discriminate|].
  assert (Hwf : well_formed (dset (start two_epochs))).
  { unfold well_formed. repeat (split; [reflexivity|]). repeat constructor. }
  destruct (obstype_availability_shows_the_observed_values _ _ _ _ _ Hwf Hrun)
    as (_ & (calls & Hplots & Hshown) & _).
  cbn [snd]. rewrite Hplots. cbn [plots start app].
  revert Hshown.
  change (Py.sorted (Py.unique (system (dset (start two_epochs))))) with ["G"].
  intros Hshown.
  inversion Hshown as [|? call ? ? (_ & Hx & Hy) Hnil]; subst.
  inversion Hnil; subst. cbn [map]. rewrite Hx, Hy. split; reflexivity.
Defined.

End PlotFacts.
